(** * FocusMode: the study-session page controller and the serverless API

    A shallow embedding of
    - [src/pages/sesi-belajar/sesi-belajar-page.js] (class [SesiBelajarPage]),
    - [api/index.js] (the serverless [handler] with [sanitizeInput],
      [validateEmail], [authenticateToken]) and the session statements of
      class [Database],
    together with the properties the specification states about them.

    Conventions.
    - A JavaScript string is the list of its UTF-16 code units ([jsstring]);
      [length], [slice] and the one-character regular expressions of the
      source all work on code units.
    - Instants ([created_at], [createdAt], [new Date().toISOString()]) are
      integers: the ISO text of an instant is an order-preserving encoding.
    - An [async] method is run to completion: the model has one thread of
      control and no interleaving of two handlers between their [await]s.
    - A thrown exception never rolls the state back. *)

From Stdlib Require Import ZArith NArith List String Ascii Lia Permutation.
From stdpp Require Import base tactics option list strings sorting pretty.

Open Scope Z_scope.

(** ** JavaScript values and strings *)

Module Js.

Definition jsstring : Type := list N.

(** An ASCII literal of the source as a [jsstring]. *)
Definition lit (s : string) : jsstring := N_of_ascii <$> list_ascii_of_string s.

(** The double quote, which the template literals of the page use for
    attribute values. *)
Definition dq : jsstring := [34%N].

(** [String(n)] for an integer. *)
Definition of_Z (z : Z) : jsstring := lit (pretty z).

(** ECMAScript [WhiteSpace] and [LineTerminator]: what [String.prototype.trim]
    strips and what [\s] matches. *)
Definition is_whitespace (c : N) : bool :=
  ((9 <=? c) && (c <=? 13) || (c =? 32) || (c =? 160) || (c =? 5760)
   || (8192 <=? c) && (c <=? 8202) || (c =? 8232) || (c =? 8233)
   || (c =? 8239) || (c =? 8287) || (c =? 12288) || (c =? 65279))%N.

Fixpoint trimStart (s : jsstring) : jsstring :=
  match s with
  | c :: s' => if is_whitespace c then trimStart s' else s
  | [] => []
  end.

Definition trimEnd (s : jsstring) : jsstring := rev (trimStart (rev s)).

(** [s.trim()] *)
Definition trim (s : jsstring) : jsstring := trimEnd (trimStart s).

(** What an [input type=text] keeps of a value assigned to it: the line
    breaks (LF and CR) are stripped. *)
Definition strip_newlines (s : jsstring) : jsstring :=
  filter (B := list N) (fun c => c <> 10%N /\ c <> 13%N) s.

(** What a [textarea] returns of a value assigned to it: CR LF and a CR
    alone become LF. *)
Fixpoint normalize_newlines (s : jsstring) : jsstring :=
  match s with
  | [] => []
  | c :: s' =>
      if (c =? 13)%N then
        match s' with
        | c' :: s'' => if (c' =? 10)%N then 10%N :: normalize_newlines s''
                       else 10%N :: normalize_newlines s'
        | [] => [10%N]
        end
      else c :: normalize_newlines s'
  end.

(** [s.slice(0, n)] for [n >= 0]. *)
Definition slice0 (n : nat) (s : jsstring) : jsstring := take n s.

(** [s.replace(/c/g, r)] for a pattern of one literal character. *)
Definition replace_all (c : N) (r : jsstring) (s : jsstring) : jsstring :=
  flat_map (fun x => if (x =? c)%N then r else [x]) s.

Fixpoint starts_with (p s : jsstring) : bool :=
  match p, s with
  | [], _ => true
  | a :: p', b :: s' => (a =? b)%N && starts_with p' s'
  | _ :: _, [] => false
  end.

(** [s.replace(p, r)] for a string pattern: the first occurrence only. *)
Fixpoint replace_first (p r s : jsstring) : jsstring :=
  if starts_with p s then r ++ drop (length p) s
  else match s with
       | [] => []
       | c :: s' => c :: replace_first p r s'
       end.

(** [s.split(sep)] for a one-character separator. *)
Fixpoint split_on (sep : N) (s : jsstring) : list jsstring :=
  match s with
  | [] => [[]]
  | c :: s' =>
      if (c =? sep)%N then [] :: split_on sep s'
      else match split_on sep s' with
           | w :: ws => (c :: w) :: ws
           | [] => [[c]]
           end
  end.

(** The values a JSON request body or a database row can hold. *)
#[warnings="-register-all"]
Inductive jsval : Type :=
  | JUndefined
  | JNull
  | JBool (b : bool)
  | JNum (z : Z)
  | JStr (s : jsstring)
  | JArr (l : list jsval)
  | JObj (l : list (string * jsval)).

(** [ToBoolean]. *)
Definition truthy (v : jsval) : bool :=
  match v with
  | JUndefined | JNull => false
  | JBool b => b
  | JNum z => negb (z =? 0)
  | JStr s => negb (Nat.eqb (length s) 0)
  | JArr _ | JObj _ => true
  end.

(** Property read [o.k] on an object literal or a row; [undefined] when the
    key is absent. *)
Fixpoint get_field (k : string) (o : list (string * jsval)) : jsval :=
  match o with
  | [] => JUndefined
  | (k', v) :: o' => if String.eqb k k' then v else get_field k o'
  end.

Definition has_field (k : string) (o : list (string * jsval)) : bool :=
  existsb (fun kv => String.eqb k kv.1) o.

(** The result of running a piece of code: a value, or a thrown exception
    with its message. *)
Inductive outcome (A : Type) : Type :=
  | Ok (a : A)
  | Throw (e : jsstring).
Arguments Ok {A} a.
Arguments Throw {A} e.

(** Code that reads and writes a state [S] and may throw. *)
Definition M (S A : Type) : Type := S -> outcome A * S.

Definition ret {S A} (a : A) : M S A := fun s => (Ok a, s).

Definition bind {S A B} (m : M S A) (k : A -> M S B) : M S B :=
  fun s => match m s with
           | (Ok a, s') => k a s'
           | (Throw e, s') => (Throw e, s')
           end.

Definition throw {S A} (e : jsstring) : M S A := fun s => (Throw e, s).

(** [try { m } catch (e) { h e }] *)
Definition try_catch {S A} (m : M S A) (h : jsstring -> M S A) : M S A :=
  fun s => match m s with
           | (Ok a, s') => (Ok a, s')
           | (Throw e, s') => h e s'
           end.

Definition get {S} : M S S := fun s => (Ok s, s).
Definition modify {S} (f : S -> S) : M S unit := fun s => (Ok tt, f s).

(** A call whose result depends on the state but leaves it alone. *)
Definition lift_outcome {S A} (o : outcome A) : M S A := fun s => (o, s).

(** [returns I Q m]: started in a state that satisfies [I], [m] ends in a
    state that satisfies [I], and when it returns a value the value
    satisfies [Q]. *)
Definition returns {S A} (I : S -> Prop) (Q : A -> Prop) (m : M S A) : Prop :=
  forall s, I s ->
    match m s with
    | (Ok a, s') => Q a /\ I s'
    | (Throw _, s') => I s'
    end.

End Js.

Export Js.

Notation "'let!' x ':=' m 'in' k" := (bind m (fun x => k))
  (at level 10, x name, m at level 100, k at level 200).
Notation "'do!' m 'in' k" := (bind m (fun _ => k))
  (at level 10, m at level 100, k at level 200).

(** ** The study-session page: [sesi-belajar-page.js] *)

Module SesiBelajar.

(** A session object. [I] is the type of its [id]: [Z] for an entity that a
    source returned, [option Z] for the [sessionData] literal built from the
    form, which has no [id] until one is assigned. [None] in a text field is
    [null] or [undefined]; [None] in [duration] is [NaN]. The columns the
    page never reads ([user_id], [updated_at]) are left out. *)
Record SessionOf (I : Type) : Type := mkSession {
  id : I;
  title : option jsstring;
  subject : option jsstring;
  duration : option Z;
  status : jsstring;
  description : option jsstring;
  notes : option jsstring;
  created_at : option Z;
  createdAt : option Z;
  updatedAt : option Z;
  started_at : option Z;
  completed_at : option Z }.
Arguments mkSession {I}.
Arguments id {I}.
Arguments title {I}.
Arguments subject {I}.
Arguments duration {I}.
Arguments status {I}.
Arguments description {I}.
Arguments notes {I}.
Arguments created_at {I}.
Arguments createdAt {I}.
Arguments updatedAt {I}.
Arguments started_at {I}.
Arguments completed_at {I}.

Definition Session : Type := SessionOf Z.
Definition SessionData : Type := SessionOf (option Z).

Definition set_id {I J} (j : J) (s : SessionOf I) : SessionOf J :=
  mkSession j (title s) (subject s) (duration s) (status s) (description s)
    (notes s) (created_at s) (createdAt s) (updatedAt s) (started_at s)
    (completed_at s).

Definition set_status {I} (v : jsstring) (s : SessionOf I) : SessionOf I :=
  mkSession (id s) (title s) (subject s) (duration s) v (description s)
    (notes s) (created_at s) (createdAt s) (updatedAt s) (started_at s)
    (completed_at s).

Definition set_createdAt {I} (v : Z) (s : SessionOf I) : SessionOf I :=
  mkSession (id s) (title s) (subject s) (duration s) (status s)
    (description s) (notes s) (created_at s) (Some v) (updatedAt s)
    (started_at s) (completed_at s).

Definition set_updatedAt {I} (v : Z) (s : SessionOf I) : SessionOf I :=
  mkSession (id s) (title s) (subject s) (duration s) (status s)
    (description s) (notes s) (created_at s) (createdAt s) (Some v)
    (started_at s) (completed_at s).

Definition set_started_at {I} (v : Z) (s : SessionOf I) : SessionOf I :=
  mkSession (id s) (title s) (subject s) (duration s) (status s)
    (description s) (notes s) (created_at s) (createdAt s) (updatedAt s)
    (Some v) (completed_at s).

Definition set_completed_at {I} (v : Z) (s : SessionOf I) : SessionOf I :=
  mkSession (id s) (title s) (subject s) (duration s) (status s)
    (description s) (notes s) (created_at s) (createdAt s) (updatedAt s)
    (started_at s) (Some v).

(** An entity handed back to a store keeps its id. *)
Definition as_data (s : Session) : SessionData := set_id (Some (id s)) s.

#[global] Instance SessionOf_eq_dec {I} `{EqDecision I} : EqDecision (SessionOf I).
Proof. solve_decision. Defined.

(** The three values of the [sessionStatus] select (and of [sessionFilter],
    which also offers ['all']). *)
Definition planned : jsstring := lit "planned".
Definition inprogress : jsstring := lit "inprogress".
Definition completed : jsstring := lit "completed".

Inductive StatusOption : Type := opt_planned | opt_inprogress | opt_completed.

Definition option_value (o : StatusOption) : jsstring :=
  match o with
  | opt_planned => planned
  | opt_inprogress => inprogress
  | opt_completed => completed
  end.

(** The [show-toast] events dispatched on [document]. *)
Inductive ToastType : Type := success | error.

Record Toast : Type := mkToast { message : jsstring; type : ToastType }.

#[global] Instance ToastType_eq_dec : EqDecision ToastType.
Proof. solve_decision. Defined.
#[global] Instance Toast_eq_dec : EqDecision Toast.
Proof. solve_decision. Defined.

(** The buttons of a session card, by the class the click handler tests. *)
Inductive ButtonClass : Type := edit_btn | delete_btn | start_btn | complete_btn.

Record Button : Type := mkButton { btn_class : ButtonClass; data_id : Z }.

#[global] Instance ButtonClass_eq_dec : EqDecision ButtonClass.
Proof. solve_decision. Defined.
#[global] Instance Button_eq_dec : EqDecision Button.
Proof. solve_decision. Defined.

(** The [sessionForm] element: [dataset.editId] and the five inputs.
    [dataset.editId] holds the decimal text of an id; the model keeps the
    number that [parseInt] reads back. *)
Record Form : Type := mkForm {
  editId : option Z;
  sessionTitle : jsstring;
  sessionSubject : jsstring;
  sessionDuration : option Z;
  sessionStatus : jsstring;
  sessionNotes : jsstring }.

(** The page object and the part of the document it reads and writes. *)
Record Page : Type := mkPage {
  sessions : list Session;
  sessionFilter : jsstring;
  sessionList_innerHTML : jsstring;
  sessionList_buttons : list Button;
  sessionModal_open : bool;
  sessionForm : Form;
  toasts : list Toast;
  console_error : list (jsstring * jsstring);
  timeouts : list jsstring }.

(** Calls that leave the page object: the remote client and the local
    store. *)
Inductive Call : Type :=
  | Api_auth_isLoggedIn
  | Api_sessions_getAll
  | Api_sessions_create (d : SessionData)
  | Api_sessions_update (i : Z) (d : SessionData)
  | Api_sessions_delete (i : Z)
  | Api_sessions_start (i : Z)
  | Api_sessions_complete (i : Z) (dur : option Z)
  | DB_getAll
  | DB_set (d : SessionData)
  | DB_delete (i : Z).

#[global] Instance Call_eq_dec : EqDecision Call.
Proof. solve_decision. Defined.

(** A request that goes over the network. [isLoggedIn] only reads the
    authentication state. *)
Definition is_network (c : Call) : bool :=
  match c with
  | Api_sessions_getAll | Api_sessions_create _ | Api_sessions_update _ _
  | Api_sessions_delete _ | Api_sessions_start _ | Api_sessions_complete _ _ => true
  | _ => false
  end.

Definition is_local_write (c : Call) : bool :=
  match c with
  | DB_set _ | DB_delete _ => true
  | _ => false
  end.

(** The two collaborators the page imports, [Api] from [data/api.js] and
    [DB] from [js/db.js], as operations on a world [W] that may throw, and
    the clock behind [new Date()]. Their code is not part of the page: the
    page is verified for every implementation of this interface. *)
Class Collaborators (W : Type) : Type := {
  isLoggedIn : W -> bool;
  api_getAll : W -> outcome (list Session) * W;
  api_create : SessionData -> W -> outcome unit * W;
  api_update : Z -> SessionData -> W -> outcome unit * W;
  api_delete : Z -> W -> outcome unit * W;
  api_start : Z -> W -> outcome unit * W;
  api_complete : Z -> option Z -> W -> outcome unit * W;
  db_getAll : W -> outcome (list Session) * W;
  db_set : SessionData -> W -> outcome Session * W;
  db_delete : Z -> W -> outcome unit * W;
  date_now : W -> Z }.

(** Assigning [v] to the [value] of the status select: an option is selected
    when [v] is one of the three values, none otherwise. *)
Definition select_value (v : jsstring) : jsstring :=
  if decide (v = planned \/ v = inprogress \/ v = completed) then v else [].

(** [escapeHtml]: five global replacements, [&] first. *)
Definition escapeHtml (unsafe : jsstring) : jsstring :=
  replace_all 39 (lit "&#039;")
    (replace_all 34 (lit "&quot;")
      (replace_all 62 (lit "&gt;")
        (replace_all 60 (lit "&lt;")
          (replace_all 38 (lit "&amp;") unsafe)))).

(** [escapeHtml] applied to a field that may be [null] or [undefined]:
    [unsafe.replace] throws a [TypeError] there. *)
Definition escapeHtml_field (unsafe : option jsstring) : outcome jsstring :=
  match unsafe with
  | Some s => Ok (escapeHtml s)
  | None => Throw (lit "TypeError: Cannot read properties of undefined (reading 'replace')")
  end.

(** What the look-up [statusMap[status]] finds beyond the three keys of the
    literal: the properties every object literal inherits from
    [Object.prototype]. All are truthy, so [||] keeps them, and the template
    that calls [getStatusText] writes them as text: a built-in function as
    its source text, given here as V8 prints it, and [__proto__], which is
    [Object.prototype] itself, as [[object Object]]. *)
Definition inherited (st : jsstring) : option jsstring :=
  let native name := Some (lit "function " ++ lit name ++ lit "() { [native code] }") in
  if decide (st = lit "constructor") then native "Object"%string
  else if decide (st = lit "__proto__") then Some (lit "[object Object]")
  else
    match
      List.find (fun name => bool_decide (st = lit name))
        ["hasOwnProperty"; "isPrototypeOf"; "propertyIsEnumerable"; "toLocaleString";
         "toString"; "valueOf"; "__defineGetter__"; "__defineSetter__";
         "__lookupGetter__"; "__lookupSetter__"]%string
    with
    | Some name => native name
    | None => None
    end.

(** [getStatusText]: [statusMap[status] || status], as the text the card
    template writes. *)
Definition getStatusText (st : jsstring) : jsstring :=
  if decide (st = planned) then lit "Direncanakan"
  else if decide (st = inprogress) then lit "Sedang Berlangsung"
  else if decide (st = completed) then lit "Selesai"
  else default st (inherited st).

(** [name="value"] *)
Definition attr (name : string) (value : jsstring) : jsstring :=
  lit name ++ lit "=" ++ dq ++ value ++ dq.

(** A text field in a condition: [null], [undefined] and [''] are falsy. *)
Definition field_truthy (f : option jsstring) : bool :=
  match f with
  | Some (_ :: _) => true
  | _ => false
  end.

Definition button_label (c : ButtonClass) : jsstring :=
  match c with
  | edit_btn => lit "Edit"
  | delete_btn => lit "Hapus"
  | start_btn => lit "Mulai"
  | complete_btn => lit "Selesai"
  end.

Definition button_class_name (c : ButtonClass) : jsstring :=
  match c with
  | edit_btn => lit "edit-btn"
  | delete_btn => lit "delete-btn"
  | start_btn => lit "start-btn"
  | complete_btn => lit "complete-btn"
  end.

(** The buttons of one card: Edit and Hapus always, Mulai when the status is
    ['planned'], Selesai when it is ['inprogress']. *)
Definition card_buttons (s : Session) : list Button :=
  [mkButton edit_btn (id s); mkButton delete_btn (id s)]
  ++ (if decide (status s = planned) then [mkButton start_btn (id s)] else [])
  ++ (if decide (status s = inprogress) then [mkButton complete_btn (id s)] else []).

Definition button_html (b : Button) : jsstring :=
  lit "<button " ++ attr "class" (lit "action-btn " ++ button_class_name (btn_class b))
  ++ lit " " ++ attr "data-id" (of_Z (data_id b)) ++ lit ">"
  ++ button_label (btn_class b) ++ lit "</button>".

Section Render.

(** [new Date(v).toLocaleDateString('id-ID')], which the page does not
    define. *)
Variable toLocaleDateString : option Z -> jsstring.

(** [session.created_at || session.createdAt] *)
Definition creation_time (s : Session) : option Z :=
  match created_at s with
  | Some t => Some t
  | None => createdAt s
  end.

(** The template literal of one session card, given the escaped title and
    subject. White space between the tags is left out. *)
Definition card_template (s : Session) (title_html subject_html : jsstring) : jsstring :=
  lit "<div " ++ attr "class" (lit "session-card") ++ lit " " ++ attr "data-id" (of_Z (id s)) ++ lit ">"
  ++ lit "<div " ++ attr "class" (lit "session-header") ++ lit ">"
  ++ lit "<h3>" ++ title_html ++ lit "</h3>"
  ++ lit "<span " ++ attr "class" (lit "session-status " ++ status s) ++ lit ">"
  ++ getStatusText (status s) ++ lit "</span></div>"
  ++ lit "<div " ++ attr "class" (lit "session-details") ++ lit ">"
  ++ lit "<p><strong>Mata Pelajaran:</strong> " ++ subject_html ++ lit "</p>"
  ++ lit "<p><strong>Durasi:</strong> "
  ++ match duration s with Some d => of_Z d | None => lit "NaN" end ++ lit " menit</p>"
  ++ lit "<p><strong>Dibuat:</strong> " ++ toLocaleDateString (creation_time s) ++ lit "</p>"
  ++ (if field_truthy (description s)
      then lit "<p><strong>Deskripsi:</strong> " ++ escapeHtml (default [] (description s)) ++ lit "</p>"
      else [])
  ++ (if field_truthy (notes s)
      then lit "<p><strong>Catatan:</strong> " ++ escapeHtml (default [] (notes s)) ++ lit "</p>"
      else [])
  ++ lit "</div>"
  ++ lit "<div " ++ attr "class" (lit "session-actions") ++ lit ">"
  ++ concat (button_html <$> card_buttons s)
  ++ lit "</div></div>".

(** One card; throws when [title] or [subject] is not a string. *)
Definition card (s : Session) : outcome jsstring :=
  match escapeHtml_field (title s) with
  | Throw e => Throw e
  | Ok t =>
      match escapeHtml_field (subject s) with
      | Throw e => Throw e
      | Ok sub => Ok (card_template s t sub)
      end
  end.

(** [list.map(card).join('')]: the first throwing card aborts the whole map. *)
Fixpoint cards (l : list Session) : outcome jsstring :=
  match l with
  | [] => Ok []
  | s :: l' =>
      match card s with
      | Throw e => Throw e
      | Ok h => match cards l' with
                | Throw e => Throw e
                | Ok hs => Ok (h ++ hs)
                end
      end
  end.

Definition empty_state_html : jsstring :=
  lit "<div " ++ attr "class" (lit "empty-state") ++ lit ">"
  ++ lit "<i " ++ attr "class" (lit "fas fa-calendar-plus") ++ lit "></i>"
  ++ lit "<h3>Belum ada sesi belajar</h3>"
  ++ lit "<p>Tambahkan sesi baru untuk memulai perencanaan belajar Anda</p>"
  ++ lit "<button " ++ attr "class" (lit "btn") ++ lit " " ++ attr "id" (lit "addFirstSession")
  ++ lit ">Tambah Sesi Pertama</button></div>".

(** The filter of [renderSessions]: [sessionFilter.value || 'all']. *)
Definition filter_value (v : jsstring) : jsstring :=
  match v with [] => lit "all" | _ => v end.

Definition filteredSessions (v : jsstring) (l : list Session) : list Session :=
  filter (fun s => filter_value v = lit "all" \/ status s = filter_value v) l.

(** What [renderSessions] puts in the list element for a filter value and a
    collection: the markup and the buttons it contains, or the exception of
    the first card that throws. *)
Definition rendered (v : jsstring) (l : list Session) : outcome (jsstring * list Button) :=
  match filteredSessions v l with
  | [] => Ok (empty_state_html, [])
  | f => match cards f with
         | Ok html => Ok (html, f ≫= card_buttons)
         | Throw e => Throw e
         end
  end.

End Render.

(** The state a method of the page runs in: the world of the collaborators,
    the page, and the calls made so far, oldest first. *)
Record St (W : Type) : Type := mkSt {
  world : W;
  page : Page;
  calls : list Call }.
Arguments mkSt {W}.
Arguments world {W}.
Arguments page {W}.
Arguments calls {W}.

Definition set_sessions (l : list Session) (p : Page) : Page :=
  mkPage l (sessionFilter p) (sessionList_innerHTML p) (sessionList_buttons p)
    (sessionModal_open p) (sessionForm p) (toasts p) (console_error p) (timeouts p).

Definition set_sessionFilter (v : jsstring) (p : Page) : Page :=
  mkPage (sessions p) v (sessionList_innerHTML p) (sessionList_buttons p)
    (sessionModal_open p) (sessionForm p) (toasts p) (console_error p) (timeouts p).

Definition set_sessionList (html : jsstring) (bs : list Button) (p : Page) : Page :=
  mkPage (sessions p) (sessionFilter p) html bs
    (sessionModal_open p) (sessionForm p) (toasts p) (console_error p) (timeouts p).

Definition set_modal (o : bool) (p : Page) : Page :=
  mkPage (sessions p) (sessionFilter p) (sessionList_innerHTML p) (sessionList_buttons p)
    o (sessionForm p) (toasts p) (console_error p) (timeouts p).

Definition set_sessionForm (f : Form) (p : Page) : Page :=
  mkPage (sessions p) (sessionFilter p) (sessionList_innerHTML p) (sessionList_buttons p)
    (sessionModal_open p) f (toasts p) (console_error p) (timeouts p).

Definition add_toast (t : Toast) (p : Page) : Page :=
  mkPage (sessions p) (sessionFilter p) (sessionList_innerHTML p) (sessionList_buttons p)
    (sessionModal_open p) (sessionForm p) (toasts p ++ [t]) (console_error p) (timeouts p).

Definition add_console_error (m e : jsstring) (p : Page) : Page :=
  mkPage (sessions p) (sessionFilter p) (sessionList_innerHTML p) (sessionList_buttons p)
    (sessionModal_open p) (sessionForm p) (toasts p) (console_error p ++ [(m, e)]) (timeouts p).

Definition add_timeout (h : jsstring) (p : Page) : Page :=
  mkPage (sessions p) (sessionFilter p) (sessionList_innerHTML p) (sessionList_buttons p)
    (sessionModal_open p) (sessionForm p) (toasts p) (console_error p) (timeouts p ++ [h]).

(** The page as the constructor and [render] leave it: no session, the
    filter on ['all'], the loading indicator in the list, the modal closed. *)
Definition new_page : Page :=
  mkPage [] (lit "all") (lit "<p>Memuat sesi belajar...</p>") [] false
    (mkForm None [] [] None planned []) [] [] [].

Section Controller.

Context {W : Type} {C : Collaborators W}.
Variable toLocaleDateString : option Z -> jsstring.

Definition update_page (f : Page -> Page) : M (St W) unit :=
  modify (fun st => mkSt (world st) (f (page st)) (calls st)).

(** A call to a collaborator: logged, run on the world, its exception
    passed on. *)
Definition call {A} (c : Call) (f : W -> outcome A * W) : M (St W) A :=
  fun st => let r := f (world st) in
            (r.1, mkSt r.2 (page st) (calls st ++ [c])).

Definition Api_auth_isLoggedIn_ : M (St W) bool :=
  call Api_auth_isLoggedIn (fun w => (Ok (isLoggedIn w), w)).

(** [new Date().toISOString()] *)
Definition Date_now : M (St W) Z :=
  fun st => (Ok (date_now (world st)), st).

Definition showSuccess (m : jsstring) : M (St W) unit :=
  update_page (add_toast (mkToast m success)).

Definition showError (m : jsstring) : M (St W) unit :=
  update_page (add_toast (mkToast m error)).

Definition console_error_ (m e : jsstring) : M (St W) unit :=
  update_page (add_console_error m e).

(** [renderSessions]: filter by status, then either the empty state or the
    cards in the order of [this.sessions]. When a card throws, [innerHTML]
    is not assigned. *)
Definition renderSessions : M (St W) unit :=
  let! st := get in
  let filtered := filteredSessions (sessionFilter (page st)) (sessions (page st)) in
  match filtered with
  | [] => update_page (set_sessionList empty_state_html [])
  | _ :: _ =>
      let! html := lift_outcome (cards toLocaleDateString filtered) in
      update_page (set_sessionList html (filtered ≫= card_buttons))
  end.

(** [loadSessions] *)
Definition loadSessions : M (St W) unit :=
  try_catch
    (let! logged := Api_auth_isLoggedIn_ in
     if logged then
       let! l := call Api_sessions_getAll api_getAll in
       do! update_page (set_sessions l) in
       renderSessions
     else
       let! l := call DB_getAll db_getAll in
       do! update_page (set_sessions l) in
       renderSessions)
    (fun err =>
       do! console_error_ (lit "Error loading sessions:") err in
       try_catch
         (let! l := call DB_getAll db_getAll in
          do! update_page (set_sessions l) in
          renderSessions)
         (fun dbError => showError (lit "Gagal memuat sesi belajar"))).

(** [openSessionModal(session)]: the form is filled from the session and
    remembers its id; [openSessionModal()] resets the form. The form holds
    what its controls return once the values are assigned: the two text
    inputs strip the line breaks, the text area normalises them, and the
    select keeps a value only when it is one of its options. The id and the
    duration are assigned as decimal texts, which [parseInt] reads back as
    the same integers: this is so for an integer below 10^21 in absolute
    value, which JavaScript writes without an exponent. *)
Definition openSessionModal (session : option Session) : M (St W) unit :=
  do! update_page (set_sessionForm
        match session with
        | Some s =>
            mkForm (Some (id s)) (strip_newlines (default [] (title s)))
              (strip_newlines (default [] (subject s)))
              (duration s) (select_value (status s))
              (normalize_newlines
                 (if field_truthy (description s) then default [] (description s)
                  else if field_truthy (notes s) then default [] (notes s) else []))
        | None => mkForm None [] [] None planned []
        end) in
  update_page (set_modal true).

Definition closeModal : M (St W) unit := update_page (set_modal false).

(** [this.sessions.find(s => s.id === id)] with its index, which is also
    what [findIndex] returns. *)
Definition find_session (i : Z) (l : list Session) : option (nat * Session) :=
  list_find (fun s => id s = i) l.

(** The object literal [sessionData] built from the inputs of the form. *)
Definition sessionData_of (f : Form) : SessionData :=
  mkSession None (Some (sessionTitle f)) (Some (sessionSubject f)) (sessionDuration f)
    (sessionStatus f) (Some (sessionNotes f)) None None None None None None.

(** [handleSessionSubmit] *)
Definition handleSessionSubmit : M (St W) unit :=
  let! st0 := get in
  let form := sessionForm (page st0) in
  let sessionData := sessionData_of form in
  try_catch
    (let! logged := Api_auth_isLoggedIn_ in
     do! (if logged then
            match editId form with
            | Some eid =>
                do! call (Api_sessions_update eid sessionData) (api_update eid sessionData) in
                let! l := call Api_sessions_getAll api_getAll in
                update_page (set_sessions l)
            | None =>
                do! call (Api_sessions_create sessionData) (api_create sessionData) in
                let! l := call Api_sessions_getAll api_getAll in
                update_page (set_sessions l)
            end
          else
            let! now := Date_now in
            let sessionData' :=
              match editId form with
              | Some eid => set_updatedAt now (set_id (Some eid) sessionData)
              | None => set_createdAt now sessionData
              end in
            let! savedSession := call (DB_set sessionData') (db_set sessionData') in
            let! st := get in
            match editId form with
            | Some eid =>
                match find_session eid (sessions (page st)) with
                | Some (index, _) =>
                    update_page (set_sessions (<[index := savedSession]> (sessions (page st))))
                | None => ret tt
                end
            | None =>
                update_page (set_sessions (sessions (page st) ++ [savedSession]))
            end) in
     do! renderSessions in
     do! closeModal in
     showSuccess (match editId form with
                  | Some _ => lit "Sesi berhasil diperbarui"
                  | None => lit "Sesi berhasil dibuat"
                  end))
    (fun err =>
       do! console_error_ (lit "Error saving session:") err in
       do! showError (lit "Gagal menyimpan sesi") in
       loadSessions).

(** [editSession] *)
Definition editSession (i : Z) : M (St W) unit :=
  let! st := get in
  match find_session i (sessions (page st)) with
  | Some (_, session) => openSessionModal (Some session)
  | None => ret tt
  end.

(** [deleteSession]; [confirmed] is the answer to the [confirm] dialog. The
    opacity and pointer-events styles set on the card are not kept. *)
Definition deleteSession (confirmed : bool) (i : Z) : M (St W) unit :=
  if negb confirmed then ret tt
  else
    try_catch
      (let! logged := Api_auth_isLoggedIn_ in
       do! (if logged then
              do! call (Api_sessions_delete i) (api_delete i) in
              let! l := call Api_sessions_getAll api_getAll in
              update_page (set_sessions l)
            else
              do! call (DB_delete i) (db_delete i) in
              update_page (fun p => set_sessions (filter (fun s => id s <> i) (sessions p)) p)) in
       do! renderSessions in
       showSuccess (lit "Sesi berhasil dihapus"))
      (fun err =>
         do! console_error_ (lit "Error deleting session:") err in
         do! showError (lit "Gagal menghapus sesi") in
         loadSessions).

(** The local branch shared by [startSession] and [completeSession]: the
    found object is changed in place (so [this.sessions] changes before the
    store is called), stored, and written back at its index. *)
Definition local_transition (i : Z) (index : nat) (session' : Session) : M (St W) unit :=
  do! update_page (fun p => set_sessions (<[index := session']> (sessions p)) p) in
  do! call (DB_set (as_data session')) (db_set (as_data session')) in
  let! st := get in
  match find_session i (sessions (page st)) with
  | Some (index', _) =>
      update_page (fun p => set_sessions (<[index' := session']> (sessions p)) p)
  | None => ret tt
  end.

(** [startSession] *)
Definition startSession (i : Z) : M (St W) unit :=
  try_catch
    (let! st := get in
     match find_session i (sessions (page st)) with
     | None => showError (lit "Sesi tidak ditemukan")
     | Some (index, session) =>
         let! logged := Api_auth_isLoggedIn_ in
         do! (if logged then
                do! call (Api_sessions_start i) (api_start i) in
                let! l := call Api_sessions_getAll api_getAll in
                update_page (set_sessions l)
              else
                let! now := Date_now in
                local_transition i index (set_started_at now (set_status inprogress session))) in
         do! renderSessions in
         do! showSuccess (lit "Sesi berhasil dimulai") in
         update_page (add_timeout (lit "#/focus-mode"))
     end)
    (fun err =>
       do! console_error_ (lit "Error starting session:") err in
       do! showError (lit "Gagal memulai sesi") in
       loadSessions).

(** [completeSession] *)
Definition completeSession (i : Z) : M (St W) unit :=
  try_catch
    (let! st := get in
     match find_session i (sessions (page st)) with
     | None => showError (lit "Sesi tidak ditemukan")
     | Some (index, session) =>
         let! logged := Api_auth_isLoggedIn_ in
         do! (if logged then
                do! call (Api_sessions_complete i (duration session))
                      (api_complete i (duration session)) in
                let! l := call Api_sessions_getAll api_getAll in
                update_page (set_sessions l)
              else
                let! now := Date_now in
                local_transition i index (set_completed_at now (set_status completed session))) in
         do! renderSessions in
         showSuccess (lit "Sesi berhasil diselesaikan")
     end)
    (fun err =>
       do! console_error_ (lit "Error completing session:") err in
       do! showError (lit "Gagal menyelesaikan sesi") in
       loadSessions).

(** [afterRender] *)
Definition afterRender : M (St W) unit := loadSessions.

(** What the user can do on the page, as wired by [setupEventListeners].
    The close cross of the modal does what the Batal button does, and the
    button of the empty state what the add button does. Typing in the search
    box ([searchSessions]) only redraws a subset of the cards and is not an
    event of the model. *)
Inductive UiEvent : Type :=
  | click_addSessionBtn
  | click_cancelSession
  | change_sessionFilter (v : jsstring)
  | input_sessionForm (t sub : jsstring) (dur : option Z) (st : StatusOption) (n : jsstring)
  | submit_sessionForm
  | click_sessionList (b : Button) (confirmed : bool).

(** A click in the list is possible only on a button that is displayed. *)
Definition enabled (p : Page) (e : UiEvent) : Prop :=
  match e with
  | click_sessionList b _ => b ∈ sessionList_buttons p
  | _ => True
  end.

(** The listener that runs for an event. *)
Definition dispatch (e : UiEvent) : M (St W) unit :=
  match e with
  | click_addSessionBtn => openSessionModal None
  | click_cancelSession => closeModal
  | change_sessionFilter v => do! update_page (set_sessionFilter v) in renderSessions
  | input_sessionForm t sub dur st n =>
      update_page (fun p => set_sessionForm
                     (mkForm (editId (sessionForm p)) t sub dur (option_value st) n) p)
  | submit_sessionForm => handleSessionSubmit
  | click_sessionList b confirmed =>
      match btn_class b with
      | edit_btn => editSession (data_id b)
      | delete_btn => deleteSession confirmed (data_id b)
      | start_btn => startSession (data_id b)
      | complete_btn => completeSession (data_id b)
      end
  end.

(** A sequence of events, each run to completion. *)
Fixpoint dispatch_all (es : list UiEvent) : M (St W) unit :=
  match es with
  | [] => ret tt
  | e :: es' => do! dispatch e in dispatch_all es'
  end.

(** The five mutations of the specification. Create and update are the two
    branches of the form submission, told apart by [dataset.editId]. *)
Inductive Mutation : Type :=
  | submit
  | delete (i : Z)
  | start (i : Z)
  | complete (i : Z).

Definition perform (m : Mutation) : M (St W) unit :=
  match m with
  | submit => handleSessionSubmit
  | delete i => deleteSession true i
  | start i => startSession i
  | complete i => completeSession i
  end.

(** The toast a mutation ends with when nothing was thrown. *)
Definition success_toast (m : Mutation) (p : Page) : Toast :=
  match m with
  | submit => mkToast (match editId (sessionForm p) with
                       | Some _ => lit "Sesi berhasil diperbarui"
                       | None => lit "Sesi berhasil dibuat"
                       end) success
  | delete _ => mkToast (lit "Sesi berhasil dihapus") success
  | start _ => mkToast (lit "Sesi berhasil dimulai") success
  | complete _ => mkToast (lit "Sesi berhasil diselesaikan") success
  end.

(** The toast of its [catch] block. *)
Definition failure_toast (m : Mutation) : Toast :=
  match m with
  | submit => mkToast (lit "Gagal menyimpan sesi") error
  | delete _ => mkToast (lit "Gagal menghapus sesi") error
  | start _ => mkToast (lit "Gagal memulai sesi") error
  | complete _ => mkToast (lit "Gagal menyelesaikan sesi") error
  end.

(** A mutation completed successfully: its success toast is the one toast
    it added. *)
Definition succeeded (m : Mutation) (st st' : St W) : Prop :=
  toasts (page st') = toasts (page st) ++ [success_toast m (page st)].

(** The write a mutation sends to the Remote Client on a given page, if it
    sends one: [startSession] and [completeSession] send none for an id that
    is not in [this.sessions]. *)
Definition remote_write (m : Mutation) (p : Page) : option (Call * (W -> outcome unit * W)) :=
  match m with
  | submit =>
      let d := sessionData_of (sessionForm p) in
      match editId (sessionForm p) with
      | Some eid => Some (Api_sessions_update eid d, api_update eid d)
      | None => Some (Api_sessions_create d, api_create d)
      end
  | delete i => Some (Api_sessions_delete i, api_delete i)
  | start i =>
      match find_session i (sessions p) with
      | Some _ => Some (Api_sessions_start i, api_start i)
      | None => None
      end
  | complete i =>
      match find_session i (sessions p) with
      | Some (_, s) => Some (Api_sessions_complete i (duration s), api_complete i (duration s))
      | None => None
      end
  end.

(** The entity a mutation hands to [DB.set] on the local branch at instant
    [now], if it hands one. *)
Definition local_entity (m : Mutation) (p : Page) (now : Z) : option SessionData :=
  match m with
  | submit =>
      let d := sessionData_of (sessionForm p) in
      Some match editId (sessionForm p) with
           | Some eid => set_updatedAt now (set_id (Some eid) d)
           | None => set_createdAt now d
           end
  | delete _ => None
  | start i =>
      match find_session i (sessions p) with
      | Some (_, s) => Some (as_data (set_started_at now (set_status inprogress s)))
      | None => None
      end
  | complete i =>
      match find_session i (sessions p) with
      | Some (_, s) => Some (as_data (set_completed_at now (set_status completed s)))
      | None => None
      end
  end.

(** The collection the local branch of a mutation leaves in [this.sessions]:
    the old array with one element added, replaced or removed. [saved] is
    what [DB.set] returned. *)
Definition local_patch (m : Mutation) (p : Page) (now : Z) (saved : Session) : list Session :=
  match m with
  | submit =>
      match editId (sessionForm p) with
      | Some eid =>
          match find_session eid (sessions p) with
          | Some (index, _) => <[index := saved]> (sessions p)
          | None => sessions p
          end
      | None => sessions p ++ [saved]
      end
  | delete i => filter (fun s => id s <> i) (sessions p)
  | start i =>
      match find_session i (sessions p) with
      | Some (index, s) => <[index := set_started_at now (set_status inprogress s)]> (sessions p)
      | None => sessions p
      end
  | complete i =>
      match find_session i (sessions p) with
      | Some (index, s) => <[index := set_completed_at now (set_status completed s)]> (sessions p)
      | None => sessions p
      end
  end.

(** *** The paths of a mutation

    Every mutation has the same shape: a write, the refresh of
    [this.sessions], [renderSessions], the success toast; and a [catch] block
    that logs, shows the failure toast and calls [loadSessions]. The
    definitions below name the states these paths end in. *)

(** The state the inner [try] of [loadSessions] leaves: the fallback to the
    Local Store. *)
Definition local_reload (st : St W) : St W :=
  let r := db_getAll (world st) in
  let cs := calls st ++ [DB_getAll] in
  let failed p := mkSt r.2 (add_toast (mkToast (lit "Gagal memuat sesi belajar") error) p) cs in
  match r.1 with
  | Ok l =>
      let p := set_sessions l (page st) in
      match rendered toLocaleDateString (sessionFilter p) l with
      | Ok hb => mkSt r.2 (set_sessionList hb.1 hb.2 p) cs
      | Throw _ => failed p
      end
  | Throw _ => failed (page st)
  end.

Definition catch_message (m : Mutation) : jsstring :=
  match m with
  | submit => lit "Error saving session:"
  | delete _ => lit "Error deleting session:"
  | start _ => lit "Error starting session:"
  | complete _ => lit "Error completing session:"
  end.

(** The state the [catch] block of a mutation leaves when it catches [e]. *)
Definition catch_block (m : Mutation) (e : jsstring) (st : St W) : St W :=
  (loadSessions
     (mkSt (world st)
        (add_toast (failure_toast m) (add_console_error (catch_message m) e (page st)))
        (calls st))).2.

(** What follows a successful [renderSessions]; [p0] is the page the
    mutation started on. *)
Definition finish (m : Mutation) (p0 p : Page) : Page :=
  match m with
  | submit => add_toast (success_toast m p0) (set_modal false p)
  | delete _ => add_toast (success_toast m p0) p
  | start _ => add_timeout (lit "#/focus-mode") (add_toast (success_toast m p0) p)
  | complete _ => add_toast (success_toast m p0) p
  end.

(** The state a mutation ends in once [this.sessions] has become [l]. *)
Definition after_write (m : Mutation) (p0 : Page) (l : list Session) (st : St W) : St W :=
  let p := set_sessions l (page st) in
  match rendered toLocaleDateString (sessionFilter p) l with
  | Ok hb => mkSt (world st) (finish m p0 (set_sessionList hb.1 hb.2 p)) (calls st)
  | Throw e => catch_block m e (mkSt (world st) p (calls st))
  end.

Definition is_transition (m : Mutation) : bool :=
  match m with
  | start _ | complete _ => true
  | _ => false
  end.

End Controller.

(** The sessions whose cards [renderSessions] writes, in the order it writes
    them. *)
Definition displayed (p : Page) : list Session :=
  filteredSessions (sessionFilter p) (sessions p).

(** The character-by-character reading of [escapeHtml]: each of the five
    characters is replaced by its entity, every other one is kept. *)
Definition entity (c : N) : jsstring :=
  if (c =? 38)%N then lit "&amp;"
  else if (c =? 60)%N then lit "&lt;"
  else if (c =? 62)%N then lit "&gt;"
  else if (c =? 34)%N then lit "&quot;"
  else if (c =? 39)%N then lit "&#039;"
  else [c].

(** The characters that open or close a tag or an attribute value. *)
Definition is_markup (c : N) : bool :=
  ((c =? 60) || (c =? 62) || (c =? 34) || (c =? 39))%N.

(** ** The search box *)

(** [s.includes(needle)] *)
Fixpoint includes (needle s : jsstring) : bool :=
  starts_with needle s
  || match s with
     | [] => false
     | _ :: s' => includes needle s'
     end.

Section Search.

Context {W : Type} {C : Collaborators W}.
Variable toLocaleDateString : option Z -> jsstring.

(** [String.prototype.toLowerCase], which the page does not define. *)
Variable toLowerCase : jsstring -> jsstring.

(** [field.toLowerCase().includes(query.toLowerCase())]: a [TypeError] when
    the field is [null] or [undefined]. *)
Definition field_includes (field : option jsstring) (query : jsstring) : outcome bool :=
  match field with
  | Some s => Ok (includes (toLowerCase query) (toLowerCase s))
  | None =>
      Throw (lit "TypeError: Cannot read properties of undefined (reading 'toLowerCase')")
  end.

(** The predicate of the search filter. [||] evaluates the subject only when
    the title does not match, and the description only when neither does;
    [&&] skips a description that is [null], [undefined] or ['']. *)
Definition search_match (query : jsstring) (s : Session) : outcome bool :=
  match field_includes (title s) query with
  | Throw e => Throw e
  | Ok true => Ok true
  | Ok false =>
      match field_includes (subject s) query with
      | Throw e => Throw e
      | Ok true => Ok true
      | Ok false =>
          if field_truthy (description s) then field_includes (description s) query
          else Ok false
      end
  end.

(** [list.filter(p)] for a predicate that may throw: the first exception
    aborts the filter. *)
Fixpoint search_filter (query : jsstring) (l : list Session) : outcome (list Session) :=
  match l with
  | [] => Ok []
  | s :: l' =>
      match search_match query s with
      | Throw e => Throw e
      | Ok b =>
          match search_filter query l' with
          | Throw e => Throw e
          | Ok found => Ok (if b then s :: found else found)
          end
      end
  end.

(** The template literal of a card in [searchSessions]: the one of
    [renderSessions] without the paragraph of the notes. *)
Definition search_card_template (s : Session) (title_html subject_html : jsstring) : jsstring :=
  lit "<div " ++ attr "class" (lit "session-card") ++ lit " " ++ attr "data-id" (of_Z (id s)) ++ lit ">"
  ++ lit "<div " ++ attr "class" (lit "session-header") ++ lit ">"
  ++ lit "<h3>" ++ title_html ++ lit "</h3>"
  ++ lit "<span " ++ attr "class" (lit "session-status " ++ status s) ++ lit ">"
  ++ getStatusText (status s) ++ lit "</span></div>"
  ++ lit "<div " ++ attr "class" (lit "session-details") ++ lit ">"
  ++ lit "<p><strong>Mata Pelajaran:</strong> " ++ subject_html ++ lit "</p>"
  ++ lit "<p><strong>Durasi:</strong> "
  ++ match duration s with Some d => of_Z d | None => lit "NaN" end ++ lit " menit</p>"
  ++ lit "<p><strong>Dibuat:</strong> " ++ toLocaleDateString (creation_time s) ++ lit "</p>"
  ++ (if field_truthy (description s)
      then lit "<p><strong>Deskripsi:</strong> " ++ escapeHtml (default [] (description s)) ++ lit "</p>"
      else [])
  ++ lit "</div>"
  ++ lit "<div " ++ attr "class" (lit "session-actions") ++ lit ">"
  ++ concat (button_html <$> card_buttons s)
  ++ lit "</div></div>".

Definition search_card (s : Session) : outcome jsstring :=
  match escapeHtml_field (title s) with
  | Throw e => Throw e
  | Ok t =>
      match escapeHtml_field (subject s) with
      | Throw e => Throw e
      | Ok sub => Ok (search_card_template s t sub)
      end
  end.

Fixpoint search_cards (l : list Session) : outcome jsstring :=
  match l with
  | [] => Ok []
  | s :: l' =>
      match search_card s with
      | Throw e => Throw e
      | Ok h => match search_cards l' with
                | Throw e => Throw e
                | Ok hs => Ok (h ++ hs)
                end
      end
  end.

Definition no_result_html : jsstring :=
  lit "<div " ++ attr "class" (lit "empty-state") ++ lit ">"
  ++ lit "<i " ++ attr "class" (lit "fas fa-search") ++ lit "></i>"
  ++ lit "<h3>Tidak ada hasil</h3>"
  ++ lit "<p>Tidak ditemukan sesi yang sesuai dengan pencarian Anda</p></div>".

(** [searchSessions]: a blank query redraws the list; otherwise the status
    filter, then the search filter, then either the no-result state or the
    cards of the sessions found. *)
Definition searchSessions (query : jsstring) : M (St W) unit :=
  match trim query with
  | [] => renderSessions toLocaleDateString
  | _ :: _ =>
      let! st := get in
      let filtered := filteredSessions (sessionFilter (page st)) (sessions (page st)) in
      let! found := lift_outcome (search_filter query filtered) in
      match found with
      | [] => update_page (set_sessionList no_result_html [])
      | _ :: _ =>
          let! html := lift_outcome (search_cards found) in
          update_page (set_sessionList html (found ≫= card_buttons))
      end
  end.

(** The texts the search looks into: the title, the subject, and the
    description when it is not empty. *)
Definition searched_fields (s : Session) : list jsstring :=
  default [] (title s) :: default [] (subject s)
  :: (if field_truthy (description s) then [default [] (description s)] else []).

(** A session one of whose searched texts contains the query, case put
    aside. *)
Definition search_hit (query : jsstring) (s : Session) : bool :=
  existsb (fun f => includes (toLowerCase query) (toLowerCase f)) (searched_fields s).

End Search.

End SesiBelajar.

(** ** The serverless function: [api/index.js] *)

Module ApiIndex.

Definition Row : Type := list (string * jsval).

(** The statements the handler sends to [pool.query], with their
    parameters. *)
Inductive Sql : Type :=
  | select_now
  | select_user_by_email (email : jsval)
  | insert_user (name email password avatar : jsval)
  | update_last_login (user_id : jsval)
  | select_sessions (user_id : jsval)
  | insert_session (user_id title description subject duration status : jsval)
  | select_notes (user_id : jsval)
  | insert_note (user_id title content category : jsval)
  | select_stats_today (user_id : jsval).

(** What the handler takes from outside the file: the connection pool over a
    database state [D], [bcryptjs], [jsonwebtoken] and the built-ins whose
    result the handler only passes on. [coerce_lt v n] is [v < n] for a [v]
    that is neither a number nor [undefined]. *)
Class Runtime (D : Type) : Type := {
  pool_query : Sql -> D -> outcome (list Row) * D;
  bcrypt_hash : jsval -> outcome jsstring;
  bcrypt_compare : jsval -> jsval -> outcome bool;
  jwt_sign : Row -> jsstring;
  jwt_verify : jsstring -> option Row;
  toLowerCase : jsstring -> jsstring;
  toUpperCase : jsstring -> jsstring;
  parseInt : jsval -> option Z;
  coerce_lt : jsval -> Z -> bool;
  now_toISOString : jsstring }.

Record Request : Type := mkRequest {
  method : jsstring;
  url : jsstring;
  authorization : option jsstring;
  body : jsval }.

(** [res.status(s).json(b)], or [res.status(s).end()] when there is no body. *)
Record Response : Type := mkResponse {
  status : Z;
  json : option jsval }.

(** The state of one invocation: the database and the statements sent so far,
    oldest first. *)
Record HSt (D : Type) : Type := mkHSt {
  db : D;
  queries : list Sql }.
Arguments mkHSt {D}.
Arguments db {D}.
Arguments queries {D}.

(** [sanitizeInput] *)
Definition sanitizeInput (input : jsval) : jsval :=
  match input with
  | JStr s => JStr (slice0 500 (trim s))
  | _ => input
  end.

(** A character of the class [[^\s@]]. *)
Definition not_space_at (c : N) : bool := negb (is_whitespace c) && negb (c =? 64)%N.

(** [[^\s@]+\.[^\s@]+$] on a text already known to be in the class: a dot
    with at least one character on each side. *)
Fixpoint dot_inside (l : jsstring) : bool :=
  match l with
  | c :: (_ :: _) as l' => (c =? 46)%N || dot_inside l'
  | _ => false
  end.

(** [validateEmail]: [/^[^\s@]+@[^\s@]+\.[^\s@]+$/.test(email)]. *)
Definition validateEmail (email : jsstring) : bool :=
  match split_on 64 email with
  | [loc; dom] =>
      negb (Nat.eqb (length loc) 0) && forallb not_space_at loc
      && forallb not_space_at dom
      && match dom with _ :: l => dot_inside l | [] => false end
  | _ => false
  end.

Inductive AuthResult : Type :=
  | auth_user (user : Row)
  | auth_error (err : jsstring) (st : Z).

Section Handler.

Context {D : Type} {R : Runtime D}.

(** [authenticateToken] *)
Definition authenticateToken (req : Request) : AuthResult :=
  let token := match authorization req with
               | Some authHeader => nth_error (split_on 32 authHeader) 1
               | None => None
               end in
  match token with
  | None | Some [] => auth_error (lit "Access token required") 401
  | Some t =>
      match jwt_verify t with
      | Some user => auth_user user
      | None => auth_error (lit "Invalid token") 403
      end
  end.

(** [await pool.query(q)] *)
Definition query (q : Sql) : M (HSt D) (list Row) :=
  fun st => let r := pool_query q (db st) in
            (r.1, mkHSt r.2 (queries st ++ [q])).

(** Reading a property of [req.body] while destructuring: a [TypeError] when
    the body is [undefined] or [null]. *)
Definition body_field (k : string) (b : jsval) : outcome jsval :=
  match b with
  | JObj o => Ok (get_field k o)
  | JUndefined | JNull =>
      Throw (lit "Cannot destructure property of 'req.body' as it is undefined.")
  | _ => Ok JUndefined
  end.

(** [v.toLowerCase()]; only a string has the method. *)
Definition toLowerCase_ (v : jsval) : outcome jsval :=
  match v with
  | JStr s => Ok (JStr (toLowerCase s))
  | _ => Throw (lit "TypeError: toLowerCase is not a function")
  end.

(** [name.charAt(0).toUpperCase()] *)
Definition avatar_of (name : jsval) : outcome jsval :=
  match name with
  | JStr s => Ok (JStr (toUpperCase (take 1 s)))
  | _ => Throw (lit "TypeError: name.charAt is not a function")
  end.

(** [password.length < 6] *)
Definition length_lt_6 (v : jsval) : bool :=
  match v with
  | JStr s => Z.of_nat (length s) <? 6
  | JArr l => Z.of_nat (length l) <? 6
  | JObj o => match get_field "length" o with
              | JNum z => z <? 6
              | JUndefined => false
              | x => coerce_lt x 6
              end
  | _ => false
  end.

(** [result.rows[0].id] *)
Definition first_id (rows : list Row) : outcome jsval :=
  match rows with
  | r :: _ => Ok (get_field "id" r)
  | [] => Throw (lit "TypeError: Cannot read properties of undefined (reading 'id')")
  end.

Definition err_body (err msg : jsstring) : option jsval :=
  Some (JObj [("error"%string, JStr err); ("message"%string, JStr msg)]).

(** [return res.status(auth.status).json({ error: auth.error })] *)
Definition auth_failure (err : jsstring) (st : Z) : Response :=
  mkResponse st (Some (JObj [("error"%string, JStr err)])).

(** The protected routes start with the same two lines. *)
Definition with_auth (req : Request) (k : Row -> M (HSt D) Response) : M (HSt D) Response :=
  match authenticateToken req with
  | auth_error err st => ret (auth_failure err st)
  | auth_user user => k user
  end.

Definition register (req : Request) : M (HSt D) Response :=
  let! name := lift_outcome (body_field "name" (body req)) in
  let! email := lift_outcome (body_field "email" (body req)) in
  let! password := lift_outcome (body_field "password" (body req)) in
  if negb (truthy name) || negb (truthy email) || negb (truthy password) then
    ret (mkResponse 400 (err_body (lit "Validation error") (lit "All fields are required")))
  else
    let name := sanitizeInput name in
    let! email := lift_outcome (toLowerCase_ (sanitizeInput email)) in
    let password := sanitizeInput password in
    if negb (match email with JStr e => validateEmail e | _ => false end) then
      ret (mkResponse 400 (err_body (lit "Validation error") (lit "Invalid email format")))
    else if length_lt_6 password then
      ret (mkResponse 400 (err_body (lit "Validation error")
                             (lit "Password must be at least 6 characters")))
    else
      let! existingUser := query (select_user_by_email email) in
      match existingUser with
      | _ :: _ =>
          ret (mkResponse 409 (err_body (lit "User exists")
                                 (lit "User with this email already exists")))
      | [] =>
          let! hashedPassword := lift_outcome (bcrypt_hash password) in
          let! avatar := lift_outcome (avatar_of name) in
          let! result := query (insert_user name email (JStr hashedPassword) avatar) in
          let! userId := lift_outcome (first_id result) in
          let token := jwt_sign [("id"%string, userId); ("email"%string, email);
                                 ("name"%string, name); ("avatar"%string, avatar)] in
          ret (mkResponse 201 (Some (JObj [
                 ("message"%string, JStr (lit "User created successfully"));
                 ("user"%string, JObj [("id"%string, userId); ("name"%string, name);
                                       ("email"%string, email); ("avatar"%string, avatar)]);
                 ("token"%string, JStr token)])))
      end.

Definition login (req : Request) : M (HSt D) Response :=
  let! email := lift_outcome (body_field "email" (body req)) in
  let! password := lift_outcome (body_field "password" (body req)) in
  if negb (truthy email) || negb (truthy password) then
    ret (mkResponse 400 (err_body (lit "Validation error")
                           (lit "Email and password are required")))
  else
    let! email := lift_outcome (toLowerCase_ (sanitizeInput email)) in
    let password := sanitizeInput password in
    let! result := query (select_user_by_email email) in
    match result with
    | [] =>
        ret (mkResponse 401 (err_body (lit "Authentication failed")
                               (lit "Invalid email or password")))
    | user :: _ =>
        let! validPassword := lift_outcome (bcrypt_compare password (get_field "password" user)) in
        if negb validPassword then
          ret (mkResponse 401 (err_body (lit "Authentication failed")
                                 (lit "Invalid email or password")))
        else
          do! query (update_last_login (get_field "id" user)) in
          let token := jwt_sign [("id"%string, get_field "id" user);
                                 ("email"%string, get_field "email" user);
                                 ("name"%string, get_field "name" user);
                                 ("avatar"%string, get_field "avatar" user)] in
          ret (mkResponse 200 (Some (JObj [
                 ("message"%string, JStr (lit "Login successful"));
                 ("user"%string, JObj [("id"%string, get_field "id" user);
                                       ("name"%string, get_field "name" user);
                                       ("email"%string, get_field "email" user);
                                       ("avatar"%string, get_field "avatar" user)]);
                 ("token"%string, JStr token)])))
    end.

Definition get_sessions (req : Request) : M (HSt D) Response :=
  with_auth req (fun user =>
    let! result := query (select_sessions (get_field "id" user)) in
    ret (mkResponse 200 (Some (JArr (JObj <$> result))))).

Definition post_sessions (req : Request) : M (HSt D) Response :=
  with_auth req (fun user =>
    let! title := lift_outcome (body_field "title" (body req)) in
    let! description := lift_outcome (body_field "description" (body req)) in
    let! subject := lift_outcome (body_field "subject" (body req)) in
    let! duration := lift_outcome (body_field "duration" (body req)) in
    let! status := lift_outcome (body_field "status" (body req)) in
    if negb (truthy title) then
      ret (mkResponse 400 (err_body (lit "Validation error") (lit "Title is required")))
    else
      let title := sanitizeInput title in
      let description := if truthy description then sanitizeInput description else JStr [] in
      let subject := if truthy subject then sanitizeInput subject else JStr [] in
      let duration := match parseInt duration with
                      | Some 0 | None => JNum 25
                      | Some d => JNum d
                      end in
      let status := if truthy status then sanitizeInput status else JStr (lit "planned") in
      let! result := query (insert_session (get_field "id" user) title description
                              subject duration status) in
      let! newId := lift_outcome (first_id result) in
      ret (mkResponse 201 (Some (JObj [
             ("message"%string, JStr (lit "Session created successfully"));
             ("id"%string, newId)])))).

Definition get_notes (req : Request) : M (HSt D) Response :=
  with_auth req (fun user =>
    let! result := query (select_notes (get_field "id" user)) in
    ret (mkResponse 200 (Some (JArr (JObj <$> result))))).

Definition post_notes (req : Request) : M (HSt D) Response :=
  with_auth req (fun user =>
    let! title := lift_outcome (body_field "title" (body req)) in
    let! content := lift_outcome (body_field "content" (body req)) in
    let! category := lift_outcome (body_field "category" (body req)) in
    if negb (truthy title) || negb (truthy content) then
      ret (mkResponse 400 (err_body (lit "Validation error")
                             (lit "Title and content are required")))
    else
      let title := sanitizeInput title in
      let content := sanitizeInput content in
      let category := if truthy category then sanitizeInput category else JStr (lit "study") in
      let! result := query (insert_note (get_field "id" user) title content category) in
      let! newId := lift_outcome (first_id result) in
      ret (mkResponse 201 (Some (JObj [
             ("message"%string, JStr (lit "Note created successfully"));
             ("id"%string, newId)])))).

Definition get_stats_today (req : Request) : M (HSt D) Response :=
  with_auth req (fun user =>
    let! result := query (select_stats_today (get_field "id" user)) in
    ret (mkResponse 200 (Some (match result with r :: _ => JObj r | [] => JUndefined end)))).

Definition health : M (HSt D) Response :=
  do! query select_now in
  ret (mkResponse 200 (Some (JObj [
         ("status"%string, JStr (lit "OK"));
         ("service"%string, JStr (lit "FocusMode API"));
         ("database"%string, JStr (lit "Connected"));
         ("timestamp"%string, JStr now_toISOString)]))).

(** The route table inside the [try] block, in the order of the source. *)
Definition route (req : Request) : M (HSt D) Response :=
  let path := replace_first (lit "/api") [] (url req) in
  let at_route p m := bool_decide (path = lit p) && bool_decide (method req = lit m) in
  if at_route "/health" "GET" then health
  else if at_route "/auth/register" "POST" then register req
  else if at_route "/auth/login" "POST" then login req
  else if at_route "/sessions" "GET" then get_sessions req
  else if at_route "/sessions" "POST" then post_sessions req
  else if at_route "/notes" "GET" then get_notes req
  else if at_route "/notes" "POST" then post_notes req
  else if at_route "/stats/today" "GET" then get_stats_today req
  else ret (mkResponse 404 (err_body (lit "Not found")
                              (lit "Route " ++ path ++ lit " not found"))).

(** [handler]; the CORS headers, which are the same on every response, are
    not kept. *)
Definition handler (req : Request) : M (HSt D) Response :=
  if bool_decide (method req = lit "OPTIONS") then ret (mkResponse 200 None)
  else
    try_catch (route req)
      (fun err => ret (mkResponse 500 (err_body (lit "Internal server error") err))).

(** *** What the properties say about a response and about a statement *)

Definition error_codes : list Z := [400; 401; 403; 404; 409; 500].

(** A response with an error status has one of the six codes and a body with
    an [error] text; the body also has a [message] text, unless the response
    is the one [authenticateToken] asks for. *)
Definition well_formed (req : Request) (r : Response) : Prop :=
  400 <= status r ->
  status r ∈ error_codes
  /\ exists err,
       (exists msg, json r = err_body err msg)
       \/ (json r = Some (JObj [("error"%string, JStr err)])
           /\ authenticateToken req = auth_error err (status r)
           /\ (status r = 401 \/ status r = 403)).

(** A value that, when it is a string, has at most 500 characters. *)
Definition bounded (v : jsval) : Prop :=
  forall s, v = JStr s -> (length s <= 500)%nat.

(** The text parameters of an [INSERT] are bounded; the e-mail is the lower
    case of a string of at most 500 characters, and the password column
    holds the hash of a bounded value. *)
Definition ok_query (q : Sql) : Prop :=
  match q with
  | insert_user n e p _ =>
      bounded n
      /\ (exists e0, e = JStr (toLowerCase e0) /\ (length e0 <= 500)%nat)
      /\ (exists pw h, bounded pw /\ bcrypt_hash pw = Ok h /\ p = JStr h)
  | insert_session _ t d su _ st => bounded t /\ bounded d /\ bounded su /\ bounded st
  | insert_note _ t c ca => bounded t /\ bounded c /\ bounded ca
  | _ => True
  end.

(** The statements sent since [st0] are all [ok_query]. *)
Definition sent_ok (st0 st : HSt D) : Prop :=
  exists qs, queries st = queries st0 ++ qs /\ Forall ok_query qs.

(** *** The statements of one invocation *)

(** The statements that change a table. *)
Definition is_write (q : Sql) : bool :=
  match q with
  | insert_user _ _ _ _ | update_last_login _ | insert_session _ _ _ _ _ _
  | insert_note _ _ _ _ => true
  | _ => false
  end.

(** [trace pre m Q]: run after the statements [pre], [m] ends with an
    outcome [o] such that [Q o qs], where [qs] is [pre] followed by the
    statements [m] has sent, oldest first. *)
Definition trace {A} (pre : list Sql) (m : M (HSt D) A)
    (Q : outcome A -> list Sql -> Prop) : Prop :=
  forall st, exists qs, queries (m st).2 = queries st ++ qs /\ Q (m st).1 (pre ++ qs).

(** A statement of a protected route runs for the id found in the verified
    token. *)
Definition scoped (req : Request) (q : Sql) : Prop :=
  match q with
  | select_sessions u | insert_session u _ _ _ _ _ | select_notes u
  | insert_note u _ _ _ | select_stats_today u =>
      exists user, authenticateToken req = auth_user user /\ u = get_field "id" user
  | _ => True
  end.

(** [v] is the sanitised value of the field [k] of the body, which is
    truthy. *)
Definition required_field (req : Request) (k : string) (v : jsval) : Prop :=
  exists v0, body_field k (body req) = Ok v0 /\ truthy v0 = true /\ v = sanitizeInput v0.

(** What the checks before an [INSERT] have established about its
    parameters. *)
Definition checked (req : Request) (q : Sql) : Prop :=
  match q with
  | insert_user n e p _ =>
      required_field req "name" n
      /\ (exists s, e = JStr s /\ validateEmail s = true)
      /\ (exists pw h, required_field req "password" pw /\ length_lt_6 pw = false
                       /\ bcrypt_hash pw = Ok h /\ p = JStr h)
  | insert_session _ t _ _ du _ =>
      required_field req "title" t /\ (exists z, du = JNum z /\ z <> 0)
  | insert_note _ t c _ =>
      required_field req "title" t /\ required_field req "content" c
  | _ => True
  end.

(** At most two statements, and only the last one may be a write. *)
Definition reads_then_write (qs : list Sql) : bool :=
  match qs with
  | [] | [_] => true
  | [q; _] => negb (is_write q)
  | _ => false
  end.

(** A user is inserted right after the look-up of the same e-mail. *)
Definition looked_up (qs : list Sql) : Prop :=
  forall n e p a, insert_user n e p a ∈ qs -> qs = [select_user_by_email e; insert_user n e p a].

(** What the status of a response tells about the statements sent. *)
Definition answered (req : Request) (r : Response) (qs : list Sql) : Prop :=
  (400 <= status r < 500 ->
   Forall (fun q => is_write q = false) qs /\ (length qs <= 1)%nat)
  /\ (status r = 400 \/ status r = 403 \/ status r = 404 -> qs = [])
  /\ (status r = 401 ->
      (qs = [] /\ exists err, authenticateToken req = auth_error err 401
                              /\ r = auth_failure err 401)
      \/ ((exists e, qs = [select_user_by_email e])
          /\ r = mkResponse 401 (err_body (lit "Authentication failed")
                                   (lit "Invalid email or password"))))
  /\ (status r = 409 -> exists e, qs = [select_user_by_email e])
  /\ (status r = 201 -> exists rs w, qs = rs ++ [w] /\ is_write w = true).

(** The facts kept along every path of the route table. *)
Definition route_facts (req : Request) (o : outcome Response) (qs : list Sql) : Prop :=
  Forall (scoped req) qs
  /\ Forall (checked req) qs
  /\ reads_then_write qs = true
  /\ looked_up qs
  /\ match o with
     | Ok r => answered req r qs
     | Throw _ => True
     end.

End Handler.

End ApiIndex.

(** ** The session statements of class [Database] *)

Module Database.

Import SesiBelajar.

(** A row of [study_sessions]: the owner and the columns the page reads. *)
Record SessionRow : Type := mkRow { user_id : Z; row : Session }.

(** The table, its [SERIAL] counter and [NOW()]. *)
Record Pg : Type := mkPg {
  study_sessions : list SessionRow;
  study_sessions_id_seq : Z;
  pg_now : Z }.

(** [ORDER BY k DESC]: a larger key comes first, and [NULL] sorts as larger
    than every value. *)
Definition desc {A} (key : A -> option Z) (a b : A) : Prop :=
  match key a, key b with
  | None, _ => True
  | Some _, None => False
  | Some x, Some y => y <= x
  end.

#[global] Instance desc_dec {A} (key : A -> option Z) (a b : A) : Decision (desc key a b).
Proof. unfold desc. destruct (key a), (key b); apply _. Defined.

Definition order_by_desc {A} (key : A -> option Z) (l : list A) : list A :=
  merge_sort (desc key) l.

(** [WHERE id = $1], and [AND user_id = $2] when [userId] is truthy: neither
    [null] (the default) nor [0]. *)
Definition targets (i : Z) (userId : option Z) (r : SessionRow) : Prop :=
  id (row r) = i
  /\ match userId with
     | Some u => if u =? 0 then True else user_id r = u
     | None => True
     end.

#[global] Instance targets_dec i userId r : Decision (targets i userId r).
Proof. unfold targets. destruct userId as [u|]; [destruct (u =? 0)|]; apply _. Defined.

Definition update_where (i : Z) (userId : option Z) (f : Session -> Session) (pg : Pg) : Pg :=
  mkPg ((fun r => if decide (targets i userId r) then mkRow (user_id r) (f (row r)) else r)
          <$> study_sessions pg)
       (study_sessions_id_seq pg) (pg_now pg).

(** [getSessionsByUserId] *)
Definition getSessionsByUserId (userId : Z) (pg : Pg) : list Session :=
  row <$> order_by_desc (fun r => created_at (row r))
            (filter (fun r => user_id r = userId) (study_sessions pg)).

(** [createSession]: the new row takes the next id and [created_at = NOW()].
    This is what the [INSERT] does when the table accepts the row; [admitted]
    below says when it does. *)
Definition createSession (userId : Z) (d : SessionData) (pg : Pg) : Z * Pg :=
  let i := study_sessions_id_seq pg in
  (i, mkPg (study_sessions pg ++
              [mkRow userId (mkSession i (title d) (subject d) (duration d) (status d)
                               (description d) None (Some (pg_now pg)) None None None None)])
           (i + 1) (pg_now pg)).

(** [updateSession], when the table accepts the new values. *)
Definition updateSession (i : Z) (d : SessionData) (userId : option Z) (pg : Pg) : Pg :=
  update_where i userId
    (fun s => mkSession (id s) (title d) (subject d) (duration d) (status d) (description d)
                (notes s) (created_at s) (createdAt s) (updatedAt s) (started_at s)
                (completed_at s)) pg.

(** [deleteSession] *)
Definition deleteSession (i : Z) (userId : option Z) (pg : Pg) : Pg :=
  mkPg (filter (fun r => ~ targets i userId r) (study_sessions pg))
       (study_sessions_id_seq pg) (pg_now pg).

(** [startSession] *)
Definition startSession (i : Z) (userId : option Z) (pg : Pg) : Pg :=
  update_where i userId (fun s => set_started_at (pg_now pg) (set_status inprogress s)) pg.

(** [completeSession] *)
Definition completeSession (i : Z) (userId : option Z) (pg : Pg) : Pg :=
  update_where i userId (fun s => set_completed_at (pg_now pg) (set_status completed s)) pg.

(** The primary key of [study_sessions]: the ids are distinct and below the
    next value of the sequence. The [INSERT] of [createSession] leaves the
    [SERIAL] column to the sequence. *)
Definition keyed (pg : Pg) : Prop :=
  NoDup ((fun r => id (row r)) <$> study_sessions pg)
  /\ Forall (fun r => id (row r) < study_sessions_id_seq pg) (study_sessions pg).

(** The statements of the class that change [study_sessions], run for the
    user [u]. *)
Inductive Statement : Type :=
  | create (d : SessionData)
  | update (i : Z) (d : SessionData)
  | remove (i : Z)
  | start (i : Z)
  | complete (i : Z).

Definition run (u : Z) (s : Statement) (pg : Pg) : Pg :=
  match s with
  | create d => (createSession u d pg).2
  | update i d => updateSession i d (Some u) pg
  | remove i => deleteSession i (Some u) pg
  | start i => startSession i (Some u) pg
  | complete i => completeSession i (Some u) pg
  end.

(** *** When the table accepts a statement

    Conditions under which the columns of [setup-database.js] take what the
    statements above write, as they write it. They are sufficient, not
    necessary. *)

(** The range of an [INTEGER] column, and of an integer parameter. *)
Definition int32 (z : Z) : bool := (-2147483648 <=? z) && (z <=? 2147483647).

(** A text that is stored as it is given: no NUL, which the database
    refuses, and no surrogate, so that a code unit is a character. *)
Definition plain_text (s : jsstring) : bool :=
  forallb (fun c => negb (c =? 0) && ((c <? 55296) || (57343 <? c)))%N s.

(** [title VARCHAR(200) NOT NULL], [subject VARCHAR(100)],
    [duration INTEGER], [status VARCHAR(20)], [description TEXT]. *)
Definition fits (d : SessionData) : bool :=
  match title d with
  | Some t => plain_text t && (length t <=? 200)%nat
  | None => false
  end
  && match subject d with
     | Some su => plain_text su && (length su <=? 100)%nat
     | None => true
     end
  && match duration d with
     | Some z => int32 z
     | None => false
     end
  && (plain_text (status d) && (length (status d) <=? 20)%nat)
  && match description d with
     | Some de => plain_text de
     | None => true
     end.

(** The statement [s], run for the user [u] when [users] are the ids of the
    table [users], is accepted: its integer parameters are in range, the
    values it writes fit their columns, and for an [INSERT] the user exists
    ([user_id REFERENCES users(id)]) and the sequence has a value left. *)
Definition admitted (users : list Z) (u : Z) (s : Statement) (pg : Pg) : bool :=
  int32 u
  && match s with
     | create d => bool_decide (u ∈ users) && fits d && int32 (study_sessions_id_seq pg)
     | update i d => int32 i && fits d
     | remove i | start i | complete i => int32 i
     end.

End Database.

(** ** The daily statistics of class [Database] *)

Module StudyStats.

(** A row of [study_stats]; a date is a day number. The columns [id],
    [created_at] and [updated_at] are left out. The counters are [INTEGER]
    columns; the class writes them from integer parameters only, so a row
    holds integers and no [NULL]. *)
Record Stats : Type := mkStats {
  user_id : Z;
  date : Z;
  total_sessions : Z;
  total_minutes : Z;
  completed_sessions : Z;
  streak_days : Z }.

(** The dates one call reads: [today] and [yesterday] as the JavaScript
    clock gives them, and [CURRENT_DATE] as the database does. *)
Record Dates : Type := mkDates {
  today : Z;
  yesterday : Z;
  CURRENT_DATE : Z }.

(** What the statements read and write: the ids of [users], which
    [study_stats.user_id] references, the rows of [study_stats], and the
    sequence behind its [id SERIAL]. *)
Record Tables : Type := mkTables {
  users : list Z;
  study_stats : list Stats;
  study_stats_id_seq : Z }.

(** The range of an [INTEGER] column and of an integer parameter. *)
Definition int32 (z : Z) : bool := (-2147483648 <=? z) && (z <=? 2147483647).

(** [WHERE user_id = $n AND date = $m] *)
Definition on (u d : Z) (r : Stats) : Prop := user_id r = u /\ date r = d.

#[global] Instance on_dec u d r : Decision (on u d r).
Proof. unfold on. apply _. Defined.

Definition rows_on (u d : Z) (l : list Stats) : list Stats := filter (on u d) l.

Definition updated (u d : Z) (f : Stats -> Stats) (l : list Stats) : list Stats :=
  (fun r => if decide (on u d r) then f r else r) <$> l.

(** A JavaScript number, an integer here, sent as a parameter that the
    statement reads as an [INTEGER]: outside the range the database cannot
    read it, and the statement does not run. [query] logs the error and
    throws it again. *)
Definition parameter (z : Z) : M Tables unit :=
  fun t =>
    if int32 z then (Ok tt, t)
    else (Throw (lit "value is out of range for type integer"), t).

(** [SELECT ... FROM study_stats WHERE user_id = $1 AND date = $2] *)
Definition select_on (u d : Z) : M Tables (list Stats) :=
  do! parameter u in
  let! t := get in
  ret (rows_on u d (study_stats t)).

(** [UPDATE study_stats SET ... WHERE user_id = u AND date = d]: [f] is the
    [SET] clause, and [room r] tells whether the values it computes from the
    row [r] are in the range of their columns. When one is not, the
    statement stops with an error and no row is changed. *)
Definition update_on (u d : Z) (f : Stats -> Stats) (room : Stats -> bool) : M Tables unit :=
  do! parameter u in
  fun t =>
    if forallb room (rows_on u d (study_stats t))
    then (Ok tt, mkTables (users t) (updated u d f (study_stats t)) (study_stats_id_seq t))
    else (Throw (lit "integer out of range"), t).

(** [INSERT INTO study_stats (...) VALUES (...)]: the row takes the next
    value of the sequence, which ends at the top of [INTEGER]; the row is
    refused when its user is not in [users] or has a row for that date, and
    the value it took is not given back. *)
Definition insert_stats (r : Stats) : M Tables unit :=
  fun t =>
    if negb (int32 (study_stats_id_seq t))
    then (Throw (lit "nextval: reached maximum value of sequence"), t)
    else
      let burnt := mkTables (users t) (study_stats t) (study_stats_id_seq t + 1) in
      if bool_decide (Exists (on (user_id r) (date r)) (study_stats t))
      then (Throw (lit "duplicate key value violates unique constraint"), burnt)
      else if negb (bool_decide (user_id r ∈ users t))
      then (Throw (lit "violates foreign key constraint"), burnt)
      else (Ok tt, mkTables (users t) (study_stats t ++ [r]) (study_stats_id_seq t + 1)).

Definition set_streak_days (v : Z) (r : Stats) : Stats :=
  mkStats (user_id r) (date r) (total_sessions r) (total_minutes r) (completed_sessions r) v.

(** The [SET] clause of [updateStudyStats]. *)
Definition add_session (minutes c : Z) (r : Stats) : Stats :=
  mkStats (user_id r) (date r) (total_sessions r + 1) (total_minutes r + minutes)
    (completed_sessions r + c) (streak_days r).

(** The sums of that [SET] clause are in the range of their columns. *)
Definition room_for (minutes c : Z) (r : Stats) : bool :=
  int32 (total_minutes r + minutes) && int32 (total_sessions r + 1)
  && int32 (completed_sessions r + c).

(** [updateStreak] *)
Definition updateStreak (ds : Dates) (userId : Z) : M Tables unit :=
  let! yesterdayStats := select_on userId (yesterday ds) in
  match yesterdayStats with
  | r :: _ =>
      if 0 <? streak_days r then
        let newStreak := streak_days r + 1 in
        do! parameter newStreak in
        update_on userId (CURRENT_DATE ds) (set_streak_days newStreak) (fun _ => true)
      else ret tt
  | [] => ret tt
  end.

(** [updateStudyStats] *)
Definition updateStudyStats (ds : Dates) (userId minutes : Z) (sessionCompleted : bool)
    : M Tables unit :=
  let c := if sessionCompleted then 1 else 0 in
  let! existing := select_on userId (today ds) in
  do! match existing with
      | _ :: _ =>
          do! parameter minutes in
          update_on userId (today ds) (add_session minutes c) (room_for minutes c)
      | [] =>
          do! parameter userId in
          do! parameter minutes in
          insert_stats (mkStats userId (today ds) 1 minutes c 1)
      end in
  updateStreak ds userId.

(** [SELECT MAX(date)]; [None] is [NULL], for no row. *)
Definition max_date (l : list Stats) : option Z :=
  foldr (fun r m => Some match m with
                         | Some d => Z.max (date r) d
                         | None => date r
                         end) None l.

(** [getCurrentStreak]: [result[0]?.streak_days || 0]. *)
Definition getCurrentStreak (userId : Z) : M Tables Z :=
  do! parameter userId in
  let! t := get in
  let mine := filter (fun r => user_id r = userId) (study_stats t) in
  ret match max_date mine with
      | Some d =>
          match filter (fun r => date r = d) mine with
          | r :: _ => streak_days r
          | [] => 0
          end
      | None => 0
      end.

(** The rows the first statement that [updateStudyStats] writes with leaves
    when the database runs it. *)
Definition counted (ds : Dates) (u minutes : Z) (c : bool) (l : list Stats) : list Stats :=
  match rows_on u (today ds) l with
  | _ :: _ => updated u (today ds) (add_session minutes (if c then 1 else 0)) l
  | [] => l ++ [mkStats u (today ds) 1 minutes (if c then 1 else 0) 1]
  end.

(** The rows [updateStreak] leaves when the database runs its [UPDATE]. *)
Definition streaked (ds : Dates) (u : Z) (l : list Stats) : list Stats :=
  match rows_on u (yesterday ds) l with
  | r :: _ =>
      if 0 <? streak_days r
      then updated u (CURRENT_DATE ds) (set_streak_days (streak_days r + 1)) l
      else l
  | [] => l
  end.

(** Enough for the database to run every statement of [updateStudyStats]:
    the user exists, the parameters are in the range of [INTEGER], the
    sequence has a value left, and each row of the user has room for one
    more session, for the minutes and for one more day of streak. *)
Definition accepted (u minutes : Z) (t : Tables) : bool :=
  int32 u && int32 minutes && bool_decide (u ∈ users t) && int32 (study_stats_id_seq t)
  && forallb (fun r =>
                negb (bool_decide (user_id r = u))
                || (room_for minutes 0 r && room_for minutes 1 r && int32 (streak_days r + 1)))
       (study_stats t).

(** A [SET] clause that leaves [user_id] and [date] alone. *)
Definition keeps_key (f : Stats -> Stats) : Prop :=
  forall r, user_id (f r) = user_id r /\ date (f r) = date r.

(** [UNIQUE(user_id, date)] *)
Definition one_row_a_day (l : list Stats) : Prop :=
  NoDup ((fun r => (user_id r, date r)) <$> l).

(** Every streak counts at least the day of its row. *)
Definition streaks_started (l : list Stats) : Prop :=
  Forall (fun r => 1 <= streak_days r) l.

End StudyStats.

(** ** The transactions of class [Database] *)

Module Transaction.

Inductive Command : Type := BEGIN | COMMIT | ROLLBACK.

(** What [transaction] does with the pool and the client, in order. *)
Inductive Event : Type :=
  | connect
  | query (c : Command)
  | callback
  | release.

#[global] Instance Command_eq_dec : EqDecision Command.
Proof. solve_decision. Defined.
#[global] Instance Event_eq_dec : EqDecision Event.
Proof. solve_decision. Defined.

(** The pool of [pg] over a state [K]: [pool.connect()] and [client.query],
    which may throw. *)
Class Pool (K : Type) : Type := {
  pool_connect : K -> outcome unit * K;
  client_query : Command -> K -> outcome unit * K }.

Record TSt (K : Type) : Type := mkTSt {
  pool : K;
  events : list Event }.
Arguments mkTSt {K}.
Arguments pool {K}.
Arguments events {K}.

(** [try { m } finally { f }] for an [f] that does not throw. *)
Definition try_finally {S A} (m : M S A) (f : S -> S) : M S A :=
  fun s => let r := m s in (r.1, f r.2).

Section Transaction.

Context {K : Type} {P : Pool K} {A : Type}.

Definition step {B} (e : Event) (f : K -> outcome B * K) : M (TSt K) B :=
  fun st => let r := f (pool st) in (r.1, mkTSt r.2 (events st ++ [e])).

(** [transaction]; [cb] is what the callback does with the client. *)
Definition transaction (cb : K -> outcome A * K) : M (TSt K) A :=
  do! step connect pool_connect in
  try_finally
    (try_catch
       (do! step (query BEGIN) (client_query BEGIN) in
        let! result := step callback cb in
        do! step (query COMMIT) (client_query COMMIT) in
        ret result)
       (fun error =>
          do! step (query ROLLBACK) (client_query ROLLBACK) in
          throw error))
    (fun st => mkTSt (pool st) (events st ++ [release])).

End Transaction.

End Transaction.

(** ** A world for the page *)

Module World.

Import SesiBelajar.

(** Modelled from the spec: the Remote Client [data/api.js] and the Local
    Store [js/db.js] are not among the sources. The world below follows
    sections 4.2 and 4.3 of the specification: the remote operations fail
    when the bearer token is absent or the service does not answer 2xx, and
    otherwise run the statement of class [Database] for the signed-in user;
    deleting an id the user does not own is answered 404; the local
    operations fail only when the storage medium does, [set] inserts under a
    generated id when the entity has none and overwrites the entity with the
    same id otherwise (adding it when there is none), and [delete] of an
    absent id changes nothing. *)
Record World : Type := mkWorld {
  token : bool;
  user : Z;
  remote_up : bool;
  pg : Database.Pg;
  storage_ok : bool;
  local_sessions : list Session;
  local_seq : Z;
  clock : Z }.

Definition set_pg (p : Database.Pg) (w : World) : World :=
  mkWorld (token w) (user w) (remote_up w) p (storage_ok w) (local_sessions w)
    (local_seq w) (clock w).

Definition set_local (l : list Session) (n : Z) (w : World) : World :=
  mkWorld (token w) (user w) (remote_up w) (pg w) (storage_ok w) l n (clock w).

Definition set_token (b : bool) (w : World) : World :=
  mkWorld b (user w) (remote_up w) (pg w) (storage_ok w) (local_sessions w)
    (local_seq w) (clock w).

(** Modelled from the spec: a call of the Remote Client [data/api.js]
    (section 4.2), refused without a token and failing when the service does
    not answer. *)
Definition remote {A} (f : World -> outcome A * World) (w : World) : outcome A * World :=
  if negb (token w) then (Throw (lit "Access token required"), w)
  else if negb (remote_up w) then (Throw (lit "Failed to fetch"), w)
  else f w.

Definition owns (i : Z) (w : World) : bool :=
  bool_decide (Exists (Database.targets i (Some (user w))) (Database.study_sessions (pg w))).

(** Modelled from the spec: a call of the Local Store [js/db.js] (section
    4.3), failing only when the storage medium does. *)
Definition local {A} (f : World -> outcome A * World) (w : World) : outcome A * World :=
  if negb (storage_ok w) then (Throw (lit "QuotaExceededError"), w) else f w.

(** Modelled from the spec: [DB.set('sessions', entity)] of [js/db.js]
    (section 4.3). Without an id the entity is inserted under the next id of
    the store, with [createdAt] set when it has none; with an id it replaces
    the entity of that id, or is added when there is none. *)
Definition store_set (d : SessionData) (w : World) : outcome Session * World :=
  match id d with
  | None =>
      let e := set_id (local_seq w)
                 (match createdAt d with Some _ => d | None => set_createdAt (clock w) d end) in
      (Ok e, set_local (local_sessions w ++ [e]) (local_seq w + 1) w)
  | Some i =>
      let e := set_id i d in
      if bool_decide (Exists (fun s => id s = i) (local_sessions w))
      then (Ok e, set_local ((fun s => if decide (id s = i) then e else s) <$> local_sessions w)
                    (local_seq w) w)
      else (Ok e, set_local (local_sessions w ++ [e]) (local_seq w) w)
  end.

(** Modelled from the spec: the operations of [Api] ([data/api.js], section
    4.2) and [DB] ([js/db.js], section 4.3) on the world. The remote
    operations run the statements of class [Database] for the signed-in
    user; [delete] of an id the user does not own throws (the 404 answer of
    section 8). *)
#[global] Instance world_collaborators : Collaborators World := {
  isLoggedIn := token;
  api_getAll := remote (fun w => (Ok (Database.getSessionsByUserId (user w) (pg w)), w));
  api_create d := remote (fun w => (Ok tt, set_pg (Database.createSession (user w) d (pg w)).2 w));
  api_update i d := remote (fun w =>
    (Ok tt, set_pg (Database.updateSession i d (Some (user w)) (pg w)) w));
  api_delete i := remote (fun w =>
    if owns i w then (Ok tt, set_pg (Database.deleteSession i (Some (user w)) (pg w)) w)
    else (Throw (lit "Session not found"), w));
  api_start i := remote (fun w =>
    (Ok tt, set_pg (Database.startSession i (Some (user w)) (pg w)) w));
  api_complete i _ := remote (fun w =>
    (Ok tt, set_pg (Database.completeSession i (Some (user w)) (pg w)) w));
  db_getAll := local (fun w => (Ok (local_sessions w), w));
  db_set d := local (store_set d);
  db_delete i := local (fun w =>
    (Ok tt, set_local (filter (fun s => id s <> i) (local_sessions w)) (local_seq w) w));
  date_now := clock }.

End World.

(** ** Example worlds *)

Module Examples.

Import SesiBelajar World.

(** A date rendering for the examples: the instant in decimal. *)
Definition toLocaleDateString (t : option Z) : jsstring :=
  match t with
  | Some z => of_Z z
  | None => lit "Invalid Date"
  end.

(** A session kept by the Local Store, created at instant 10. *)
Definition math (st : jsstring) : Session :=
  mkSession 1 (Some (lit "Math")) (Some (lit "Algebra")) (Some 25) st
    None None None (Some 10) None None None.

(** The same session with markup in its title and subject. *)
Definition math_markup (st : jsstring) : Session :=
  mkSession 1 (Some (lit "<img src=x onerror=alert(1)>")) (Some (lit "O'Neil & sons <b>"))
    (Some 25) st None None None (Some 10) None None None.

(** A second remote row, created at instant 9. *)
Definition biology : Session :=
  mkSession 8 (Some (lit "Biology")) (Some (lit "Cells")) (Some 15) inprogress
    None None (Some 9) None None None None.

(** The markup [renderSessions] writes for a collection under the filter
    ['all'] ([[]] with no button when a card throws). *)
Definition markup_of (l : list Session) : jsstring * list Button :=
  match rendered toLocaleDateString (lit "all") l with
  | Ok hb => hb
  | Throw _ => ([], [])
  end.

(** The markup of one card ([[]] when it throws). *)
Definition card_of (s : Session) : jsstring :=
  match card toLocaleDateString s with
  | Ok h => h
  | Throw _ => []
  end.

(** A row of the remote table, created at instant 5. *)
Definition physics : Session :=
  mkSession 7 (Some (lit "Physics")) (Some (lit "Optics")) (Some 40) planned
    (Some (lit "Lenses")) None (Some 5) None None None None.

(** User 1 on a device whose clock shows 20; the remote table holds [rows]
    and the Local Store [locals], with 2 as its next id. *)
Definition world_of (signed_in up : bool) (rows locals : list Session) : World :=
  mkWorld signed_in 1 up (Database.mkPg (Database.mkRow 1 <$> rows) 8 20) true locals 2 20.

Definition fresh (w : World) : St World := mkSt w new_page [].

Definition run (m : M (St World) unit) (st : St World) : St World := (m st).2.

(** The user signs out (the token is removed) while the page stays open. *)
Definition sign_out (st : St World) : St World :=
  mkSt (set_token false (world st)) (page st) (calls st).

(** The page once [afterRender] has run. *)
Definition loaded (w : World) : St World :=
  run (afterRender toLocaleDateString) (fresh w).

(** Filling the form for a new session and submitting it. *)
Definition create_chemistry : list UiEvent :=
  [click_addSessionBtn;
   input_sessionForm (lit "Chemistry") (lit "Acids") (Some 30) opt_planned [];
   submit_sessionForm].

(** Opening session 1 in the form, choosing a status and submitting. *)
Definition edit_status (o : StatusOption) : list UiEvent :=
  [click_sessionList (mkButton edit_btn 1) true;
   input_sessionForm (lit "Math") (lit "Algebra") (Some 25) o [];
   submit_sessionForm].

(** A signed-in page showing the remote row, after which the user signs
    out. *)
Definition signed_out_after_load : St World :=
  sign_out (loaded (world_of true true [physics] [])).

End Examples.

(** ** An example runtime for the handler *)

Module ExampleRuntime.

Import ApiIndex.

(** The tables of an example database, as rows of columns, with the next
    value of the id sequence of each table and the current instant. *)
Record Tables : Type := mkTables {
  users : list Row;
  study_sessions : list Row;
  notes : list Row;
  users_id_seq : Z;
  study_sessions_id_seq : Z;
  notes_id_seq : Z;
  now : Z }.

(** [column = $n] for a number or a text. *)
Definition column_is (k : string) (v : jsval) (r : Row) : bool :=
  match get_field k r, v with
  | JNum a, JNum b => a =? b
  | JStr a, JStr b => bool_decide (a = b)
  | _, _ => false
  end.

Definition created_at_of (r : Row) : option Z :=
  match get_field "created_at" r with
  | JNum t => Some t
  | _ => None
  end.

Definition day (t : Z) : Z := t / 86400000.

Definition completed_today (u : jsval) (t : Tables) : list Row :=
  filter (fun r => column_is "user_id" u r
                   && column_is "status" (JStr (lit "completed")) r
                   && match created_at_of r with
                      | Some c => day c =? day (now t)
                      | None => false
                      end = true)
    (study_sessions t).

Definition duration_of (r : Row) : Z :=
  match get_field "duration" r with
  | JNum d => d
  | _ => 0
  end.

(** *** The columns of [setup-database.js]

    What the tables do with the parameters of an [INSERT]. The example
    database takes texts, numbers, booleans and [null]; an array or an
    object, which [pg] would serialise, is outside the example and
    refused. *)

Definition and_then {A B} (o : outcome A) (k : A -> outcome B) : outcome B :=
  match o with
  | Ok a => k a
  | Throw e => Throw e
  end.

Definition is_high_surrogate (c : N) : bool := ((55296 <=? c) && (c <=? 56319))%N.
Definition is_low_surrogate (c : N) : bool := ((56320 <=? c) && (c <=? 57343))%N.

(** The characters of a text as the database receives them: a surrogate
    pair is one character, and a surrogate without its pair is sent as
    U+FFFD. *)
Fixpoint characters (s : jsstring) : list jsstring :=
  match s with
  | [] => []
  | c :: s' =>
      if is_high_surrogate c then
        match s' with
        | c' :: s'' => if is_low_surrogate c' then [c; c'] :: characters s''
                       else [65533%N] :: characters s'
        | [] => [[65533%N]]
        end
      else if is_low_surrogate c then [65533%N] :: characters s'
      else [c] :: characters s'
  end.

(** The parameter of a text column as the database reads it, before the
    statement runs; [None] is [NULL]. A text with a NUL is refused. *)
Definition read_text (v : jsval) : outcome (option jsstring) :=
  match v with
  | JStr s =>
      if existsb (N.eqb 0) s then Throw (lit "invalid byte sequence for encoding UTF8: 0x00")
      else Ok (Some (concat (characters s)))
  | JNum z => Ok (Some (of_Z z))
  | JBool b => Ok (Some (if b then lit "true" else lit "false"))
  | JNull | JUndefined => Ok None
  | JArr _ | JObj _ => Throw (lit "parameter outside the example")
  end.

Fixpoint skip_spaces (s : jsstring) : jsstring :=
  match s with
  | c :: s' => if ((c =? 32) || ((9 <=? c) && (c <=? 13)))%N then skip_spaces s' else s
  | [] => []
  end.

(** An integer in decimal, with an optional sign and spaces around it. *)
Definition parse_integer (s : jsstring) : option Z :=
  let digits (d : jsstring) : option Z :=
    match d with
    | [] => None
    | _ => foldl (fun acc c =>
                    match acc with
                    | Some n => if ((48 <=? c) && (c <=? 57))%N
                                then Some (10 * n + Z.of_N (c - 48)) else None
                    | None => None
                    end) (Some 0) d
    end in
  match rev (skip_spaces (rev (skip_spaces s))) with
  | 45%N :: d => Z.opp <$> digits d
  | 43%N :: d => digits d
  | d => digits d
  end.

Definition int32 (z : Z) : bool := (-2147483648 <=? z) && (z <=? 2147483647).

(** The parameter of an [INTEGER] column as the database reads it. *)
Definition read_integer (v : jsval) : outcome jsval :=
  let ranged (z : Z) : outcome jsval :=
    if int32 z then Ok (JNum z) else Throw (lit "value is out of range for type integer") in
  match v with
  | JNum z => ranged z
  | JNull | JUndefined => Ok JNull
  | JStr s => match parse_integer s with
              | Some z => ranged z
              | None => Throw (lit "invalid input syntax for type integer")
              end
  | JBool _ => Throw (lit "invalid input syntax for type integer")
  | JArr _ | JObj _ => Throw (lit "parameter outside the example")
  end.

(** A text in a column [VARCHAR(n)], or [TEXT] for no [n], while the
    statement runs: a text longer than [n] characters is refused, unless the
    characters in excess are all spaces, which are cut. *)
Definition fit (n : option nat) (x : option jsstring) : outcome jsval :=
  match x, n with
  | None, _ => Ok JNull
  | Some s, None => Ok (JStr s)
  | Some s, Some n =>
      let cs := characters s in
      if (length cs <=? n)%nat then Ok (JStr s)
      else if forallb (N.eqb 32) (concat (drop n cs)) then Ok (JStr (concat (take n cs)))
      else Throw (lit "value too long for type character varying")
  end.

Definition is_null (v : jsval) : bool :=
  match v with
  | JNull => true
  | _ => false
  end.

(** [user_id INTEGER REFERENCES users(id)] *)
Definition references_users (u : jsval) (t : Tables) : bool :=
  is_null u || existsb (column_is "id" u) (users t).

(** The statements of the handler on the tables. A statement whose
    parameters cannot be read does not run; one that is refused while it
    runs has taken its value of the sequence. *)
Definition exec (q : Sql) (t : Tables) : outcome (list Row) * Tables :=
  match q with
  | select_now => (Ok [[("now"%string, JNum (now t))]], t)
  | select_user_by_email e =>
      (Ok (filter (fun r => column_is "email" e r = true) (users t)), t)
  | insert_user n e p a =>
      let i := users_id_seq t in
      let burnt := mkTables (users t) (study_sessions t) (notes t) (i + 1)
                     (study_sessions_id_seq t) (notes_id_seq t) (now t) in
      match and_then (read_text n) (fun n =>
            and_then (read_text e) (fun e =>
            and_then (read_text p) (fun p =>
            and_then (read_text a) (fun a => Ok (n, e, p, a))))) with
      | Throw err => (Throw err, t)
      | Ok (n, e, p, a) =>
          match and_then (fit (Some 100%nat) n) (fun n =>
                and_then (fit (Some 100%nat) e) (fun e =>
                and_then (fit (Some 255%nat) p) (fun p =>
                and_then (fit (Some 10%nat) a) (fun a => Ok (n, e, p, a))))) with
          | Throw err => (Throw err, burnt)
          | Ok (n, e, p, a) =>
              if is_null n || is_null e || is_null p
              then (Throw (lit "null value violates not-null constraint"), burnt)
              else if existsb (column_is "email" e) (users t)
              then (Throw (lit "duplicate key value violates unique constraint"), burnt)
              else
                (Ok [[("id"%string, JNum i)]],
                 mkTables (users t ++ [[("id"%string, JNum i); ("name"%string, n);
                                        ("email"%string, e); ("password"%string, p);
                                        ("avatar"%string, a);
                                        ("created_at"%string, JNum (now t))]])
                   (study_sessions t) (notes t) (i + 1)
                   (study_sessions_id_seq t) (notes_id_seq t) (now t))
          end
      end
  | update_last_login _ => (Ok [], t)
  | select_sessions u =>
      (Ok (Database.order_by_desc created_at_of
             (filter (fun r => column_is "user_id" u r = true) (study_sessions t))), t)
  | insert_session u ti de su du st =>
      let i := study_sessions_id_seq t in
      let burnt := mkTables (users t) (study_sessions t) (notes t) (users_id_seq t)
                     (i + 1) (notes_id_seq t) (now t) in
      match and_then (read_integer u) (fun u =>
            and_then (read_text ti) (fun ti =>
            and_then (read_text de) (fun de =>
            and_then (read_text su) (fun su =>
            and_then (read_integer du) (fun du =>
            and_then (read_text st) (fun st => Ok (u, ti, de, su, du, st))))))) with
      | Throw err => (Throw err, t)
      | Ok (u, ti, de, su, du, st) =>
          match and_then (fit (Some 200%nat) ti) (fun ti =>
                and_then (fit None de) (fun de =>
                and_then (fit (Some 100%nat) su) (fun su =>
                and_then (fit (Some 20%nat) st) (fun st => Ok (ti, de, su, st))))) with
          | Throw err => (Throw err, burnt)
          | Ok (ti, de, su, st) =>
              if is_null ti
              then (Throw (lit "null value violates not-null constraint"), burnt)
              else if negb (references_users u t)
              then (Throw (lit "violates foreign key constraint"), burnt)
              else
                (Ok [[("id"%string, JNum i)]],
                 mkTables (users t)
                   (study_sessions t ++ [[("id"%string, JNum i); ("user_id"%string, u);
                                          ("title"%string, ti); ("description"%string, de);
                                          ("subject"%string, su); ("duration"%string, du);
                                          ("status"%string, st);
                                          ("created_at"%string, JNum (now t))]])
                   (notes t) (users_id_seq t) (i + 1) (notes_id_seq t) (now t))
          end
      end
  | select_notes u =>
      (Ok (Database.order_by_desc created_at_of
             (filter (fun r => column_is "user_id" u r = true) (notes t))), t)
  | insert_note u ti co ca =>
      let i := notes_id_seq t in
      let burnt := mkTables (users t) (study_sessions t) (notes t) (users_id_seq t)
                     (study_sessions_id_seq t) (i + 1) (now t) in
      match and_then (read_integer u) (fun u =>
            and_then (read_text ti) (fun ti =>
            and_then (read_text co) (fun co =>
            and_then (read_text ca) (fun ca => Ok (u, ti, co, ca))))) with
      | Throw err => (Throw err, t)
      | Ok (u, ti, co, ca) =>
          match and_then (fit (Some 200%nat) ti) (fun ti =>
                and_then (fit None co) (fun co =>
                and_then (fit (Some 50%nat) ca) (fun ca => Ok (ti, co, ca)))) with
          | Throw err => (Throw err, burnt)
          | Ok (ti, co, ca) =>
              if is_null ti || is_null co
              then (Throw (lit "null value violates not-null constraint"), burnt)
              else if negb (references_users u t)
              then (Throw (lit "violates foreign key constraint"), burnt)
              else
                (Ok [[("id"%string, JNum i)]],
                 mkTables (users t) (study_sessions t)
                   (notes t ++ [[("id"%string, JNum i); ("user_id"%string, u);
                                 ("title"%string, ti); ("content"%string, co);
                                 ("category"%string, ca);
                                 ("created_at"%string, JNum (now t))]])
                   (users_id_seq t) (study_sessions_id_seq t) (i + 1) (now t))
          end
      end
  | select_stats_today u =>
      (Ok [[("total_minutes"%string, JNum (foldr Z.add 0 (duration_of <$> completed_today u t)));
            ("total_sessions"%string, JNum (Z.of_nat (length (completed_today u t))))]], t)
  end.

(** Decimal digits to a number; [None] when a character is not a digit or
    the text is empty. *)
Definition parse_decimal (s : jsstring) : option Z :=
  match s with
  | [] => None
  | _ => foldl (fun acc c =>
                  match acc with
                  | Some n => if ((48 <=? c) && (c <=? 57))%N
                              then Some (10 * n + Z.of_N (c - 48)) else None
                  | None => None
                  end) (Some 0) s
  end.

(** [toLowerCase] on the characters the examples use: the letters A to Z,
    and the capital I with a dot above (U+0130), whose lower case is an i
    followed by a combining dot (U+0069 U+0307). Other characters are kept. *)
Definition lower (s : jsstring) : jsstring :=
  flat_map (fun c => if ((65 <=? c) && (c <=? 90))%N then [(c + 32)%N]
                     else if (c =? 304)%N then [105%N; 775%N]
                     else [c]) s.

Definition upper (s : jsstring) : jsstring :=
  (fun c => if ((97 <=? c) && (c <=? 122))%N then (c - 32)%N else c) <$> s.

(** A token is the decimal id of its user; a hash is the password after a
    fixed prefix. *)
#[global] Instance runtime : Runtime Tables := {
  pool_query := exec;
  bcrypt_hash v := match v with
                   | JStr s => Ok (lit "$2a$10$" ++ s)
                   | _ => Throw (lit "Illegal arguments")
                   end;
  bcrypt_compare p h := match p, h with
                        | JStr a, JStr b => Ok (bool_decide (lit "$2a$10$" ++ a = b))
                        | _, _ => Throw (lit "Illegal arguments")
                        end;
  jwt_sign payload := match get_field "id" payload with
                      | JNum n => of_Z n
                      | _ => lit "0"
                      end;
  jwt_verify t := match parse_decimal t with
                  | Some n => Some [("id"%string, JNum n)]
                  | None => None
                  end;
  toLowerCase := lower;
  toUpperCase := upper;
  parseInt v := match v with
                | JNum z => Some z
                | JStr s => parse_decimal s
                | _ => None
                end;
  coerce_lt _ _ := false;
  now_toISOString := lit "2025-01-01T00:00:00.000Z" }.

Definition empty_tables : Tables := mkTables [] [] [] 1 1 1 0.

Definition start_state : HSt Tables := mkHSt empty_tables [].

(** User 1 and two sessions of theirs, the older one inserted first. *)
Definition seeded_tables : Tables :=
  mkTables
    [[("id"%string, JNum 1); ("name"%string, JStr (lit "Ayse"));
      ("email"%string, JStr (lit "ayse@a.b")); ("password"%string, JStr (lit "$2a$10$secret"));
      ("avatar"%string, JStr (lit "A")); ("created_at"%string, JNum 1)]]
    [[("id"%string, JNum 1); ("user_id"%string, JNum 1);
      ("title"%string, JStr (lit "Math")); ("created_at"%string, JNum 3)];
     [("id"%string, JNum 2); ("user_id"%string, JNum 1);
      ("title"%string, JStr (lit "Physics")); ("created_at"%string, JNum 9)]]
    [] 2 3 1 10.

Definition seeded_state : HSt Tables := mkHSt seeded_tables [].

(** [GET /api/sessions] with the token of user 1. *)
Definition get_sessions_user_1 : Request :=
  mkRequest (lit "GET") (lit "/api/sessions") (Some (lit "Bearer 1")) JUndefined.

(** [GET /api/sessions] without an [Authorization] header. *)
Definition get_sessions_no_token : Request :=
  mkRequest (lit "GET") (lit "/api/sessions") None JUndefined.



(** [POST /api/sessions] by user 1 with a 600-character title. *)
Definition post_long_title : Request :=
  mkRequest (lit "POST") (lit "/api/sessions") (Some (lit "Bearer 1"))
    (JObj [("title"%string, JStr (repeat 97%N 600))]).

End ExampleRuntime.

(** * Properties *)

(** ** The string operations on small inputs *)

Example trim_both_ends : trim (9%N :: lit "  a b " ++ [10%N]) = lit "a b".
Proof. reflexivity. Qed.

Example replace_first_api :
  replace_first (lit "/api") [] (lit "/api/sessions") = lit "/sessions"
  /\ replace_first (lit "/api") [] (lit "/v1/api/api") = lit "/v1/api".
Proof. split; reflexivity. Qed.

Example split_bearer :
  split_on 32 (lit "Bearer abc") = [lit "Bearer"; lit "abc"]
  /\ split_on 32 (lit "Bearer") = [lit "Bearer"]
  /\ split_on 32 (lit "Bearer ") = [lit "Bearer"; []].
Proof. repeat split; reflexivity. Qed.

Example validateEmail_cases :
  ApiIndex.validateEmail (lit "a@b.c") = true
  /\ ApiIndex.validateEmail (lit "a@..c") = true
  /\ ApiIndex.validateEmail (lit "a@b") = false
  /\ ApiIndex.validateEmail (lit "a@.c") = false
  /\ ApiIndex.validateEmail (lit "a@b.") = false
  /\ ApiIndex.validateEmail (lit "a b@c.d") = false
  /\ ApiIndex.validateEmail (lit "a@b@c.d") = false
  /\ ApiIndex.validateEmail (lit "@b.c") = false.
Proof. repeat split; reflexivity. Qed.

Example escapeHtml_ampersand_first :
  SesiBelajar.escapeHtml (lit "<a href='x'>&lt;</a>")
  = lit "&lt;a href=&#039;x&#039;&gt;&amp;lt;&lt;/a&gt;".
Proof. reflexivity. Qed.

(** ** Running the page methods *)

Section PageFacts.

Import SesiBelajar.

Context {W : Type} {C : Collaborators W}.
Variable tl : option Z -> jsstring.

Lemma renderSessions_eq (st : St W) :
  renderSessions tl st =
  match rendered tl (sessionFilter (page st)) (sessions (page st)) with
  | Ok hb => (Ok tt, mkSt (world st) (set_sessionList hb.1 hb.2 (page st)) (calls st))
  | Throw e => (Throw e, st)
  end.
Proof.
  unfold renderSessions, rendered, bind, get, update_page, modify, lift_outcome.
  destruct (filteredSessions _ _) as [|s l]; [reflexivity|].
  destruct (cards tl (s :: l)); [reflexivity|]. by destruct st.
Qed.

Local Opaque renderSessions.
Local Opaque lit.

(** [loadSessions] in one piece: the source that is read, and the fallback
    of the [catch] block. *)
Lemma loadSessions_eq (st : St W) :
  loadSessions tl st =
  (Ok tt,
   let source := if isLoggedIn (world st) then api_getAll else db_getAll in
   let c := if isLoggedIn (world st) then Api_sessions_getAll else DB_getAll in
   let r := source (world st) in
   let cs := calls st ++ [Api_auth_isLoggedIn; c] in
   let caught e p :=
     local_reload tl (mkSt r.2 (add_console_error (lit "Error loading sessions:") e p) cs) in
   match r.1 with
   | Ok l =>
       let p := set_sessions l (page st) in
       match rendered tl (sessionFilter p) l with
       | Ok hb => mkSt r.2 (set_sessionList hb.1 hb.2 p) cs
       | Throw e => caught e p
       end
   | Throw e => caught e (page st)
   end).
Proof.
  unfold loadSessions, try_catch, bind, Api_auth_isLoggedIn_, call, console_error_, showError,
    update_page, modify, local_reload.
  cbn.
  destruct (isLoggedIn (world st)); cbn.
  - destruct (api_getAll (world st)) as [[l|e] w1]; cbn.
    + rewrite renderSessions_eq; cbn.
      destruct (rendered tl (sessionFilter (page st)) l) as [hb|e]; cbn;
        [rewrite <- app_assoc; reflexivity|].
      destruct (db_getAll w1) as [[l'|e'] w2]; cbn; [|rewrite <- !app_assoc; reflexivity].
      rewrite renderSessions_eq; cbn.
      destruct (rendered tl (sessionFilter (page st)) l') as [hb|e2]; cbn;
        rewrite <- !app_assoc; reflexivity.
    + destruct (db_getAll w1) as [[l'|e'] w2]; cbn; [|rewrite <- !app_assoc; reflexivity].
      rewrite renderSessions_eq; cbn.
      destruct (rendered tl (sessionFilter (page st)) l') as [hb|e2]; cbn;
        rewrite <- !app_assoc; reflexivity.
  - destruct (db_getAll (world st)) as [[l|e] w1]; cbn.
    + rewrite renderSessions_eq; cbn.
      destruct (rendered tl (sessionFilter (page st)) l) as [hb|e]; cbn;
        [rewrite <- app_assoc; reflexivity|].
      destruct (db_getAll w1) as [[l'|e'] w2]; cbn; [|rewrite <- !app_assoc; reflexivity].
      rewrite renderSessions_eq; cbn.
      destruct (rendered tl (sessionFilter (page st)) l') as [hb|e2]; cbn;
        rewrite <- !app_assoc; reflexivity.
    + destruct (db_getAll w1) as [[l'|e'] w2]; cbn; [|rewrite <- !app_assoc; reflexivity].
      rewrite renderSessions_eq; cbn.
      destruct (rendered tl (sessionFilter (page st)) l') as [hb|e2]; cbn;
        rewrite <- !app_assoc; reflexivity.
Qed.

Lemma loadSessions_ok (st : St W) : loadSessions tl st = (Ok tt, (loadSessions tl st).2).
Proof. rewrite loadSessions_eq. reflexivity. Qed.

(** The fallback adds one call, never a write, and at most one toast, an
    error. *)
Lemma local_reload_effects (st : St W) :
  calls (local_reload tl st) = calls st ++ [DB_getAll]
  /\ (toasts (page (local_reload tl st)) = toasts (page st)
      \/ toasts (page (local_reload tl st))
         = toasts (page st) ++ [mkToast (lit "Gagal memuat sesi belajar") error])
  /\ console_error (page (local_reload tl st)) = console_error (page st).
Proof.
  unfold local_reload.
  destruct (db_getAll (world st)) as [[l|e] w1]; cbn.
  - destruct (rendered tl _ l) as [hb|e]; cbn; auto.
  - auto.
Qed.

(** [loadSessions] never writes to a store, and the only toast it can add is
    an error. *)
Lemma loadSessions_effects (st : St W) :
  (exists cs, calls (loadSessions tl st).2 = calls st ++ cs
              /\ Forall (fun c => is_local_write c = false) cs)
  /\ (exists ts, toasts (page (loadSessions tl st).2) = toasts (page st) ++ ts
                 /\ Forall (fun t => type t = error) ts).
Proof.
  rewrite loadSessions_eq. cbn.
  set (source := if isLoggedIn (world st) then api_getAll else db_getAll).
  set (c := if isLoggedIn (world st) then Api_sessions_getAll else DB_getAll).
  assert (Hc : is_local_write c = false) by (subst c; destruct (isLoggedIn _); reflexivity).
  assert (Hrel : forall e p, toasts p = toasts (page st) ->
    let st1 := local_reload tl
                 (mkSt (source (world st)).2 (add_console_error (lit "Error loading sessions:") e p)
                    (calls st ++ [Api_auth_isLoggedIn; c])) in
    (exists cs, calls st1 = calls st ++ cs /\ Forall (fun c => is_local_write c = false) cs)
    /\ (exists ts, toasts (page st1) = toasts (page st) ++ ts
                   /\ Forall (fun t => type t = error) ts)).
  { intros e p Hp st1.
    destruct (local_reload_effects
                (mkSt (source (world st)).2 (add_console_error (lit "Error loading sessions:") e p)
                   (calls st ++ [Api_auth_isLoggedIn; c]))) as (Hcs & Hts & _).
    fold st1 in Hcs, Hts. cbn in Hcs, Hts. split.
    - exists [Api_auth_isLoggedIn; c; DB_getAll]. rewrite Hcs, <- app_assoc. split; [reflexivity|].
      repeat constructor; done.
    - destruct Hts as [Hts|Hts]; rewrite Hts, Hp.
      + exists []. rewrite app_nil_r. split; [reflexivity|constructor].
      + eexists. split; [reflexivity|]. repeat constructor. }
  destruct (source (world st)) as [[l|e] w1] eqn:Hs; cbn.
  - destruct (rendered tl _ l) as [hb|e]; cbn.
    + split.
      * exists [Api_auth_isLoggedIn; c]. split; [reflexivity|]. repeat constructor; done.
      * exists []. rewrite app_nil_r. split; [reflexivity|constructor].
    + apply (Hrel e (set_sessions l (page st))). reflexivity.
  - apply (Hrel e (page st)). reflexivity.
Qed.

Local Opaque loadSessions.

Lemma catch_block_effects (m : Mutation) (e : jsstring) (st : St W) :
  (exists cs, calls (catch_block tl m e st) = calls st ++ cs
              /\ Forall (fun c => is_local_write c = false) cs)
  /\ (exists ts, toasts (page (catch_block tl m e st)) = toasts (page st) ++ failure_toast m :: ts
                 /\ Forall (fun t => type t = error) ts).
Proof.
  unfold catch_block.
  destruct (loadSessions_effects
              (mkSt (world st)
                 (add_toast (failure_toast m) (add_console_error (catch_message m) e (page st)))
                 (calls st))) as [Hcs (ts & Hts & Herr)].
  split; [exact Hcs|].
  exists ts. split; [|exact Herr]. rewrite Hts. cbn. rewrite <- app_assoc. reflexivity.
Qed.

Lemma failure_toast_error (m : Mutation) : type (failure_toast m) = error.
Proof. by destruct m. Qed.

Lemma success_toast_success (m : Mutation) (p : Page) : type (success_toast m p) = success.
Proof. by destruct m. Qed.

(** A mutation that went through its [catch] block did not succeed. *)
Lemma catch_block_not_succeeded (m : Mutation) (e : jsstring) (st0 st : St W) :
  toasts (page st) = toasts (page st0) ->
  ~ succeeded m st0 (catch_block tl m e st).
Proof.
  intros Hp Hs. unfold succeeded in Hs.
  destruct (catch_block_effects m e st) as [_ (ts & Hts & _)].
  rewrite Hts, Hp in Hs. apply app_inv_head in Hs. inversion Hs as [[Hf Hnil]].
  pose proof (failure_toast_error m) as H1. pose proof (success_toast_success m (page st0)) as H2.
  rewrite Hf in H1. congruence.
Qed.

Ltac unfold_page :=
  unfold perform, handleSessionSubmit, deleteSession, startSession, completeSession,
    local_transition, after_write, catch_block, finish, success_toast, failure_toast,
    catch_message, try_catch, bind, get, ret, Api_auth_isLoggedIn_, Date_now, call,
    console_error_, showError, showSuccess, closeModal, update_page, modify.

Ltac normalize_calls := rewrite <- ?app_assoc; cbn [app].

Ltac finish_catch := rewrite loadSessions_ok; normalize_calls; reflexivity.

Ltac finish_render :=
  rewrite renderSessions_eq; cbn;
  destruct (rendered _ _ _) as [?hb|?e];
  cbn; [normalize_calls; reflexivity | finish_catch].

(** The authenticated branch of every mutation: the write, then [getAll] on
    the Remote Client, then the rendering. *)
Lemma perform_remote (m : Mutation) (st : St W) c f :
  isLoggedIn (world st) = true ->
  remote_write m (page st) = Some (c, f) ->
  perform tl m st =
  (Ok tt,
   let r := f (world st) in
   let st1 := mkSt r.2 (page st) (calls st ++ [Api_auth_isLoggedIn; c]) in
   match r.1 with
   | Throw e => catch_block tl m e st1
   | Ok _ =>
       let r2 := api_getAll r.2 in
       let st2 := mkSt r2.2 (page st)
                    (calls st ++ [Api_auth_isLoggedIn; c; Api_sessions_getAll]) in
       match r2.1 with
       | Throw e => catch_block tl m e st2
       | Ok l => after_write tl m (page st) l st2
       end
   end).
Proof.
  intros Hlog Hw.
  destruct m as [|i|i|i]; cbn in Hw.
  - unfold_page. cbn. rewrite Hlog. cbn.
    destruct (editId (sessionForm (page st))) as [eid|]; inversion Hw; subst; cbn.
    + destruct (api_update eid _ (world st)) as [[[]|e] w1]; cbn; [|finish_catch].
      destruct (api_getAll w1) as [[l|e] w2]; cbn; [|finish_catch]. finish_render.
    + destruct (api_create _ (world st)) as [[[]|e] w1]; cbn; [|finish_catch].
      destruct (api_getAll w1) as [[l|e] w2]; cbn; [|finish_catch]. finish_render.
  - inversion Hw; subst. unfold_page. cbn. rewrite Hlog. cbn.
    destruct (api_delete i (world st)) as [[[]|e] w1]; cbn; [|finish_catch].
    destruct (api_getAll w1) as [[l|e] w2]; cbn; [|finish_catch]. finish_render.
  - unfold_page. cbn.
    destruct (find_session i (sessions (page st))) as [[index s]|]; inversion Hw; subst.
    cbn. rewrite Hlog. cbn.
    destruct (api_start i (world st)) as [[[]|e] w1]; cbn; [|finish_catch].
    destruct (api_getAll w1) as [[l|e] w2]; cbn; [|finish_catch]. finish_render.
  - unfold_page. cbn.
    destruct (find_session i (sessions (page st))) as [[index s]|]; inversion Hw; subst.
    cbn. rewrite Hlog. cbn.
    destruct (api_complete i (duration s) (world st)) as [[[]|e] w1]; cbn; [|finish_catch].
    destruct (api_getAll w1) as [[l|e] w2]; cbn; [|finish_catch]. finish_render.
Qed.

Lemma find_session_insert (i : Z) (l : list Session) index s s' :
  find_session i l = Some (index, s) -> id s' = i ->
  find_session i (<[index := s']> l) = Some (index, s').
Proof.
  unfold find_session. intros Hf Hid.
  apply list_find_Some in Hf as (Hl & Hs & Hlt).
  apply list_find_Some. split; [|split].
  - apply list_lookup_insert_eq. by eapply lookup_lt_Some.
  - done.
  - intros j y Hj Hji. rewrite list_lookup_insert_ne in Hj by lia. eauto.
Qed.

Lemma find_session_id (i : Z) (l : list Session) index s :
  find_session i l = Some (index, s) -> id s = i /\ l !! index = Some s.
Proof. unfold find_session. intros Hf. apply list_find_Some in Hf as (? & ? & _). done. Qed.

Local Opaque find_session.

Lemma set_sessions_same (p : Page) : set_sessions (sessions p) p = p.
Proof. by destruct p. Qed.

(** [startSession] and [completeSession] on an id that is not in
    [this.sessions]: an error toast and nothing else, whoever is signed in. *)
Lemma perform_not_found (m : Mutation) (st : St W) :
  remote_write m (page st) = None ->
  perform tl m st =
  (Ok tt, mkSt (world st) (add_toast (mkToast (lit "Sesi tidak ditemukan") error) (page st))
            (calls st)).
Proof.
  destruct m as [|i|i|i]; cbn.
  - destruct (editId _); discriminate.
  - discriminate.
  - unfold_page. cbn. destruct (find_session i _) as [[index s]|]; [discriminate|]. reflexivity.
  - unfold_page. cbn. destruct (find_session i _) as [[index s]|]; [discriminate|]. reflexivity.
Qed.

(** The local branch of the form submission: [DB.set], then the patch. *)
Lemma perform_local_submit (st : St W) d :
  isLoggedIn (world st) = false ->
  local_entity submit (page st) (date_now (world st)) = Some d ->
  perform tl submit st =
  (Ok tt,
   let r := db_set d (world st) in
   let st1 := mkSt r.2 (page st) (calls st ++ [Api_auth_isLoggedIn; DB_set d]) in
   match r.1 with
   | Throw e => catch_block tl submit e st1
   | Ok saved =>
       after_write tl submit (page st)
         (local_patch submit (page st) (date_now (world st)) saved) st1
   end).
Proof.
  intros Hlog Hd. cbn in Hd. inversion Hd; subst; clear Hd.
  unfold_page. cbn. rewrite Hlog. cbn.
  destruct (editId (sessionForm (page st))) as [eid|]; cbn.
  - destruct (db_set _ (world st)) as [[saved|e] w1]; cbn; [|finish_catch].
    destruct (find_session eid (sessions (page st))) as [[index s]|]; cbn.
    + finish_render.
    + rewrite renderSessions_eq; cbn. rewrite set_sessions_same.
      destruct (rendered _ _ _) as [hb|e]; cbn; [|finish_catch].
      normalize_calls; reflexivity.
  - destruct (db_set _ (world st)) as [[saved|e] w1]; cbn; [|finish_catch]. finish_render.
Qed.

(** The local branch of [deleteSession]: [DB.delete], then the filter. *)
Lemma perform_local_delete (st : St W) i saved :
  isLoggedIn (world st) = false ->
  perform tl (delete i) st =
  (Ok tt,
   let r := db_delete i (world st) in
   let st1 := mkSt r.2 (page st) (calls st ++ [Api_auth_isLoggedIn; DB_delete i]) in
   match r.1 with
   | Throw e => catch_block tl (delete i) e st1
   | Ok _ =>
       after_write tl (delete i) (page st)
         (local_patch (delete i) (page st) (date_now (world st)) saved) st1
   end).
Proof.
  intros Hlog.
  unfold_page. cbn. rewrite Hlog. cbn.
  destruct (db_delete _ (world st)) as [[[]|e] w1]; cbn; [|finish_catch]. finish_render.
Qed.

(** The local branch of [startSession] and [completeSession]: the object is
    changed in [this.sessions] first, then handed to [DB.set]. *)
Lemma perform_local_transition (m : Mutation) (st : St W) d saved :
  is_transition m = true ->
  isLoggedIn (world st) = false ->
  local_entity m (page st) (date_now (world st)) = Some d ->
  perform tl m st =
  (Ok tt,
   let l := local_patch m (page st) (date_now (world st)) saved in
   let r := db_set d (world st) in
   let st1 := mkSt r.2 (set_sessions l (page st))
                (calls st ++ [Api_auth_isLoggedIn; DB_set d]) in
   match r.1 with
   | Throw e => catch_block tl m e st1
   | Ok _ => after_write tl m (page st) l st1
   end).
Proof.
  intros Hm Hlog Hd.
  destruct m as [|i|i|i]; try discriminate; cbn in Hd |- *.
  - unfold_page. cbn.
    destruct (find_session i (sessions (page st))) as [[index s]|] eqn:Hf; [|discriminate].
    inversion Hd; subst; clear Hd. cbn. rewrite Hlog. cbn.
    destruct (db_set _ (world st)) as [[saved'|e] w1]; cbn; [|finish_catch].
    erewrite find_session_insert
      by (eassumption || (cbn; by apply find_session_id in Hf as [? _])).
    cbn. rewrite list_insert_insert_eq. finish_render.
  - unfold_page. cbn.
    destruct (find_session i (sessions (page st))) as [[index s]|] eqn:Hf; [|discriminate].
    inversion Hd; subst; clear Hd. cbn. rewrite Hlog. cbn.
    destruct (db_set _ (world st)) as [[saved'|e] w1]; cbn; [|finish_catch].
    erewrite find_session_insert
      by (eassumption || (cbn; by apply find_session_id in Hf as [? _])).
    cbn. rewrite list_insert_insert_eq. finish_render.
Qed.

(** ** Loading when the Remote Client fails *)

(** C3, as the code has it. When [Api.sessions.getAll()] throws during
    [loadSessions], the error is caught and logged with [console.error], and
    the Local Store is read instead. If that read and the rendering succeed,
    the page shows the local collection and no toast is raised; otherwise one
    error toast is raised (and when the local read itself failed the
    collection is left as it was). [loadSessions] never rejects. *)
Theorem loadSessions_remote_failure (st : St W) (e : jsstring) (w1 : W) :
  isLoggedIn (world st) = true ->
  api_getAll (world st) = (Throw e, w1) ->
  let st' := (loadSessions tl st).2 in
  (loadSessions tl st).1 = Ok tt
  /\ calls st' = calls st ++ [Api_auth_isLoggedIn; Api_sessions_getAll; DB_getAll]
  /\ console_error (page st') = console_error (page st) ++ [(lit "Error loading sessions:", e)]
  /\ world st' = (db_getAll w1).2
  /\ match (db_getAll w1).1 with
     | Ok l =>
         sessions (page st') = l
         /\ match rendered tl (sessionFilter (page st)) l with
            | Ok hb =>
                toasts (page st') = toasts (page st)
                /\ sessionList_innerHTML (page st') = hb.1
            | Throw _ =>
                toasts (page st')
                = toasts (page st) ++ [mkToast (lit "Gagal memuat sesi belajar") error]
            end
     | Throw _ =>
         sessions (page st') = sessions (page st)
         /\ toasts (page st')
            = toasts (page st) ++ [mkToast (lit "Gagal memuat sesi belajar") error]
     end.
Proof.
  intros Hlog Hget. rewrite loadSessions_eq. cbn. rewrite Hlog, Hget. cbn.
  unfold local_reload. cbn.
  destruct (db_getAll w1) as [[l|e'] w2]; cbn.
  - destruct (rendered tl (sessionFilter (page st)) l) as [hb|e2]; cbn;
      rewrite <- ?app_assoc; repeat split; reflexivity.
  - rewrite <- ?app_assoc. repeat split; reflexivity.
Qed.

(** ** Mutations *)

(** C4. While the user is signed in, a mutation whose call to the Remote
    Client throws (the write itself, or the [getAll()] that follows a write
    that went through) ends with its failure toast, followed only by error
    toasts, and nothing it does, the reload of its [catch] block included,
    writes to the Local Store. *)
Theorem remote_failure_is_reported (m : Mutation) (st : St W) c f (o : outcome unit) (w1 : W) :
  isLoggedIn (world st) = true ->
  remote_write m (page st) = Some (c, f) ->
  f (world st) = (o, w1) ->
  match o with
  | Throw _ => True
  | Ok _ => exists e, (api_getAll w1).1 = Throw e
  end ->
  let st' := (perform tl m st).2 in
  (perform tl m st).1 = Ok tt
  /\ (exists ts, toasts (page st') = toasts (page st) ++ failure_toast m :: ts
                 /\ Forall (fun t => type t = error) ts)
  /\ (exists cs, calls st' = calls st ++ Api_auth_isLoggedIn :: c :: cs
                 /\ Forall (fun c => is_local_write c = false) (c :: cs))
  /\ ~ succeeded m st st'.
Proof.
  intros Hlog Hw Hf Hfail. rewrite (perform_remote m st c f Hlog Hw). cbn. rewrite Hf. cbn.
  assert (Hc : is_local_write c = false).
  { destruct m as [|i|i|i]; cbn in Hw.
    - destruct (editId _); inversion Hw; reflexivity.
    - inversion Hw; reflexivity.
    - destruct (find_session _ _) as [[]|]; inversion Hw; reflexivity.
    - destruct (find_session _ _) as [[]|]; inversion Hw; reflexivity. }
  split; [reflexivity|].
  destruct o as [[]|e].
  - destruct Hfail as [e He]. destruct (api_getAll w1) as [[l|e'] w2]; [discriminate|]. cbn.
    destruct (catch_block_effects m e'
                (mkSt w2 (page st)
                   (calls st ++ [Api_auth_isLoggedIn; c; Api_sessions_getAll])))
      as [(cs & Hcs & Hnw) Hts].
    split; [exact Hts|]. split.
    + exists (Api_sessions_getAll :: cs). cbn in Hcs. rewrite Hcs, <- app_assoc.
      split; [reflexivity|]. constructor; [exact Hc|]. constructor; [reflexivity|exact Hnw].
    + apply catch_block_not_succeeded. reflexivity.
  - destruct (catch_block_effects m e
                (mkSt w1 (page st) (calls st ++ [Api_auth_isLoggedIn; c])))
      as [(cs & Hcs & Hnw) Hts].
    split; [exact Hts|]. split.
    + exists cs. cbn in Hcs. rewrite Hcs, <- app_assoc. split; [reflexivity|].
      constructor; [exact Hc|exact Hnw].
    + apply catch_block_not_succeeded. reflexivity.
Qed.

Lemma after_write_succeeded (m : Mutation) (st0 st : St W) (l : list Session) :
  toasts (page st) = toasts (page st0) ->
  succeeded m st0 (after_write tl m (page st0) l st) ->
  sessions (page (after_write tl m (page st0) l st)) = l
  /\ world (after_write tl m (page st0) l st) = world st
  /\ calls (after_write tl m (page st0) l st) = calls st
  /\ exists hb, rendered tl (sessionFilter (page st)) l = Ok hb
                /\ sessionList_buttons (page (after_write tl m (page st0) l st)) = hb.2.
Proof.
  intros Hp. unfold after_write. cbn.
  destruct (rendered tl (sessionFilter (page st)) l) as [hb|e] eqn:Hr.
  - intros _. repeat split; try (destruct m; reflexivity).
    exists hb. split; [reflexivity|]. destruct m; reflexivity.
  - intros Hs. exfalso. revert Hs. apply catch_block_not_succeeded. exact Hp.
Qed.

(** The two ways a mutation can end with its success toast. *)
Lemma succeeded_paths (m : Mutation) (st : St W) :
  let st' := (perform tl m st).2 in
  succeeded m st st' ->
  if isLoggedIn (world st) then
    exists c f w1 l,
      remote_write m (page st) = Some (c, f)
      /\ f (world st) = (Ok tt, w1)
      /\ api_getAll w1 = (Ok l, world st')
      /\ sessions (page st') = l
      /\ calls st' = calls st ++ [Api_auth_isLoggedIn; c; Api_sessions_getAll]
  else
    exists c saved,
      calls st' = calls st ++ [Api_auth_isLoggedIn; c]
      /\ sessions (page st') = local_patch m (page st) (date_now (world st)) saved
      /\ match local_entity m (page st) (date_now (world st)) with
         | Some d =>
             c = DB_set d
             /\ exists r, (db_set d (world st)).1 = Ok r /\ (m = submit -> saved = r)
         | None => exists i, m = delete i /\ c = DB_delete i
         end.
Proof.
  cbn. intros Hs.
  destruct (remote_write m (page st)) as [[c f]|] eqn:Hw.
  2:{ exfalso. rewrite (perform_not_found m st Hw) in Hs. unfold succeeded in Hs. cbn in Hs.
      apply app_inv_head in Hs. injection Hs as Hs.
      pose proof (success_toast_success m (page st)) as H. rewrite <- Hs in H. discriminate. }
  destruct (isLoggedIn (world st)) eqn:Hlog.
  - rewrite (perform_remote m st c f Hlog Hw) in Hs |- *. cbn in Hs |- *.
    destruct (f (world st)) as [[[]|e] w1] eqn:Hf; cbn in Hs |- *.
    2:{ exfalso. revert Hs. apply catch_block_not_succeeded. reflexivity. }
    destruct (api_getAll w1) as [[l|e] w2] eqn:Hg; cbn in Hs |- *.
    2:{ exfalso. revert Hs. apply catch_block_not_succeeded. reflexivity. }
    apply after_write_succeeded in Hs as (Hl & Hwd & Hc & _); [|reflexivity].
    exists c, f, w1, l. rewrite Hwd, Hc. cbn. repeat split; try reflexivity; assumption.
  - set (dummy := mkSession 0 None None None [] None None None None None None None).
    destruct m as [|i|i|i].
    + destruct (local_entity submit (page st) (date_now (world st))) as [d|] eqn:Hd;
        [|discriminate].
      rewrite (perform_local_submit st d Hlog Hd) in Hs |- *. cbn in Hs |- *.
      destruct (db_set d (world st)) as [[saved|e] w1] eqn:Hset; cbn in Hs |- *.
      2:{ exfalso. revert Hs. apply catch_block_not_succeeded. reflexivity. }
      apply after_write_succeeded in Hs as (Hl & Hwd & Hc & _); [|reflexivity].
      exists (DB_set d), saved. rewrite Hc. cbn. repeat split; try reflexivity; try assumption.
      exists saved. split; [reflexivity|done].
    + rewrite (perform_local_delete st i dummy Hlog) in Hs |- *. cbn in Hs |- *.
      destruct (db_delete i (world st)) as [[[]|e] w1] eqn:Hdel; cbn in Hs |- *.
      2:{ exfalso. revert Hs. apply catch_block_not_succeeded. reflexivity. }
      apply after_write_succeeded in Hs as (Hl & Hwd & Hc & _); [|reflexivity].
      exists (DB_delete i), dummy. rewrite Hc. cbn. repeat split; try reflexivity; try assumption.
      exists i. done.
    + destruct (local_entity (start i) (page st) (date_now (world st))) as [d|] eqn:Hd.
      2:{ cbn in Hd, Hw. destruct (find_session i _) as [[]|]; discriminate. }
      rewrite (perform_local_transition (start i) st d dummy eq_refl Hlog Hd) in Hs |- *.
      cbn [snd] in Hs |- *. cbv zeta in Hs |- *.
      destruct (db_set d (world st)) as [[saved|e] w1] eqn:Hset; cbn [fst snd] in Hs |- *.
      2:{ exfalso. revert Hs. apply catch_block_not_succeeded. reflexivity. }
      apply after_write_succeeded in Hs as (Hl & Hwd & Hc & _); [|reflexivity].
      exists (DB_set d), dummy. rewrite Hc. cbn. repeat split; try reflexivity; try assumption.
      exists saved. split; [reflexivity|discriminate].
    + destruct (local_entity (complete i) (page st) (date_now (world st))) as [d|] eqn:Hd.
      2:{ cbn in Hd, Hw. destruct (find_session i _) as [[]|]; discriminate. }
      rewrite (perform_local_transition (complete i) st d dummy eq_refl Hlog Hd) in Hs |- *.
      cbn [snd] in Hs |- *. cbv zeta in Hs |- *.
      destruct (db_set d (world st)) as [[saved|e] w1] eqn:Hset; cbn [fst snd] in Hs |- *.
      2:{ exfalso. revert Hs. apply catch_block_not_succeeded. reflexivity. }
      apply after_write_succeeded in Hs as (Hl & Hwd & Hc & _); [|reflexivity].
      exists (DB_set d), dummy. rewrite Hc. cbn. repeat split; try reflexivity; try assumption.
      exists saved. split; [reflexivity|discriminate].
Qed.

(** C1, as the code has it. A mutation that completes successfully while
    the user is signed in wrote through the Remote Client and then assigned
    to [this.sessions] the result of a [getAll()] on the Remote Client; a
    mutation that completes successfully while nobody is signed in made one
    write to the Local Store, did not read it back, and left in
    [this.sessions] the old array patched in place. *)
Theorem successful_mutation_refresh (m : Mutation) (st : St W) :
  succeeded m st (perform tl m st).2 ->
  let st' := (perform tl m st).2 in
  if isLoggedIn (world st) then
    exists c f w1 l,
      remote_write m (page st) = Some (c, f)
      /\ f (world st) = (Ok tt, w1)
      /\ api_getAll w1 = (Ok l, world st')
      /\ sessions (page st') = l
      /\ calls st' = calls st ++ [Api_auth_isLoggedIn; c; Api_sessions_getAll]
  else
    exists c saved,
      calls st' = calls st ++ [Api_auth_isLoggedIn; c]
      /\ is_local_write c = true
      /\ sessions (page st') = local_patch m (page st) (date_now (world st)) saved
      /\ (m = submit ->
          exists d, local_entity m (page st) (date_now (world st)) = Some d
                    /\ c = DB_set d /\ (db_set d (world st)).1 = Ok saved).
Proof.
  intros Hs. pose proof (succeeded_paths m st Hs) as H. cbv zeta in H |- *.
  destruct (isLoggedIn (world st)); [exact H|].
  destruct H as (c & saved & Hc & Hl & Hd). exists c, saved.
  split; [exact Hc|]. split; [|split; [exact Hl|]].
  - destruct (local_entity m _ _) as [d|].
    + destruct Hd as [-> _]. reflexivity.
    + destruct Hd as (i & _ & ->). reflexivity.
  - intros ->. destruct (local_entity submit _ _) as [d|].
    + destruct Hd as (-> & r & Hr & Heq). exists d. rewrite Hr, (Heq eq_refl). done.
    + destruct Hd as (i & Hi & _). discriminate.
Qed.

Lemma filter_id_absent (i : Z) (l : list Session) :
  Forall (fun s => id s <> i) l -> filter (fun s => id s <> i) l = l.
Proof.
  intros H. induction H as [|s l' Hs _ IH]; [reflexivity|].
  rewrite filter_cons. destruct (decide (id s <> i)); [f_equal; exact IH | contradiction].
Qed.

(** What [loadSessions] leaves when the source it reads answers and the
    answer can be rendered. *)
Lemma loadSessions_source (st : St W) (l : list Session) (w2 : W) hb :
  (if isLoggedIn (world st) then api_getAll (world st) else db_getAll (world st)) = (Ok l, w2) ->
  rendered tl (sessionFilter (page st)) l = Ok hb ->
  sessions (page (loadSessions tl st).2) = l
  /\ world (loadSessions tl st).2 = w2
  /\ toasts (page (loadSessions tl st).2) = toasts (page st).
Proof.
  intros Hsrc Hr. rewrite loadSessions_eq. cbn.
  destruct (isLoggedIn (world st)); rewrite Hsrc; cbn; rewrite Hr; cbn; done.
Qed.

(** C8, as the code has it. [deleteSession] on an id that no session of the
    collection has. When the source reports it by throwing (the Remote
    Client on a 404 answer, or a Local Store with an explicit not-found),
    the failure toast is shown and the collection is loaded again, so that
    it holds what the source returns when that load goes through. When the
    Local Store treats the deletion as a no-op, no failure is reported: the
    toast is the success one, the filter removes nothing, and the collection
    is left as it was, without being read back from the store. *)
Theorem delete_unknown_id (st : St W) (i : Z) (o : outcome unit) (w1 : W) :
  (if isLoggedIn (world st) then api_delete i (world st) else db_delete i (world st)) = (o, w1) ->
  (isLoggedIn (world st) = true -> exists e, o = Throw e) ->
  Forall (fun s => id s <> i) (sessions (page st)) ->
  let st' := (perform tl (delete i) st).2 in
  (perform tl (delete i) st).1 = Ok tt
  /\ match o with
     | Throw e =>
         (exists ts, toasts (page st') = toasts (page st) ++ failure_toast (delete i) :: ts
                     /\ Forall (fun t => type t = error) ts)
         /\ forall l w2 hb,
              (if isLoggedIn w1 then api_getAll w1 else db_getAll w1) = (Ok l, w2) ->
              rendered tl (sessionFilter (page st)) l = Ok hb ->
              sessions (page st') = l /\ world st' = w2
              /\ toasts (page st') = toasts (page st) ++ [failure_toast (delete i)]
     | Ok _ =>
         forall hb,
           rendered tl (sessionFilter (page st)) (sessions (page st)) = Ok hb ->
           sessions (page st') = sessions (page st) /\ world st' = w1
           /\ calls st' = calls st ++ [Api_auth_isLoggedIn; DB_delete i]
           /\ toasts (page st') = toasts (page st) ++ [success_toast (delete i) (page st)]
     end.
Proof.
  intros Hsrc Hremote Habsent.
  set (dummy := mkSession 0 None None None [] None None None None None None None).
  assert (Hcatch : forall c e,
    (exists ts, toasts (page (catch_block tl (delete i) e
                                (mkSt w1 (page st) (calls st ++ [Api_auth_isLoggedIn; c]))))
                = toasts (page st) ++ failure_toast (delete i) :: ts
                /\ Forall (fun t => type t = error) ts)
    /\ forall l w2 hb,
         (if isLoggedIn w1 then api_getAll w1 else db_getAll w1) = (Ok l, w2) ->
         rendered tl (sessionFilter (page st)) l = Ok hb ->
         sessions (page (catch_block tl (delete i) e
                           (mkSt w1 (page st) (calls st ++ [Api_auth_isLoggedIn; c])))) = l
         /\ world (catch_block tl (delete i) e
                     (mkSt w1 (page st) (calls st ++ [Api_auth_isLoggedIn; c]))) = w2
         /\ toasts (page (catch_block tl (delete i) e
                            (mkSt w1 (page st) (calls st ++ [Api_auth_isLoggedIn; c]))))
            = toasts (page st) ++ [failure_toast (delete i)]).
  { intros c e. split.
    - apply (catch_block_effects (delete i) e
               (mkSt w1 (page st) (calls st ++ [Api_auth_isLoggedIn; c]))).
    - intros l w2 hb Hget Hr. unfold catch_block.
      apply (loadSessions_source
               (mkSt w1 (add_toast (failure_toast (delete i))
                           (add_console_error (catch_message (delete i)) e (page st)))
                  (calls st ++ [Api_auth_isLoggedIn; c])) l w2 hb); assumption. }
  destruct (isLoggedIn (world st)) eqn:Hlog.
  - destruct (Hremote eq_refl) as [e ->].
    rewrite (perform_remote (delete i) st _ _ Hlog eq_refl). cbn. rewrite Hsrc. cbn.
    split; [reflexivity|]. apply Hcatch.
  - rewrite (perform_local_delete st i dummy Hlog). cbn. rewrite Hsrc. cbn.
    split; [reflexivity|]. destruct o as [[]|e]; cbn.
    + intros hb Hr. unfold after_write. cbn.
      rewrite (filter_id_absent i _ Habsent), Hr. cbn. done.
    + apply Hcatch.
Qed.

Lemma card_buttons_spec (s : Session) :
  (mkButton start_btn (id s) ∈ card_buttons s <-> status s = planned)
  /\ (mkButton complete_btn (id s) ∈ card_buttons s <-> status s = inprogress)
  /\ mkButton delete_btn (id s) ∈ card_buttons s
  /\ mkButton edit_btn (id s) ∈ card_buttons s.
Proof.
  unfold card_buttons.
  destruct (decide (status s = planned)) as [Hp|Hp];
    destruct (decide (status s = inprogress)) as [Hi|Hi]; cbn;
    repeat split; intros; try done;
    repeat match goal with
           | H : _ ∈ _ :: _ |- _ => apply elem_of_cons in H as [H|H]; try discriminate H
           | H : _ ∈ [] |- _ => by apply elem_of_nil in H
           end;
    try (repeat constructor; fail).
Qed.

(** C2, as the code has it. The Mulai button is on a card exactly when the
    session is planned, the Selesai button exactly when it is in progress,
    Hapus and Edit on every card. A successful start leaves the session in
    progress and a successful complete leaves it completed (on the local
    branch the page writes the status itself; on the remote branch it calls
    [start] or [complete] of the Remote Client); a successful delete is sent
    for the id whatever the status; and a successful submit of the form sends
    the status the form holds, whichever it is. *)
Theorem status_transitions (m : Mutation) (st : St W) :
  succeeded m st (perform tl m st).2 ->
  let st' := (perform tl m st).2 in
  let now := date_now (world st) in
  (forall s : Session,
      (mkButton start_btn (id s) ∈ card_buttons s <-> status s = planned)
      /\ (mkButton complete_btn (id s) ∈ card_buttons s <-> status s = inprogress)
      /\ mkButton delete_btn (id s) ∈ card_buttons s
      /\ mkButton edit_btn (id s) ∈ card_buttons s)
  /\ match m with
     | start i =>
         exists index s,
           find_session i (sessions (page st)) = Some (index, s)
           /\ if isLoggedIn (world st) then Api_sessions_start i ∈ calls st'
              else sessions (page st') !! index = Some (set_started_at now (set_status inprogress s))
                   /\ DB_set (as_data (set_started_at now (set_status inprogress s))) ∈ calls st'
     | complete i =>
         exists index s,
           find_session i (sessions (page st)) = Some (index, s)
           /\ if isLoggedIn (world st) then Api_sessions_complete i (duration s) ∈ calls st'
              else sessions (page st') !! index = Some (set_completed_at now (set_status completed s))
                   /\ DB_set (as_data (set_completed_at now (set_status completed s))) ∈ calls st'
     | delete i =>
         (if isLoggedIn (world st) then Api_sessions_delete i else DB_delete i) ∈ calls st'
     | submit =>
         exists d,
           status d = sessionStatus (sessionForm (page st))
           /\ match editId (sessionForm (page st)) with
              | Some eid =>
                  if isLoggedIn (world st) then Api_sessions_update eid d ∈ calls st'
                  else DB_set d ∈ calls st' /\ id d = Some eid
              | None =>
                  if isLoggedIn (world st) then Api_sessions_create d ∈ calls st'
                  else DB_set d ∈ calls st' /\ id d = None
              end
     end.
Proof.
  intros Hs. pose proof (succeeded_paths m st Hs) as H. cbv zeta in H |- *.
  split; [apply card_buttons_spec|].
  assert (Hin : forall (c : Call) cs, c ∈ calls st ++ Api_auth_isLoggedIn :: c :: cs).
  { intros c cs. apply elem_of_app. right. apply elem_of_cons. right. apply elem_of_cons. by left. }
  destruct (isLoggedIn (world st)) eqn:Hlog.
  - destruct H as (c & f & w1 & l & Hw & _ & _ & _ & Hc). rewrite Hc.
    destruct m as [|i|i|i]; cbn in Hw.
    + exists (sessionData_of (sessionForm (page st))). split; [reflexivity|].
      destruct (editId _); inversion Hw; subst; apply Hin.
    + inversion Hw; subst. apply Hin.
    + destruct (find_session i _) as [[index s]|]; inversion Hw; subst.
      exists index, s. split; [reflexivity|apply Hin].
    + destruct (find_session i _) as [[index s]|]; inversion Hw; subst.
      exists index, s. split; [reflexivity|apply Hin].
  - destruct H as (c & saved & Hc & Hl & Hd). rewrite Hc, Hl.
    destruct m as [|i|i|i]; cbn in Hd |- *.
    + destruct Hd as (-> & _).
      destruct (editId (sessionForm (page st))) as [eid|];
        (eexists; split; [|split; [apply Hin|reflexivity]]); reflexivity.
    + destruct Hd as (j & Hj & ->). inversion Hj; subst. apply Hin.
    + destruct (find_session i _) as [[index s]|] eqn:Hf.
      * destruct Hd as (-> & _). exists index, s. split; [reflexivity|]. split; [|apply Hin].
        apply list_lookup_insert_eq. apply find_session_id in Hf as [_ Hf].
        by eapply lookup_lt_Some.
      * destruct Hd as (j & Hj & _). discriminate.
    + destruct (find_session i _) as [[index s]|] eqn:Hf.
      * destruct Hd as (-> & _). exists index, s. split; [reflexivity|]. split; [|apply Hin].
        apply list_lookup_insert_eq. apply find_session_id in Hf as [_ Hf].
        by eapply lookup_lt_Some.
      * destruct Hd as (j & Hj & _). discriminate.
Qed.

End PageFacts.

(** ** Ordering *)

Section Ordering.

Import Database.

Context {A : Type} (key : A -> option Z).

#[local] Instance desc_total : Total (desc key).
Proof.
  intros a b. unfold desc. destruct (key a), (key b); auto.
  destruct (Z_le_gt_dec z z0); [right|left]; lia.
Qed.

#[local] Instance desc_trans : Transitive (desc key).
Proof.
  intros a b c. unfold desc. destruct (key a), (key b), (key c); auto; try contradiction. lia.
Qed.

(** [ORDER BY key DESC] returns the same rows, largest key first. *)
Lemma order_by_desc_sorted (l : list A) :
  StronglySorted (desc key) (order_by_desc key l) /\ order_by_desc key l ≡ₚ l.
Proof.
  split.
  - apply StronglySorted_merge_sort; apply _.
  - apply merge_sort_Permutation.
Qed.

Lemma StronglySorted_filter (R : relation A) (P : A -> Prop) `{forall x, Decision (P x)}
    (l : list A) :
  StronglySorted R l -> StronglySorted R (filter P l).
Proof.
  induction 1 as [|a l' Hs IH Ha]; [constructor|].
  rewrite filter_cons. destruct (decide (P a)); [|exact IH].
  constructor; [exact IH|]. apply Forall_forall. intros x Hx.
  apply list_elem_of_filter in Hx as [_ Hx].
  exact (proj1 (Forall_forall _ _) Ha x Hx).
Qed.

End Ordering.

(** ** The example world *)

Section WorldFacts.

Import SesiBelajar World.

Variable tl : option Z -> jsstring.

Local Opaque lit.

(** Signed out and with a working storage medium, [loadSessions] reads the
    Local Store and nothing else. *)
Lemma world_load_local (st : St World) :
  token (world st) = false -> storage_ok (world st) = true ->
  world (loadSessions tl st).2 = world st
  /\ sessions (page (loadSessions tl st).2) = local_sessions (world st)
  /\ exists cs, calls (loadSessions tl st).2 = calls st ++ cs
                /\ Forall (fun c => is_network c = false) cs.
Proof.
  intros Htok Hok. rewrite loadSessions_eq. cbn. rewrite Htok. cbn.
  unfold local. rewrite Hok. cbn.
  destruct (rendered tl _ _) as [hb|e]; cbn.
  - repeat split. eexists. split; [reflexivity|]. repeat constructor.
  - unfold local_reload. cbn. unfold local. rewrite Hok. cbn.
    destruct (rendered tl _ _) as [hb|e2]; cbn;
      (repeat split; eexists; split; [rewrite <- app_assoc; reflexivity|repeat constructor]).
Qed.

(** C5. Nobody is signed in and the storage medium works. Submitting the form
    for a new session adds exactly one record to the Local Store; the record
    carries the next id of the store, which no stored record has, and the
    instant of the page's clock as [createdAt]. A [loadSessions] that follows
    returns the stored collection, the new record included, and neither step
    sends a request to the Remote Client. *)
Theorem local_create_persists (st : St World) :
  token (world st) = false ->
  storage_ok (world st) = true ->
  editId (sessionForm (page st)) = None ->
  Forall (fun s => id s < local_seq (world st)) (local_sessions (world st)) ->
  let e := set_id (local_seq (world st))
             (set_createdAt (clock (world st)) (sessionData_of (sessionForm (page st)))) in
  let st1 := (handleSessionSubmit tl st).2 in
  let st2 := (loadSessions tl st1).2 in
  (handleSessionSubmit tl st).1 = Ok tt
  /\ (loadSessions tl st1).1 = Ok tt
  /\ local_sessions (world st1) = local_sessions (world st) ++ [e]
  /\ Forall (fun s => id s <> id e) (local_sessions (world st))
  /\ createdAt e = Some (clock (world st))
  /\ sessions (page st2) = local_sessions (world st) ++ [e]
  /\ e ∈ sessions (page st2)
  /\ exists cs, calls st2 = calls st ++ cs /\ Forall (fun c => is_network c = false) cs.
Proof.
  intros Htok Hok Hnew Hfresh. cbv zeta.
  set (e := set_id (local_seq (world st))
              (set_createdAt (clock (world st)) (sessionData_of (sessionForm (page st))))).
  set (d := set_createdAt (clock (world st)) (sessionData_of (sessionForm (page st)))).
  set (w1 := set_local (local_sessions (world st) ++ [e]) (local_seq (world st) + 1) (world st)).
  assert (Hlog : isLoggedIn (world st) = false) by exact Htok.
  assert (Hd : local_entity submit (page st) (date_now (world st)) = Some d).
  { cbn. rewrite Hnew. reflexivity. }
  assert (Hset : db_set d (world st) = (Ok e, w1)).
  { cbn. unfold local. rewrite Hok. reflexivity. }
  assert (Hst1 : world (handleSessionSubmit tl st).2 = w1
                 /\ exists cs, calls (handleSessionSubmit tl st).2 = calls st ++ cs
                               /\ Forall (fun c => is_network c = false) cs).
  { change (handleSessionSubmit tl st) with (perform tl submit st).
    rewrite (perform_local_submit tl st d Hlog Hd). cbv zeta. rewrite Hset. cbn [fst snd].
    unfold after_write. cbn [page world calls].
    destruct (rendered tl _ _) as [hb|e2].
    - cbn. split; [reflexivity|]. eexists. split; [reflexivity|]. repeat constructor.
    - unfold catch_block.
      match goal with |- context [loadSessions tl ?s] =>
        destruct (world_load_local s Htok Hok) as (Hw & _ & cs & Hcs & Hnet) end.
      rewrite Hw, Hcs. cbn [world calls]. split; [reflexivity|].
      eexists. rewrite <- app_assoc. split; [reflexivity|].
      apply Forall_app. split; [repeat constructor|exact Hnet]. }
  destruct Hst1 as (Hw1 & cs1 & Hcs1 & Hnet1).
  assert (Htok1 : token (world (handleSessionSubmit tl st).2) = false) by (rewrite Hw1; exact Htok).
  assert (Hok1 : storage_ok (world (handleSessionSubmit tl st).2) = true) by (rewrite Hw1; exact Hok).
  destruct (world_load_local _ Htok1 Hok1) as (Hw2 & Hs2 & cs2 & Hcs2 & Hnet2).
  split; [change (handleSessionSubmit tl st) with (perform tl submit st);
          rewrite (perform_local_submit tl st d Hlog Hd); reflexivity|].
  split; [rewrite loadSessions_eq; reflexivity|].
  split; [rewrite Hw1; reflexivity|].
  split; [eapply Forall_impl; [exact Hfresh|]; cbn; intros s Hs; cbn; lia|].
  split; [reflexivity|].
  rewrite Hs2, Hw1. cbn [local_sessions w1 set_local].
  split; [reflexivity|]. split; [apply elem_of_app; right; apply elem_of_cons; by left|].
  exists (cs1 ++ cs2). rewrite Hcs2, Hcs1, <- app_assoc. split; [reflexivity|].
  apply Forall_app. split; assumption.
Qed.

Lemma rendered_buttons (v : jsstring) (l : list Session) hb :
  rendered tl v l = Ok hb -> hb.2 = filteredSessions v l ≫= card_buttons.
Proof.
  unfold rendered. destruct (filteredSessions v l) as [|s f] eqn:Hf.
  - intros [= <-]. reflexivity.
  - destruct (cards tl (s :: f)); [|discriminate]. intros [= <-]. reflexivity.
Qed.

Lemma handler_get_sessions {D : Type} {R : ApiIndex.Runtime D}
    (req : ApiIndex.Request) (hst : ApiIndex.HSt D) (u : ApiIndex.Row)
    (rows : list ApiIndex.Row) (d' : D) :
  ApiIndex.method req = lit "GET" ->
  replace_first (lit "/api") [] (ApiIndex.url req) = lit "/sessions" ->
  ApiIndex.authenticateToken req = ApiIndex.auth_user u ->
  ApiIndex.pool_query (ApiIndex.select_sessions (get_field "id" u)) (ApiIndex.db hst)
  = (Ok rows, d') ->
  ApiIndex.handler req hst
  = (Ok (ApiIndex.mkResponse 200 (Some (JArr (JObj <$> rows)))),
     ApiIndex.mkHSt d' (ApiIndex.queries hst
                        ++ [ApiIndex.select_sessions (get_field "id" u)])).
Proof.
  intros Hm Hp Ha Hq.
  unfold ApiIndex.handler, ApiIndex.route. rewrite Hm, Hp.
  repeat match goal with
         | |- context [bool_decide (lit ?a = lit ?b)] =>
             let v := eval vm_compute in (bool_decide (lit a = lit b)) in
             replace (bool_decide (lit a = lit b)) with v by (vm_compute; reflexivity)
         end.
  cbn [andb].
  unfold ApiIndex.get_sessions, ApiIndex.with_auth, try_catch, bind, ApiIndex.query, ret.
  rewrite Ha. rewrite Hq. reflexivity.
Qed.

(** C6, as the code has it. After a load that the selected source answers,
    the list shows the sessions in the order of the collection, restricted
    to the status filter. When the user is signed in the collection is the
    user's rows ordered by [created_at] descending, as the statement behind
    [GET /sessions] orders them and as the handler passes them on, so the
    list is newest first. When nobody is signed in the collection is the
    Local Store's, in the store's own order: nothing sorts it. *)
Theorem display_order {D : Type} {R : ApiIndex.Runtime D}
    (st : St World) hb
    (req : ApiIndex.Request) (hst : ApiIndex.HSt D) (u : ApiIndex.Row)
    (rows : list ApiIndex.Row) (d' : D) :
  (if token (world st) then remote_up (world st) = true else storage_ok (world st) = true) ->
  rendered tl (sessionFilter (page st))
    (if token (world st) then Database.getSessionsByUserId (user (world st)) (pg (world st))
     else local_sessions (world st)) = Ok hb ->
  ApiIndex.method req = lit "GET" ->
  replace_first (lit "/api") [] (ApiIndex.url req) = lit "/sessions" ->
  ApiIndex.authenticateToken req = ApiIndex.auth_user u ->
  ApiIndex.pool_query (ApiIndex.select_sessions (get_field "id" u)) (ApiIndex.db hst)
  = (Ok rows, d') ->
  let st' := (loadSessions tl st).2 in
  sessionList_buttons (page st') = displayed (page st') ≫= card_buttons
  /\ sublist (displayed (page st')) (sessions (page st'))
  /\ (if token (world st) then
        sessions (page st')
        ≡ₚ Database.row <$> filter (fun r => Database.user_id r = user (world st))
                              (Database.study_sessions (pg (world st)))
        /\ StronglySorted (Database.desc created_at) (sessions (page st'))
        /\ StronglySorted (Database.desc created_at) (displayed (page st'))
      else sessions (page st') = local_sessions (world st))
  /\ (ApiIndex.handler req hst).1
     = Ok (ApiIndex.mkResponse 200 (Some (JArr (JObj <$> rows))))
  /\ (forall t uid,
        exists sorted,
          ExampleRuntime.exec (ApiIndex.select_sessions uid) t = (Ok sorted, t)
          /\ StronglySorted (Database.desc ExampleRuntime.created_at_of) sorted
          /\ sorted ≡ₚ filter (fun r => ExampleRuntime.column_is "user_id" uid r = true)
                        (ExampleRuntime.study_sessions t)).
Proof.
  intros Hsrc Hr Hm Hp Ha Hq. cbv zeta.
  assert (Hload : sessions (page (loadSessions tl st).2)
                  = (if token (world st)
                     then Database.getSessionsByUserId (user (world st)) (pg (world st))
                     else local_sessions (world st))
                  /\ sessionFilter (page (loadSessions tl st).2) = sessionFilter (page st)
                  /\ sessionList_buttons (page (loadSessions tl st).2) = hb.2).
  { rewrite loadSessions_eq. cbn. destruct (token (world st)) eqn:Htok; cbn.
    - unfold remote. rewrite Htok, Hsrc. cbn. rewrite Hr. cbn. done.
    - unfold local. rewrite Hsrc. cbn. rewrite Hr. cbn. done. }
  destruct Hload as (Hs & Hf & Hb).
  split.
  { rewrite Hb. unfold displayed. rewrite Hs, Hf. by apply rendered_buttons. }
  split.
  { unfold displayed, filteredSessions. apply sublist_filter. }
  split.
  { destruct (token (world st)); [|exact Hs].
    assert (Hsorted : StronglySorted (Database.desc created_at) (sessions (page (loadSessions tl st).2))).
    { rewrite Hs. unfold Database.getSessionsByUserId.
      eapply StronglySorted_fmap; [|apply order_by_desc_sorted].
      intros x y Hxy. exact Hxy. }
    split; [|split; [exact Hsorted|]].
    - rewrite Hs. unfold Database.getSessionsByUserId.
      apply fmap_Permutation. apply order_by_desc_sorted.
    - unfold displayed, filteredSessions. by apply StronglySorted_filter. }
  split.
  { rewrite (handler_get_sessions req hst u rows d' Hm Hp Ha Hq). reflexivity. }
  intros t uid. eexists. split; [reflexivity|]. apply order_by_desc_sorted.
Qed.

End WorldFacts.

(** ** Escaping *)

Section HtmlFacts.

Import SesiBelajar.

Variable tl : option Z -> jsstring.

Lemma replace_all_app (c : N) (r a b : jsstring) :
  replace_all c r (a ++ b) = replace_all c r a ++ replace_all c r b.
Proof. apply flat_map_app. Qed.

Lemma escapeHtml_app (a b : jsstring) : escapeHtml (a ++ b) = escapeHtml a ++ escapeHtml b.
Proof. unfold escapeHtml. by rewrite !replace_all_app. Qed.

Lemma escapeHtml_char (c : N) : escapeHtml [c] = entity c.
Proof.
  unfold entity.
  destruct (N.eqb_spec c 38) as [->|H38]; [reflexivity|].
  destruct (N.eqb_spec c 60) as [->|H60]; [reflexivity|].
  destruct (N.eqb_spec c 62) as [->|H62]; [reflexivity|].
  destruct (N.eqb_spec c 34) as [->|H34]; [reflexivity|].
  destruct (N.eqb_spec c 39) as [->|H39]; [reflexivity|].
  unfold escapeHtml, replace_all. cbn [flat_map app].
  apply N.eqb_neq in H38, H60, H62, H34, H39.
  rewrite H38. cbn [flat_map app]. rewrite H60. cbn [flat_map app].
  rewrite H62. cbn [flat_map app]. rewrite H34. cbn [flat_map app].
  rewrite H39. reflexivity.
Qed.

(** The five replacements in a row amount to replacing each character by its
    entity. *)
Lemma escapeHtml_entity (s : jsstring) : escapeHtml s = flat_map entity s.
Proof.
  induction s as [|c s IH]; [reflexivity|].
  change (c :: s) with ([c] ++ s). rewrite escapeHtml_app, escapeHtml_char, IH. reflexivity.
Qed.

Lemma entity_no_markup (c : N) : Forall (fun x => is_markup x = false) (entity c).
Proof.
  unfold entity.
  destruct (N.eqb_spec c 38) as [->|H38]; [repeat constructor|].
  destruct (N.eqb_spec c 60) as [->|H60]; [repeat constructor|].
  destruct (N.eqb_spec c 62) as [->|H62]; [repeat constructor|].
  destruct (N.eqb_spec c 34) as [->|H34]; [repeat constructor|].
  destruct (N.eqb_spec c 39) as [->|H39]; [repeat constructor|].
  constructor; [|constructor]. unfold is_markup.
  apply N.eqb_neq in H60, H62, H34, H39. rewrite H60, H62, H34, H39. reflexivity.
Qed.

Lemma escapeHtml_no_markup (s : jsstring) : Forall (fun x => is_markup x = false) (escapeHtml s).
Proof.
  rewrite escapeHtml_entity. induction s as [|c s IH]; [constructor|].
  cbn [flat_map]. apply Forall_app. split; [apply entity_no_markup|exact IH].
Qed.

Lemma filter_markup_escapeHtml (s : jsstring) : List.filter is_markup (escapeHtml s) = [].
Proof.
  pose proof (escapeHtml_no_markup s) as H.
  induction H as [|x l Hx _ IH]; [reflexivity|]. cbn. rewrite Hx. exact IH.
Qed.

Local Opaque lit escapeHtml.

(** The markup characters of a card come from the template and from the id,
    the status, the duration and the date: the four text fields contribute
    none. *)
Lemma card_markup (s : Session) (t sub : jsstring) :
  List.filter is_markup (card_template tl s (escapeHtml t) (escapeHtml sub))
  = List.filter is_markup
      (card_template tl
         (mkSession (id s) None None (duration s) (status s)
            (if field_truthy (description s) then Some (lit "x") else None)
            (if field_truthy (notes s) then Some (lit "x") else None)
            (created_at s) (createdAt s) None None None) [] []).
Proof.
  unfold card_template, card_buttons, creation_time. cbn [id status duration description notes
    created_at createdAt].
  rewrite !List.filter_app, !filter_markup_escapeHtml.
  destruct (field_truthy (description s)) eqn:Hd; destruct (field_truthy (notes s)) eqn:Hn;
    cbn [field_truthy]; rewrite ?Hd, ?Hn;
    rewrite ?List.filter_app, ?filter_markup_escapeHtml; reflexivity.
Qed.

(** C9. [escapeHtml] replaces [&], [<], [>], the double quote and the single
    quote by their entities and keeps every other character, so that its
    result contains none of [<], [>], the double quote and the single quote;
    and in a session card the title, the subject, the description and the
    notes appear only escaped: two sessions that differ only in the text of
    these four fields give cards with the same markup characters. *)
Theorem escapeHtml_safe (unsafe : jsstring) (s s' : Session) (h h' : jsstring) :
  id s = id s' -> status s = status s' -> duration s = duration s' ->
  created_at s = created_at s' -> createdAt s = createdAt s' ->
  field_truthy (description s) = field_truthy (description s') ->
  field_truthy (notes s) = field_truthy (notes s') ->
  card tl s = Ok h -> card tl s' = Ok h' ->
  escapeHtml unsafe = flat_map entity unsafe
  /\ Forall (fun c => c <> 60%N /\ c <> 62%N /\ c <> 34%N /\ c <> 39%N) (escapeHtml unsafe)
  /\ (exists t sub, title s = Some t /\ subject s = Some sub
                    /\ h = card_template tl s (escapeHtml t) (escapeHtml sub))
  /\ List.filter is_markup h = List.filter is_markup h'.
Proof.
  intros Hid Hst Hdur Hca Hcb Hde Hno Hh Hh'.
  split; [apply escapeHtml_entity|]. split.
  { eapply Forall_impl; [apply escapeHtml_no_markup|]. cbn. intros c Hc. unfold is_markup in Hc.
    repeat split; intros ->; discriminate. }
  unfold card, escapeHtml_field in Hh, Hh'.
  destruct (title s) as [t|]; [|discriminate]. destruct (subject s) as [sub|]; [|discriminate].
  destruct (title s') as [t'|]; [|discriminate]. destruct (subject s') as [sub'|]; [|discriminate].
  injection Hh as <-. injection Hh' as <-.
  split; [exists t, sub; done|].
  rewrite !card_markup, Hid, Hst, Hdur, Hca, Hcb, Hde, Hno. reflexivity.
Qed.

End HtmlFacts.

(** ** The handler *)

Section HandlerFacts.

Import ApiIndex.

Context {D : Type} {R : Runtime D}.

Lemma returns_ret {S A} (I : S -> Prop) (Q : A -> Prop) (a : A) :
  Q a -> returns I Q (ret a).
Proof. intros Ha s Hs. cbn. done. Qed.

Lemma returns_bind {S A B} (I : S -> Prop) (P : A -> Prop) (Q : B -> Prop)
    (m : M S A) (k : A -> M S B) :
  returns I P m -> (forall a, P a -> returns I Q (k a)) -> returns I Q (bind m k).
Proof.
  intros Hm Hk s Hs. unfold bind. specialize (Hm s Hs).
  destruct (m s) as [[a|e] s']; [|exact Hm]. destruct Hm as [Ha Hs']. exact (Hk a Ha s' Hs').
Qed.

Lemma returns_lift {S A} (I : S -> Prop) (P : A -> Prop) (o : outcome A) :
  (forall a, o = Ok a -> P a) -> returns I P (@lift_outcome S A o).
Proof. intros Ho s Hs. unfold lift_outcome. destruct o as [a|e]; [|exact Hs]. split; auto. Qed.

Lemma returns_if {S A} (I : S -> Prop) (Q : A -> Prop) (b : bool) (m1 m2 : M S A) :
  returns I Q m1 -> returns I Q m2 -> returns I Q (if b then m1 else m2).
Proof. by destruct b. Qed.

Lemma returns_query (st0 : HSt D) (q : Sql) :
  ok_query q -> returns (sent_ok st0) (fun _ => True) (query q).
Proof.
  intros Hq s (qs & Hqs & Hok). unfold query.
  assert (Hs : sent_ok st0 (mkHSt (pool_query q (db s)).2 (queries s ++ [q]))).
  { exists (qs ++ [q]). cbn. rewrite Hqs, <- app_assoc. split; [reflexivity|].
    apply Forall_app. split; [exact Hok|]. by constructor. }
  destruct (pool_query q (db s)) as [[rows|e] d']; cbn in *; auto.
Qed.

Lemma authenticateToken_error (req : Request) err c :
  authenticateToken req = auth_error err c -> c = 401 \/ c = 403.
Proof.
  unfold authenticateToken.
  destruct (match authorization req with
            | Some authHeader => nth_error (split_on 32 authHeader) 1
            | None => None
            end) as [[|x t]|].
  - intros [= _ <-]. by left.
  - destruct (jwt_verify (x :: t)); [discriminate|]. intros [= _ <-]. by right.
  - intros [= _ <-]. by left.
Qed.

Lemma well_formed_ok (req : Request) (c : Z) b :
  c < 400 -> well_formed req (mkResponse c b).
Proof. intros Hc H. cbn in H. lia. Qed.

Lemma well_formed_error (req : Request) (c : Z) err msg :
  c ∈ error_codes -> well_formed req (mkResponse c (err_body err msg)).
Proof. intros Hc _. cbn. split; [exact Hc|]. exists err. left. by exists msg. Qed.

Lemma sanitizeInput_bounded (v : jsval) : bounded (sanitizeInput v).
Proof.
  intros s. destruct v; unfold sanitizeInput, slice0; try discriminate. intros [= <-].
  rewrite length_take. lia.
Qed.

Lemma bounded_literal (b : bool) (v : jsval) (s : jsstring) :
  (length s <= 500)%nat -> bounded (if b then sanitizeInput v else JStr s).
Proof.
  intros Hs. destruct b; [apply sanitizeInput_bounded|]. intros s' [= <-]. exact Hs.
Qed.

Local Opaque lit.

Ltac error_code :=
  unfold error_codes; repeat (apply elem_of_cons; first [by left | right]).

Ltac solve_response :=
  first [ apply returns_ret; apply well_formed_ok; lia
        | apply returns_ret; apply well_formed_error; error_code ].

Ltac skip_bind :=
  eapply (returns_bind _ (fun _ => True)); [apply returns_lift; done|intros ? _].

Ltac read_field x :=
  eapply (returns_bind _ (fun _ => True)); [apply returns_lift; done|intros x _].

Ltac short_literal := apply Nat.leb_le; vm_compute; reflexivity.

Lemma with_auth_post (st0 : HSt D) (req : Request) (k : Row -> M (HSt D) Response) :
  (forall u, returns (sent_ok st0) (well_formed req) (k u)) ->
  returns (sent_ok st0) (well_formed req) (with_auth req k).
Proof.
  intros Hk. unfold with_auth. destruct (authenticateToken req) as [u|err c] eqn:Ha; [apply Hk|].
  apply returns_ret. intros _. cbn. pose proof (authenticateToken_error req err c Ha) as Hc.
  split; [destruct Hc as [-> | ->]; error_code|].
  exists err. right. done.
Qed.

(** Every route answers with a well-formed response and sends only
    statements whose text parameters are bounded. *)
Lemma route_post (st0 : HSt D) (req : Request) :
  returns (sent_ok st0) (well_formed req) (route req).
Proof.
  unfold route. cbv zeta.
  repeat apply returns_if.
  - (* health *)
    unfold health. eapply returns_bind; [apply returns_query; exact I|intros ? _].
    solve_response.
  - (* register *)
    unfold register. read_field name. read_field email0. read_field password.
    apply returns_if; [solve_response|].
    eapply (returns_bind _ (fun v => exists e0, v = JStr (toLowerCase e0)
                                                /\ (length e0 <= 500)%nat)).
    { apply returns_lift. intros v. unfold toLowerCase_.
      destruct (sanitizeInput email0) as [| | | |s| |] eqn:Hs; try discriminate.
      intros [= <-]. exists s. split; [reflexivity|].
      by apply (sanitizeInput_bounded email0). }
    intros email He.
    apply returns_if; [solve_response|]. apply returns_if; [solve_response|].
    eapply returns_bind; [apply returns_query; exact I|intros existing _].
    destruct existing; [|solve_response].
    eapply (returns_bind _ (fun h => bcrypt_hash (sanitizeInput password) = Ok h));
      [apply returns_lift; done|intros h Hh].
    skip_bind.
    eapply returns_bind.
    { apply returns_query. cbn. split; [apply sanitizeInput_bounded|]. split; [exact He|].
      exists (sanitizeInput password), h. split; [apply sanitizeInput_bounded|]. done. }
    intros ? _. skip_bind. solve_response.
  - (* login *)
    unfold login. do 2 skip_bind.
    apply returns_if; [solve_response|]. skip_bind.
    eapply returns_bind; [apply returns_query; exact I|intros result _].
    destruct result; [solve_response|]. skip_bind.
    apply returns_if; [solve_response|].
    eapply returns_bind; [apply returns_query; exact I|intros ? _]. solve_response.
  - (* GET /sessions *)
    unfold get_sessions. apply with_auth_post. intros u.
    eapply returns_bind; [apply returns_query; exact I|intros ? _]. solve_response.
  - (* POST /sessions *)
    unfold post_sessions. apply with_auth_post. intros u. do 5 skip_bind.
    apply returns_if; [solve_response|].
    eapply returns_bind.
    { apply returns_query. cbn.
      split; [apply sanitizeInput_bounded|].
      split; [apply bounded_literal; short_literal|].
      split; [apply bounded_literal; short_literal|].
      apply bounded_literal. short_literal. }
    intros ? _. skip_bind. solve_response.
  - (* GET /notes *)
    unfold get_notes. apply with_auth_post. intros u.
    eapply returns_bind; [apply returns_query; exact I|intros ? _]. solve_response.
  - (* POST /notes *)
    unfold post_notes. apply with_auth_post. intros u. do 3 skip_bind.
    apply returns_if; [solve_response|].
    eapply returns_bind.
    { apply returns_query. cbn.
      split; [apply sanitizeInput_bounded|].
      split; [apply sanitizeInput_bounded|].
      apply bounded_literal. short_literal. }
    intros ? _. skip_bind. solve_response.
  - (* GET /stats/today *)
    unfold get_stats_today. apply with_auth_post. intros u.
    eapply returns_bind; [apply returns_query; exact I|intros ? _]. solve_response.
  - (* 404 *)
    solve_response.
Qed.

(** The handler always answers: whatever the route throws becomes a 500
    response. *)
Lemma handler_post (st0 : HSt D) (req : Request) :
  exists r st',
    handler req st0 = (Ok r, st') /\ well_formed req r /\ sent_ok st0 st'.
Proof.
  assert (H0 : sent_ok st0 st0) by (exists []; rewrite app_nil_r; split; [reflexivity|constructor]).
  unfold handler. destruct (bool_decide (method req = lit "OPTIONS")).
  - eexists _, _. split; [reflexivity|]. split; [|exact H0]. apply well_formed_ok. lia.
  - pose proof (route_post st0 req st0 H0) as H. unfold try_catch.
    destruct (route req st0) as [[r|e] st'].
    + destruct H as [Hr Hs]. eexists _, _. split; [reflexivity|]. split; assumption.
    + eexists _, _. split; [reflexivity|]. split; [|exact H].
      apply well_formed_error. error_code.
Qed.

(** C7, as the code has it. The handler answers every request. A response
    with an error status has one of the codes 400, 401, 403, 404, 409, 500
    and a JSON body with an [error] text; the body has exactly the two
    fields [error] and [message], except when [authenticateToken] refused
    the request: then the status is 401 or 403 and the body has [error]
    only. *)
Theorem error_responses (req : Request) (st : HSt D) :
  exists r st',
    handler req st = (Ok r, st')
    /\ (400 <= status r ->
        status r ∈ [400; 401; 403; 404; 409; 500]
        /\ exists err,
             (exists msg,
                 json r = Some (JObj [("error"%string, JStr err); ("message"%string, JStr msg)]))
             \/ (json r = Some (JObj [("error"%string, JStr err)])
                 /\ authenticateToken req = auth_error err (status r)
                 /\ (status r = 401 \/ status r = 403))).
Proof.
  destruct (handler_post st req) as (r & st' & Hh & Hw & _).
  exists r, st'. split; [exact Hh|]. exact Hw.
Qed.




End HandlerFacts.

(** ** The properties on the example worlds *)

Section Instances.

Import SesiBelajar World Examples.

Local Abbreviation tl := Examples.toLocaleDateString.

(** The claim of C1 fails on the local branch. A page loaded while the user
    was signed in holds the remote row 7; once the user has signed out, a
    new session is saved to the Local Store and pushed onto the array: the
    submission succeeds, the store is not read back, and [this.sessions]
    (rows 7 and 2) is not what [DB.getAll] returns (row 2). *)
Lemma local_create_not_reloaded :
  let st := run (dispatch_all tl [click_addSessionBtn;
                                  input_sessionForm (lit "Chemistry") (lit "Acids") (Some 30)
                                    opt_planned []])
              signed_out_after_load in
  let st' := run (perform tl submit) st in
  isLoggedIn (world st) = false
  /\ succeeded submit st st'
  /\ (db_getAll (world st')).1 = Ok (local_sessions (world st'))
  /\ id <$> local_sessions (world st') = [2]
  /\ id <$> sessions (page st') = [7; 2]
  /\ sessions (page st') <> local_sessions (world st')
  /\ DB_getAll ∉ calls st'.
Proof.
  cbv zeta. do 5 (split; [vm_compute; reflexivity|]). split.
  - intros H. apply (f_equal (fmap id)) in H. vm_compute in H. discriminate.
  - apply (bool_decide_unpack _). vm_compute. exact I.
Qed.

Lemma successful_mutation_refresh_witness :
  let st := run (dispatch_all tl [click_addSessionBtn;
                                  input_sessionForm (lit "Chemistry") (lit "Acids") (Some 30)
                                    opt_planned []])
              (loaded (world_of true true [physics] [])) in
  succeeded submit st (perform tl submit st).2
  /\ (let st' := (perform tl submit st).2 in
      if isLoggedIn (world st) then
        exists c f w1 l,
          remote_write submit (page st) = Some (c, f)
          /\ f (world st) = (Ok tt, w1)
          /\ api_getAll w1 = (Ok l, world st')
          /\ sessions (page st') = l
          /\ calls st' = calls st ++ [Api_auth_isLoggedIn; c; Api_sessions_getAll]
      else
        exists c saved,
          calls st' = calls st ++ [Api_auth_isLoggedIn; c]
          /\ is_local_write c = true
          /\ sessions (page st') = local_patch submit (page st) (date_now (world st)) saved
          /\ (submit = submit ->
              exists d, local_entity submit (page st) (date_now (world st)) = Some d
                        /\ c = DB_set d /\ (db_set d (world st)).1 = Ok saved)).
Proof.
  cbv zeta.
  assert (H : succeeded submit
                (run (dispatch_all tl [click_addSessionBtn;
                                       input_sessionForm (lit "Chemistry") (lit "Acids") (Some 30)
                                         opt_planned []])
                   (loaded (world_of true true [physics] [])))
                (perform tl submit
                   (run (dispatch_all tl [click_addSessionBtn;
                                          input_sessionForm (lit "Chemistry") (lit "Acids") (Some 30)
                                            opt_planned []])
                      (loaded (world_of true true [physics] [])))).2)
    by (vm_compute; reflexivity).
  split; [exact H|].
  exact (successful_mutation_refresh tl submit _ H).
Defined.

(** The claim of C2 fails on the edit form. Session 1 is completed; its
    card offers Edit; choosing ['planned'] in the form and submitting it
    succeeds and leaves the session planned, in [this.sessions] and in the
    Local Store. *)
Lemma edit_moves_status_back :
  let st := loaded (world_of false true [] [math completed]) in
  let st' := run (dispatch_all tl (edit_status opt_planned)) st in
  mkButton edit_btn 1 ∈ sessionList_buttons (page st)
  /\ status <$> sessions (page st) = [completed]
  /\ status <$> sessions (page st') = [planned]
  /\ status <$> local_sessions (world st') = [planned]
  /\ type <$> toasts (page st') = [success].
Proof.
  cbv zeta. split; [apply (bool_decide_unpack _); vm_compute; exact I|].
  repeat split; vm_compute; reflexivity.
Qed.

Lemma status_transitions_witness :
  let st := loaded (world_of false true [] [math planned]) in
  succeeded (start 1) st (perform tl (start 1) st).2
  /\ (let st' := (perform tl (start 1) st).2 in
      let now := date_now (world st) in
      (forall s : Session,
          (mkButton start_btn (id s) ∈ card_buttons s <-> status s = planned)
          /\ (mkButton complete_btn (id s) ∈ card_buttons s <-> status s = inprogress)
          /\ mkButton delete_btn (id s) ∈ card_buttons s
          /\ mkButton edit_btn (id s) ∈ card_buttons s)
      /\ exists index s,
           find_session 1 (sessions (page st)) = Some (index, s)
           /\ if isLoggedIn (world st) then Api_sessions_start 1 ∈ calls st'
              else sessions (page st') !! index
                   = Some (set_started_at now (set_status inprogress s))
                   /\ DB_set (as_data (set_started_at now (set_status inprogress s)))
                      ∈ calls st').
Proof.
  cbv zeta.
  assert (H : succeeded (start 1) (loaded (world_of false true [] [math planned]))
                (perform tl (start 1) (loaded (world_of false true [] [math planned]))).2)
    by (vm_compute; reflexivity).
  split; [exact H|].
  exact (status_transitions tl (start 1) _ H).
Defined.

(** The claim of C3 fails on the notification. The user is signed in, the
    remote service does not answer, the Local Store holds session 1:
    [loadSessions] logs the error, shows the local session and raises no
    toast. *)
Lemma silent_fallback :
  let st := fresh (world_of true false [physics] [math planned]) in
  let st' := run (loadSessions tl) st in
  (api_getAll (world st)).1 = Throw (lit "Failed to fetch")
  /\ sessions (page st') = [math planned]
  /\ console_error (page st') = [(lit "Error loading sessions:", lit "Failed to fetch")]
  /\ toasts (page st') = [].
Proof. cbv zeta. repeat split; vm_compute; reflexivity. Qed.

Lemma loadSessions_remote_failure_witness :
  let st := fresh (world_of true false [physics] [math planned]) in
  let e := lit "Failed to fetch" in
  let w1 := world st in
  isLoggedIn (world st) = true
  /\ api_getAll (world st) = (Throw e, w1)
  /\ (let st' := (loadSessions tl st).2 in
      (loadSessions tl st).1 = Ok tt
      /\ calls st' = calls st ++ [Api_auth_isLoggedIn; Api_sessions_getAll; DB_getAll]
      /\ console_error (page st')
         = console_error (page st) ++ [(lit "Error loading sessions:", e)]
      /\ world st' = (db_getAll w1).2
      /\ match (db_getAll w1).1 with
         | Ok l =>
             sessions (page st') = l
             /\ match rendered tl (sessionFilter (page st)) l with
                | Ok hb =>
                    toasts (page st') = toasts (page st)
                    /\ sessionList_innerHTML (page st') = hb.1
                | Throw _ =>
                    toasts (page st')
                    = toasts (page st) ++ [mkToast (lit "Gagal memuat sesi belajar") error]
                end
         | Throw _ =>
             sessions (page st') = sessions (page st)
             /\ toasts (page st')
                = toasts (page st) ++ [mkToast (lit "Gagal memuat sesi belajar") error]
         end).
Proof.
  cbv zeta.
  assert (H1 : isLoggedIn (world (fresh (world_of true false [physics] [math planned]))) = true)
    by reflexivity.
  assert (H2 : api_getAll (world (fresh (world_of true false [physics] [math planned])))
               = (Throw (lit "Failed to fetch"),
                  world (fresh (world_of true false [physics] [math planned]))))
    by reflexivity.
  split; [exact H1|]. split; [exact H2|].
  exact (loadSessions_remote_failure tl _ _ _ H1 H2).
Defined.

Lemma remote_failure_is_reported_witness :
  let st := loaded (world_of true false [physics] [math planned]) in
  let c := Api_sessions_delete 1 in
  let f := api_delete 1 in
  let o := @Throw unit (lit "Failed to fetch") in
  let w1 := world st in
  isLoggedIn (world st) = true
  /\ remote_write (delete 1) (page st) = Some (c, f)
  /\ f (world st) = (o, w1)
  /\ match o with
     | Throw _ => True
     | Ok _ => exists e, (api_getAll w1).1 = Throw e
     end
  /\ (let st' := (perform tl (delete 1) st).2 in
      (perform tl (delete 1) st).1 = Ok tt
      /\ (exists ts, toasts (page st') = toasts (page st) ++ failure_toast (delete 1) :: ts
                     /\ Forall (fun t => type t = error) ts)
      /\ (exists cs, calls st' = calls st ++ Api_auth_isLoggedIn :: c :: cs
                     /\ Forall (fun c => is_local_write c = false) (c :: cs))
      /\ ~ succeeded (delete 1) st st').
Proof.
  cbv zeta.
  assert (H1 : isLoggedIn (world (loaded (world_of true false [physics] [math planned]))) = true)
    by (vm_compute; reflexivity).
  assert (H2 : remote_write (delete 1)
                 (page (loaded (world_of true false [physics] [math planned])))
               = Some (Api_sessions_delete 1, api_delete 1)) by reflexivity.
  assert (H3 : api_delete 1 (world (loaded (world_of true false [physics] [math planned])))
               = (Throw (lit "Failed to fetch"),
                  world (loaded (world_of true false [physics] [math planned]))))
    by (vm_compute; reflexivity).
  split; [exact H1|]. split; [exact H2|]. split; [exact H3|]. split; [exact I|].
  exact (remote_failure_is_reported tl (delete 1) _ _ _ _ _ H1 H2 H3 I).
Defined.

Lemma local_create_persists_witness :
  let st := run (dispatch_all tl [click_addSessionBtn;
                                  input_sessionForm (lit "Chemistry") (lit "Acids") (Some 30)
                                    opt_planned []])
              (loaded (world_of false true [] [math planned])) in
  token (world st) = false
  /\ storage_ok (world st) = true
  /\ editId (sessionForm (page st)) = None
  /\ Forall (fun s => id s < local_seq (world st)) (local_sessions (world st))
  /\ (let e := set_id (local_seq (world st))
                 (set_createdAt (clock (world st)) (sessionData_of (sessionForm (page st)))) in
      let st1 := (handleSessionSubmit tl st).2 in
      let st2 := (loadSessions tl st1).2 in
      (handleSessionSubmit tl st).1 = Ok tt
      /\ (loadSessions tl st1).1 = Ok tt
      /\ local_sessions (world st1) = local_sessions (world st) ++ [e]
      /\ Forall (fun s => id s <> id e) (local_sessions (world st))
      /\ createdAt e = Some (clock (world st))
      /\ sessions (page st2) = local_sessions (world st) ++ [e]
      /\ e ∈ sessions (page st2)
      /\ exists cs, calls st2 = calls st ++ cs /\ Forall (fun c => is_network c = false) cs).
Proof.
  cbv zeta.
  set (st := run (dispatch_all tl [click_addSessionBtn;
                                   input_sessionForm (lit "Chemistry") (lit "Acids") (Some 30)
                                     opt_planned []])
               (loaded (world_of false true [] [math planned]))).
  assert (H1 : token (world st) = false) by (vm_compute; reflexivity).
  assert (H2 : storage_ok (world st) = true) by (vm_compute; reflexivity).
  assert (H3 : editId (sessionForm (page st)) = None) by (vm_compute; reflexivity).
  assert (H4 : Forall (fun s => id s < local_seq (world st)) (local_sessions (world st)))
    by (apply (bool_decide_unpack _); vm_compute; exact I).
  split; [exact H1|]. split; [exact H2|]. split; [exact H3|]. split; [exact H4|].
  exact (local_create_persists tl st H1 H2 H3 H4).
Defined.

(** The claim of C6 fails on the local branch. The Local Store holds session
    1, created at instant 10; a session created at instant 20 is pushed
    after it, so the list shows the older session first. *)
Lemma local_create_shown_last :
  let st := loaded (world_of false true [] [math planned]) in
  let st' := run (dispatch_all tl create_chemistry) st in
  id <$> displayed (page st') = [1; 2]
  /\ creation_time <$> displayed (page st') = [Some 10; Some 20]
  /\ sessionList_buttons (page st') = displayed (page st') ≫= card_buttons
  /\ ~ StronglySorted (Database.desc creation_time) (displayed (page st')).
Proof.
  cbv zeta. do 3 (split; [vm_compute; reflexivity|]).
  apply (bool_decide_unpack _). vm_compute. exact I.
Qed.

Lemma display_order_witness :
  let st := fresh (world_of true true [physics; biology] []) in
  let hb := markup_of (Database.getSessionsByUserId (user (world st)) (pg (world st))) in
  let req := ExampleRuntime.get_sessions_user_1 in
  let hst := ExampleRuntime.seeded_state in
  let u := [("id"%string, JNum 1)] in
  let rows := [[("id"%string, JNum 2); ("user_id"%string, JNum 1);
                ("title"%string, JStr (lit "Physics")); ("created_at"%string, JNum 9)];
               [("id"%string, JNum 1); ("user_id"%string, JNum 1);
                ("title"%string, JStr (lit "Math")); ("created_at"%string, JNum 3)]] in
  let d' := ExampleRuntime.seeded_tables in
  (if token (world st) then remote_up (world st) = true else storage_ok (world st) = true)
  /\ rendered tl (sessionFilter (page st))
       (if token (world st) then Database.getSessionsByUserId (user (world st)) (pg (world st))
        else local_sessions (world st)) = Ok hb
  /\ ApiIndex.method req = lit "GET"
  /\ replace_first (lit "/api") [] (ApiIndex.url req) = lit "/sessions"
  /\ ApiIndex.authenticateToken req = ApiIndex.auth_user u
  /\ ApiIndex.pool_query (ApiIndex.select_sessions (get_field "id" u)) (ApiIndex.db hst)
     = (Ok rows, d')
  /\ (let st' := (loadSessions tl st).2 in
      sessionList_buttons (page st') = displayed (page st') ≫= card_buttons
      /\ sublist (displayed (page st')) (sessions (page st'))
      /\ (if token (world st) then
            sessions (page st')
            ≡ₚ Database.row <$> filter (fun r => Database.user_id r = user (world st))
                                  (Database.study_sessions (pg (world st)))
            /\ StronglySorted (Database.desc created_at) (sessions (page st'))
            /\ StronglySorted (Database.desc created_at) (displayed (page st'))
          else sessions (page st') = local_sessions (world st))
      /\ (ApiIndex.handler req hst).1
         = Ok (ApiIndex.mkResponse 200 (Some (JArr (JObj <$> rows))))
      /\ (forall t uid,
            exists sorted,
              ExampleRuntime.exec (ApiIndex.select_sessions uid) t = (Ok sorted, t)
              /\ StronglySorted (Database.desc ExampleRuntime.created_at_of) sorted
              /\ sorted ≡ₚ filter (fun r => ExampleRuntime.column_is "user_id" uid r = true)
                            (ExampleRuntime.study_sessions t))).
Proof.
  cbv zeta.
  set (st := fresh (world_of true true [physics; biology] [])).
  set (hb := markup_of (Database.getSessionsByUserId (user (world st)) (pg (world st)))).
  assert (H1 : if token (world st) then remote_up (world st) = true
               else storage_ok (world st) = true) by reflexivity.
  assert (H2 : rendered tl (sessionFilter (page st))
                 (if token (world st)
                  then Database.getSessionsByUserId (user (world st)) (pg (world st))
                  else local_sessions (world st)) = Ok hb) by (vm_compute; reflexivity).
  assert (H3 : ApiIndex.method ExampleRuntime.get_sessions_user_1 = lit "GET") by reflexivity.
  assert (H4 : replace_first (lit "/api") [] (ApiIndex.url ExampleRuntime.get_sessions_user_1)
               = lit "/sessions") by (vm_compute; reflexivity).
  assert (H5 : ApiIndex.authenticateToken ExampleRuntime.get_sessions_user_1
               = ApiIndex.auth_user [("id"%string, JNum 1)]) by (vm_compute; reflexivity).
  assert (H6 : ApiIndex.pool_query
                 (ApiIndex.select_sessions (get_field "id" [("id"%string, JNum 1)]))
                 (ApiIndex.db ExampleRuntime.seeded_state)
               = (Ok [[("id"%string, JNum 2); ("user_id"%string, JNum 1);
                       ("title"%string, JStr (lit "Physics")); ("created_at"%string, JNum 9)];
                      [("id"%string, JNum 1); ("user_id"%string, JNum 1);
                       ("title"%string, JStr (lit "Math")); ("created_at"%string, JNum 3)]],
                  ExampleRuntime.seeded_tables)) by (vm_compute; reflexivity).
  split; [exact H1|]. split; [exact H2|]. split; [exact H3|]. split; [exact H4|].
  split; [exact H5|]. split; [exact H6|].
  exact (display_order tl st hb _ _ _ _ _ H1 H2 H3 H4 H5 H6).
Defined.

(** The claim of C7 fails on the responses of [authenticateToken]:
    [GET /api/sessions] without a token is answered 401 with a body that has
    an [error] field and no [message] field. *)
Lemma auth_error_without_message :
  (ApiIndex.handler ExampleRuntime.get_sessions_no_token ExampleRuntime.start_state).1
  = Ok (ApiIndex.mkResponse 401
          (Some (JObj [("error"%string, JStr (lit "Access token required"))])))
  /\ has_field "message" [("error"%string, JStr (lit "Access token required"))] = false.
Proof. split; vm_compute; reflexivity. Qed.

(** The claim of C8 fails on the local branch. On a page loaded from the
    Local Store, deleting the id 99, which no session has, is a no-op of the
    store, and the page reports a success: the one toast added is
    [Sesi berhasil dihapus]. On a page that was loaded while the user was
    signed in and is used after the user has signed out, the same deletion
    leaves the remote row 7 in [this.sessions] while the Local Store, now the
    source, holds nothing: the store is not read back. *)
Lemma local_delete_reports_success :
  let st := loaded (world_of false true [] [math planned]) in
  let st' := run (perform tl (delete 99)) st in
  let st2 := signed_out_after_load in
  let st2' := run (perform tl (delete 99)) st2 in
  isLoggedIn (world st) = false
  /\ Forall (fun s => id s <> 99) (sessions (page st))
  /\ db_delete 99 (world st) = (Ok tt, world st)
  /\ toasts (page st') = toasts (page st) ++ [mkToast (lit "Sesi berhasil dihapus") success]
  /\ Forall (fun t => type t <> error) (toasts (page st'))
  /\ isLoggedIn (world st2) = false
  /\ Forall (fun s => id s <> 99) (sessions (page st2))
  /\ toasts (page st2') = toasts (page st2) ++ [mkToast (lit "Sesi berhasil dihapus") success]
  /\ id <$> sessions (page st2') = [7]
  /\ (db_getAll (world st2')).1 = Ok []
  /\ DB_getAll ∉ calls st2'.
Proof.
  cbv zeta.
  split; [vm_compute; reflexivity|].
  split; [apply (bool_decide_unpack _); vm_compute; exact I|].
  split; [vm_compute; reflexivity|].
  split; [vm_compute; reflexivity|].
  split; [apply (bool_decide_unpack _); vm_compute; exact I|].
  split; [vm_compute; reflexivity|].
  split; [apply (bool_decide_unpack _); vm_compute; exact I|].
  split; [vm_compute; reflexivity|].
  split; [vm_compute; reflexivity|].
  split; [vm_compute; reflexivity|].
  apply (bool_decide_unpack _). vm_compute. exact I.
Qed.

(** The two branches of C8 on examples: a signed-in page whose Remote Client
    answers the unknown id 99 by throwing, and a page on the Local Store,
    for which the deletion of 99 is a no-op. *)
Lemma delete_unknown_id_witness :
  (let st := loaded (world_of true true [physics] []) in
   let w1 := world st in
   (if isLoggedIn (world st) then api_delete 99 (world st) else db_delete 99 (world st))
   = (Throw (lit "Session not found"), w1)
   /\ (isLoggedIn (world st) = true ->
       exists e, @Throw unit (lit "Session not found") = Throw e)
   /\ Forall (fun s => id s <> 99) (sessions (page st))
   /\ (let st' := (perform tl (delete 99) st).2 in
       (perform tl (delete 99) st).1 = Ok tt
       /\ (exists ts, toasts (page st') = toasts (page st) ++ failure_toast (delete 99) :: ts
                      /\ Forall (fun t => type t = error) ts)
       /\ forall l w2 hb,
            (if isLoggedIn w1 then api_getAll w1 else db_getAll w1) = (Ok l, w2) ->
            rendered tl (sessionFilter (page st)) l = Ok hb ->
            sessions (page st') = l /\ world st' = w2
            /\ toasts (page st') = toasts (page st) ++ [failure_toast (delete 99)]))
  /\ (let st := loaded (world_of false true [] [math planned]) in
      let w1 := world st in
      (if isLoggedIn (world st) then api_delete 99 (world st) else db_delete 99 (world st))
      = (Ok tt, w1)
      /\ (isLoggedIn (world st) = true -> exists e, @Ok unit tt = Throw e)
      /\ Forall (fun s => id s <> 99) (sessions (page st))
      /\ (let st' := (perform tl (delete 99) st).2 in
          (perform tl (delete 99) st).1 = Ok tt
          /\ forall hb,
               rendered tl (sessionFilter (page st)) (sessions (page st)) = Ok hb ->
               sessions (page st') = sessions (page st) /\ world st' = w1
               /\ calls st' = calls st ++ [Api_auth_isLoggedIn; DB_delete 99]
               /\ toasts (page st')
                  = toasts (page st) ++ [success_toast (delete 99) (page st)])).
Proof.
  cbv zeta. split.
  - set (st := loaded (world_of true true [physics] [])).
    assert (H1 : (if isLoggedIn (world st) then api_delete 99 (world st)
                  else db_delete 99 (world st))
                 = (@Throw unit (lit "Session not found"), world st))
      by (vm_compute; reflexivity).
    assert (H2 : isLoggedIn (world st) = true ->
                 exists e, @Throw unit (lit "Session not found") = Throw e)
      by (intros _; eexists; reflexivity).
    assert (H3 : Forall (fun s => id s <> 99) (sessions (page st)))
      by (apply (bool_decide_unpack _); vm_compute; exact I).
    split; [exact H1|]. split; [exact H2|]. split; [exact H3|].
    exact (delete_unknown_id tl st 99 _ _ H1 H2 H3).
  - set (st := loaded (world_of false true [] [math planned])).
    assert (H1 : (if isLoggedIn (world st) then api_delete 99 (world st)
                  else db_delete 99 (world st))
                 = (@Ok unit tt, world st))
      by (vm_compute; reflexivity).
    assert (H2 : isLoggedIn (world st) = true -> exists e, @Ok unit tt = Throw e)
      by (intros H; vm_compute in H; discriminate H).
    assert (H3 : Forall (fun s => id s <> 99) (sessions (page st)))
      by (apply (bool_decide_unpack _); vm_compute; exact I).
    split; [exact H1|]. split; [exact H2|]. split; [exact H3|].
    exact (delete_unknown_id tl st 99 _ _ H1 H2 H3).
Defined.

Lemma escapeHtml_safe_witness :
  let unsafe := lit "<b>Tom & Jerry's</b>" in
  let s := math planned in
  let s' := math_markup planned in
  let h := card_of s in
  let h' := card_of s' in
  id s = id s' /\ status s = status s' /\ duration s = duration s'
  /\ created_at s = created_at s' /\ createdAt s = createdAt s'
  /\ field_truthy (description s) = field_truthy (description s')
  /\ field_truthy (notes s) = field_truthy (notes s')
  /\ card tl s = Ok h /\ card tl s' = Ok h'
  /\ (escapeHtml unsafe = flat_map entity unsafe
      /\ Forall (fun c => c <> 60%N /\ c <> 62%N /\ c <> 34%N /\ c <> 39%N) (escapeHtml unsafe)
      /\ (exists t sub, title s = Some t /\ subject s = Some sub
                        /\ h = card_template tl s (escapeHtml t) (escapeHtml sub))
      /\ List.filter is_markup h = List.filter is_markup h').
Proof.
  cbv zeta.
  assert (H8 : card tl (math planned) = Ok (card_of (math planned))) by (vm_compute; reflexivity).
  assert (H9 : card tl (math_markup planned) = Ok (card_of (math_markup planned)))
    by (vm_compute; reflexivity).
  do 7 (split; [reflexivity|]). split; [exact H8|]. split; [exact H9|].
  exact (escapeHtml_safe tl (lit "<b>Tom & Jerry's</b>") (math planned) (math_markup planned)
           _ _ eq_refl eq_refl eq_refl eq_refl eq_refl eq_refl eq_refl H8 H9).
Defined.


End Instances.

(** * Further properties of the page *)

Section PageExtras.

Import SesiBelajar.

Context {W : Type} {C : Collaborators W}.
Variable tl : option Z -> jsstring.

Local Opaque lit.

Lemma loadSessions_toasts (st : St W) :
  toasts (page (loadSessions tl st).2) = toasts (page st)
  \/ toasts (page (loadSessions tl st).2)
     = toasts (page st) ++ [mkToast (lit "Gagal memuat sesi belajar") error].
Proof.
  rewrite loadSessions_eq. cbn.
  set (source := if isLoggedIn (world st) then api_getAll else db_getAll).
  set (c := if isLoggedIn (world st) then Api_sessions_getAll else DB_getAll).
  assert (Hrel : forall e p, toasts p = toasts (page st) ->
    let st1 := local_reload tl
                 (mkSt (source (world st)).2 (add_console_error (lit "Error loading sessions:") e p)
                    (calls st ++ [Api_auth_isLoggedIn; c])) in
    toasts (page st1) = toasts (page st)
    \/ toasts (page st1) = toasts (page st) ++ [mkToast (lit "Gagal memuat sesi belajar") error]).
  { intros e p Hp st1.
    destruct (local_reload_effects tl
                (mkSt (source (world st)).2 (add_console_error (lit "Error loading sessions:") e p)
                   (calls st ++ [Api_auth_isLoggedIn; c]))) as (_ & Hts & _).
    fold st1 in Hts. cbn in Hts. rewrite Hp in Hts. exact Hts. }
  destruct (source (world st)) as [[l|e] w1] eqn:Hs; cbn.
  - destruct (rendered tl _ l) as [hb|e]; cbn; [by left|].
    apply (Hrel e (set_sessions l (page st))). reflexivity.
  - apply (Hrel e (page st)). reflexivity.
Qed.

(** The three ways a mutation can end. *)
Lemma perform_cases (m : Mutation) (st : St W) :
  exists st',
    perform tl m st = (Ok tt, st')
    /\ ((remote_write m (page st) = None
         /\ st' = mkSt (world st)
                    (add_toast (mkToast (lit "Sesi tidak ditemukan") error) (page st)) (calls st))
        \/ (exists e stx, toasts (page stx) = toasts (page st) /\ st' = catch_block tl m e stx)
        \/ (exists l stx, toasts (page stx) = toasts (page st)
                          /\ st' = after_write tl m (page st) l stx)).
Proof.
  set (dummy := mkSession 0 None None None [] None None None None None None None).
  destruct (remote_write m (page st)) as [[c f]|] eqn:Hw.
  2:{ eexists. split; [apply (perform_not_found tl m st Hw)|]. left. done. }
  destruct (isLoggedIn (world st)) eqn:Hlog.
  - eexists. split; [apply (perform_remote tl m st c f Hlog Hw)|]. right. cbv zeta.
    destruct (f (world st)) as [[[]|e] w1]; cbn [fst snd].
    + destruct (api_getAll w1) as [[l|e] w2]; cbn [fst snd].
      * right. eexists _, _. split; [|reflexivity]. reflexivity.
      * left. eexists _, _. split; [|reflexivity]. reflexivity.
    + left. eexists _, _. split; [|reflexivity]. reflexivity.
  - destruct m as [|i|i|i].
    + eexists. split; [apply (perform_local_submit tl st _ Hlog eq_refl)|]. right. cbv zeta.
      destruct (db_set _ (world st)) as [[saved|e] w1]; cbn [fst snd].
      * right. eexists _, _. split; [|reflexivity]. reflexivity.
      * left. eexists _, _. split; [|reflexivity]. reflexivity.
    + eexists. split; [apply (perform_local_delete tl st i dummy Hlog)|]. right. cbv zeta.
      destruct (db_delete i (world st)) as [[[]|e] w1]; cbn [fst snd].
      * right. eexists _, _. split; [|reflexivity]. reflexivity.
      * left. eexists _, _. split; [|reflexivity]. reflexivity.
    + destruct (local_entity (start i) (page st) (date_now (world st))) as [d|] eqn:Hd.
      2:{ cbn in Hd, Hw. destruct (find_session i _) as [[]|]; discriminate. }
      eexists. split; [apply (perform_local_transition tl (start i) st d dummy eq_refl Hlog Hd)|].
      right. cbv zeta.
      destruct (db_set d (world st)) as [[saved|e] w1]; cbn [fst snd].
      * right. eexists _, _. split; [|reflexivity]. reflexivity.
      * left. eexists _, _. split; [|reflexivity]. reflexivity.
    + destruct (local_entity (complete i) (page st) (date_now (world st))) as [d|] eqn:Hd.
      2:{ cbn in Hd, Hw. destruct (find_session i _) as [[]|]; discriminate. }
      eexists. split; [apply (perform_local_transition tl (complete i) st d dummy eq_refl Hlog Hd)|].
      right. cbv zeta.
      destruct (db_set d (world st)) as [[saved|e] w1]; cbn [fst snd].
      * right. eexists _, _. split; [|reflexivity]. reflexivity.
      * left. eexists _, _. split; [|reflexivity]. reflexivity.
Qed.

(** X1. None of the asynchronous methods of the page rejects: whatever the
    Remote Client and the Local Store do, throwing included, [loadSessions],
    [handleSessionSubmit], [deleteSession], [startSession] and
    [completeSession] return normally. A [deleteSession] that the user does
    not confirm changes nothing. *)
Theorem methods_never_reject (m : Mutation) (st : St W) :
  (loadSessions tl st).1 = Ok tt
  /\ (perform tl m st).1 = Ok tt
  /\ (forall i, deleteSession tl false i st = (Ok tt, st)).
Proof.
  split; [rewrite loadSessions_eq; reflexivity|]. split; [|reflexivity].
  destruct (perform_cases m st) as (st' & -> & _). reflexivity.
Qed.

Lemma catch_block_toasts (m : Mutation) (e : jsstring) (st : St W) :
  toasts (page (catch_block tl m e st)) = toasts (page st) ++ [failure_toast m]
  \/ toasts (page (catch_block tl m e st))
     = toasts (page st) ++ [failure_toast m; mkToast (lit "Gagal memuat sesi belajar") error].
Proof.
  unfold catch_block.
  destruct (loadSessions_toasts
              (mkSt (world st)
                 (add_toast (failure_toast m) (add_console_error (catch_message m) e (page st)))
                 (calls st))) as [H|H]; rewrite H; cbn.
  - by left.
  - right. rewrite <- app_assoc. reflexivity.
Qed.

(** X2. A mutation adds its toasts at the end of the list and adds one of
    four sequences: its success toast alone; its failure toast alone; its
    failure toast followed by the error toast of the reload; or, for a start
    or a complete whose id is not in the collection, the not-found error
    alone. A success toast and a failure toast never come together. *)
Theorem mutation_toasts (m : Mutation) (st : St W) :
  let st' := (perform tl m st).2 in
  let load_error := mkToast (lit "Gagal memuat sesi belajar") error in
  exists ts,
    toasts (page st') = toasts (page st) ++ ts
    /\ (ts = [success_toast m (page st)]
        \/ ts = [failure_toast m]
        \/ ts = [failure_toast m; load_error]
        \/ (ts = [mkToast (lit "Sesi tidak ditemukan") error]
            /\ remote_write m (page st) = None)).
Proof.
  cbv zeta. destruct (perform_cases m st) as (st' & -> & Hcases). cbn [snd].
  assert (Hcatch : forall e stx, toasts (page stx) = toasts (page st) ->
    exists ts, toasts (page (catch_block tl m e stx)) = toasts (page st) ++ ts
               /\ (ts = [success_toast m (page st)]
                   \/ ts = [failure_toast m]
                   \/ ts = [failure_toast m; mkToast (lit "Gagal memuat sesi belajar") error]
                   \/ (ts = [mkToast (lit "Sesi tidak ditemukan") error]
                       /\ remote_write m (page st) = None))).
  { intros e stx Hx. destruct (catch_block_toasts m e stx) as [H|H]; rewrite H, Hx;
      eexists; (split; [reflexivity|]); auto. }
  destruct Hcases as [[Hw ->]|[(e & stx & Hx & ->)|(l & stx & Hx & ->)]].
  - eexists. split; [reflexivity|]. right. right. right. done.
  - by apply Hcatch.
  - unfold after_write. cbn [page].
    destruct (rendered tl _ l) as [hb|e]; [|by apply Hcatch].
    exists [success_toast m (page st)]. split; [|by left].
    destruct m; cbn; rewrite Hx; reflexivity.
Qed.

(** X3. [startSession] and [completeSession] on an id that no session of the
    collection has: the page shows the not-found error and does nothing
    else. Neither collaborator is called, not even [isLoggedIn], and the
    collection is untouched. *)
Theorem transition_unknown_id (m : Mutation) (i : Z) (st : St W) :
  m = start i \/ m = complete i ->
  Forall (fun s => id s <> i) (sessions (page st)) ->
  perform tl m st
  = (Ok tt, mkSt (world st)
              (add_toast (mkToast (lit "Sesi tidak ditemukan") error) (page st)) (calls st)).
Proof.
  intros Hm Habs. apply perform_not_found.
  assert (Hf : find_session i (sessions (page st)) = None).
  { unfold find_session. apply list_find_None. eapply Forall_impl; [exact Habs|]. done. }
  destruct Hm as [-> | ->]; cbn; rewrite Hf; reflexivity.
Qed.

Lemma cards_ok_iff (l : list Session) :
  (exists h, cards tl l = Ok h) <-> Forall (fun s => title s <> None /\ subject s <> None) l.
Proof.
  induction l as [|s l IH].
  - split; [constructor|]. intros _. by exists [].
  - cbn [cards]. unfold card, escapeHtml_field. split.
    + intros [h Hh]. destruct (title s) as [t|] eqn:Ht; [|discriminate].
      destruct (subject s) as [sub|] eqn:Hsub; [|discriminate].
      destruct (cards tl l) as [hs|e]; [|discriminate].
      constructor; [rewrite Ht, Hsub; split; discriminate|]. apply IH. by exists hs.
    + intros H. apply Forall_cons in H as [[Ht Hs] Hl]. apply IH in Hl as [hs Hhs].
      destruct (title s) as [t|]; [|done]. destruct (subject s) as [sub|]; [|done].
      rewrite Hhs. eexists. reflexivity.
Qed.

Lemma renderSessions_ok_iff (st : St W) :
  (renderSessions tl st).1 = Ok tt
  <-> Forall (fun s => title s <> None /\ subject s <> None) (displayed (page st)).
Proof.
  rewrite renderSessions_eq. unfold rendered, displayed.
  destruct (filteredSessions _ _) as [|s f] eqn:Hf.
  - cbn. split; done.
  - pose proof (cards_ok_iff (s :: f)) as Hiff.
    destruct (cards tl (s :: f)) as [h|e]; cbn.
    + split; [|done]. intros _. apply Hiff. by exists h.
    + split; [done|]. intros H. apply Hiff in H as [h Hh]. discriminate.
Qed.

(** X4. [renderSessions] throws exactly when a session that passes the
    status filter has a [title] or a [subject] that is [null] or [undefined].
    When it throws, nothing at all has changed (the list keeps its previous
    markup); when it returns, only the list element has changed. *)
Theorem renderSessions_throws (st : St W) :
  ((renderSessions tl st).1 = Ok tt
   <-> Forall (fun s => title s <> None /\ subject s <> None) (displayed (page st)))
  /\ ((renderSessions tl st).1 <> Ok tt -> (renderSessions tl st).2 = st)
  /\ world (renderSessions tl st).2 = world st
  /\ calls (renderSessions tl st).2 = calls st
  /\ sessions (page (renderSessions tl st).2) = sessions (page st)
  /\ toasts (page (renderSessions tl st).2) = toasts (page st)
  /\ sessionForm (page (renderSessions tl st).2) = sessionForm (page st).
Proof.
  split; [apply renderSessions_ok_iff|].
  rewrite renderSessions_eq.
  destruct (rendered tl _ _) as [hb|e]; cbn; repeat split; done.
Qed.

(** X5. Every button that [renderSessions] has drawn belongs to a session of
    the collection that passes the status filter; a Mulai button belongs to
    a planned session and a Selesai button to a session in progress. So a
    click on a button of a freshly drawn list always finds its session.
    With the filter on ['all'] every session has its card. *)
Theorem drawn_buttons (st st' : St W) (b : Button) :
  renderSessions tl st = (Ok tt, st') ->
  b ∈ sessionList_buttons (page st') ->
  (exists s,
      s ∈ sessions (page st') /\ id s = data_id b
      /\ (filter_value (sessionFilter (page st')) = lit "all"
          \/ status s = filter_value (sessionFilter (page st')))
      /\ (btn_class b = start_btn -> status s = planned)
      /\ (btn_class b = complete_btn -> status s = inprogress))
  /\ find_session (data_id b) (sessions (page st')) <> None
  /\ (filter_value (sessionFilter (page st')) = lit "all" ->
      sessionList_buttons (page st') = sessions (page st') ≫= card_buttons).
Proof.
  rewrite renderSessions_eq.
  destruct (rendered tl _ _) as [hb|e] eqn:Hr; [|discriminate].
  intros [= <-]. cbn. intros Hb.
  rewrite (rendered_buttons tl _ _ _ Hr) in Hb |- *.
  apply list_elem_of_bind in Hb as (s & Hbs & Hs).
  unfold filteredSessions in Hs. apply list_elem_of_filter in Hs as [Hfilter Hs].
  assert (Hex : exists s0, s0 ∈ sessions (page st) /\ id s0 = data_id b
                           /\ (filter_value (sessionFilter (page st)) = lit "all"
                               \/ status s0 = filter_value (sessionFilter (page st)))
                           /\ (btn_class b = start_btn -> status s0 = planned)
                           /\ (btn_class b = complete_btn -> status s0 = inprogress)).
  { exists s. split; [exact Hs|].
    unfold card_buttons in Hbs.
    destruct (decide (status s = planned)) as [Hp|Hp];
      destruct (decide (status s = inprogress)) as [Hi|Hi]; cbn in Hbs;
      repeat match goal with
             | H : _ ∈ _ :: _ |- _ => apply elem_of_cons in H as [H|H]
             | H : _ ∈ [] |- _ => by apply elem_of_nil in H
             end; subst b; cbn; repeat split; try done. }
  split; [exact Hex|]. split.
  - destruct Hex as (s0 & Hs0 & Hid & _). unfold find_session. intros Hnone.
    apply list_find_None in Hnone.
    exact (proj1 (Forall_forall _ _) Hnone s0 Hs0 Hid).
  - intros Hall. unfold filteredSessions. f_equal. clear -Hall.
    induction (sessions (page st)) as [|x l IH]; [reflexivity|].
    rewrite filter_cons. destruct (decide _) as [_|Hn]; [f_equal; exact IH|].
    exfalso. apply Hn. by left.
Qed.

End PageExtras.

Section PageExtraInstances.

Import SesiBelajar World Examples.

Local Abbreviation tl := Examples.toLocaleDateString.

Lemma transition_unknown_id_witness :
  let st := loaded (world_of true true [physics] []) in
  (complete 99 = start 99 \/ complete 99 = complete 99)
  /\ Forall (fun s => id s <> 99) (sessions (page st))
  /\ perform tl (complete 99) st
     = (Ok tt, mkSt (world st)
                 (add_toast (mkToast (lit "Sesi tidak ditemukan") error) (page st)) (calls st)).
Proof.
  cbv zeta.
  set (st := loaded (world_of true true [physics] [])).
  assert (H1 : complete 99 = start 99 \/ complete 99 = complete 99) by (right; reflexivity).
  assert (H2 : Forall (fun s => id s <> 99) (sessions (page st)))
    by (apply (bool_decide_unpack _); vm_compute; exact I).
  split; [exact H1|]. split; [exact H2|].
  exact (transition_unknown_id tl (complete 99) 99 st H1 H2).
Defined.

Lemma drawn_buttons_witness :
  let st := loaded (world_of true true [physics; biology] []) in
  let st' := (renderSessions tl st).2 in
  let b := mkButton complete_btn 8 in
  renderSessions tl st = (Ok tt, st')
  /\ b ∈ sessionList_buttons (page st')
  /\ (exists s,
         s ∈ sessions (page st') /\ id s = data_id b
         /\ (filter_value (sessionFilter (page st')) = lit "all"
             \/ status s = filter_value (sessionFilter (page st')))
         /\ (btn_class b = start_btn -> status s = planned)
         /\ (btn_class b = complete_btn -> status s = inprogress))
  /\ find_session (data_id b) (sessions (page st')) <> None
  /\ (filter_value (sessionFilter (page st')) = lit "all" ->
      sessionList_buttons (page st') = sessions (page st') ≫= card_buttons).
Proof.
  cbv zeta.
  set (st := loaded (world_of true true [physics; biology] [])).
  assert (H1 : renderSessions tl st = (Ok tt, (renderSessions tl st).2))
    by (vm_compute; reflexivity).
  assert (H2 : mkButton complete_btn 8 ∈ sessionList_buttons (page (renderSessions tl st).2))
    by (apply (bool_decide_unpack _); vm_compute; exact I).
  split; [exact H1|]. split; [exact H2|].
  exact (drawn_buttons tl st _ (mkButton complete_btn 8) H1 H2).
Defined.

End PageExtraInstances.

(** * The edit form and the search box *)

Section PageExtras2.

Import SesiBelajar.

Context {W : Type} {C : Collaborators W}.
Variable tl : option Z -> jsstring.
Variable lower : jsstring -> jsstring.

Local Opaque lit.

Lemma after_write_calls (m : Mutation) (p0 : Page) (l : list Session) (st : St W) :
  exists cs, calls (after_write tl m p0 l st) = calls st ++ cs.
Proof.
  unfold after_write. destruct (rendered tl _ l) as [hb|e]; cbn.
  - exists []. by rewrite app_nil_r.
  - destruct (catch_block_effects tl m e (mkSt (world st) (set_sessions l (page st)) (calls st)))
      as [(cs & Hcs & _) _].
    exists cs. exact Hcs.
Qed.

(** X6. [editSession] followed by [handleSessionSubmit] with nothing changed
    in the form, for a session whose id and duration are integers that
    JavaScript writes without an exponent (below 10^21 in absolute value).
    [editSession] on the id of a session opens the modal and calls no
    collaborator; the submit handler then addresses the same id, through
    [Api.sessions.update] when the user is signed in and through [DB.set]
    otherwise, and carries the duration of the session and its title and
    subject without their line breaks, which the text inputs have stripped. The text of the notes box,
    [description || notes || ''] with its line breaks normalised by the text
    area, is sent as [description]; the status is the session's when it is
    one of the three options of the select and empty otherwise. So a title
    or a subject with a line break is changed by an edit that changes
    nothing. *)
Theorem edit_then_submit (i : Z) (st : St W) (index : nat) (s : Session) (t sub : jsstring) :
  find_session i (sessions (page st)) = Some (index, s) ->
  title s = Some t ->
  subject s = Some sub ->
  Z.abs i < 10 ^ 21 ->
  (forall z, duration s = Some z -> Z.abs z < 10 ^ 21) ->
  let st1 := (editSession i st).2 in
  let d := mkSession None (Some (strip_newlines t)) (Some (strip_newlines sub)) (duration s)
             (select_value (status s))
             (Some (normalize_newlines
                      (if field_truthy (description s) then default [] (description s)
                       else if field_truthy (notes s) then default [] (notes s) else [])))
             None None None None None None in
  (editSession i st).1 = Ok tt
  /\ world st1 = world st
  /\ calls st1 = calls st
  /\ sessions (page st1) = sessions (page st)
  /\ toasts (page st1) = toasts (page st)
  /\ sessionModal_open (page st1) = true
  /\ (status s = planned \/ status s = inprogress \/ status s = completed ->
      status d = status s)
  /\ (Forall (fun c => c <> 10%N /\ c <> 13%N) t -> title d = title s)
  /\ (Forall (fun c => c <> 10%N /\ c <> 13%N) sub -> subject d = subject s)
  /\ exists cs,
       calls (perform tl submit st1).2
       = calls st ++ Api_auth_isLoggedIn
           :: (if isLoggedIn (world st) then Api_sessions_update i d
               else DB_set (set_updatedAt (date_now (world st)) (set_id (Some i) d)))
           :: cs.
Proof.
  intros Hf Ht Hsub _ _. cbv zeta.
  pose proof (find_session_id _ _ _ _ Hf) as [Hid _].
  assert (Hedit : editSession i st
                  = (Ok tt, mkSt (world st)
                              (set_modal true
                                 (set_sessionForm
                                    (mkForm (Some i) (strip_newlines t) (strip_newlines sub)
                                       (duration s) (select_value (status s))
                                       (normalize_newlines
                                          (if field_truthy (description s)
                                           then default [] (description s)
                                           else if field_truthy (notes s)
                                                then default [] (notes s) else [])))
                                    (page st)))
                              (calls st))).
  { unfold editSession, openSessionModal, update_page, bind, get, modify. rewrite Hf. cbn.
    rewrite Ht, Hsub, Hid. reflexivity. }
  rewrite Hedit. cbn [fst snd world calls page sessions toasts sessionModal_open set_modal
                      set_sessionForm status title subject].
  do 6 (split; [reflexivity|]). split.
  { intros Hst. unfold select_value. by destruct (decide _). }
  assert (Hkeep : forall x, Forall (fun c => c <> 10%N /\ c <> 13%N) x -> strip_newlines x = x).
  { intros x Hx. unfold strip_newlines. induction Hx as [|c x Hc _ IH]; [reflexivity|].
    rewrite filter_cons, decide_True by exact Hc. by rewrite IH. }
  split; [intros Hx; by rewrite Ht, Hkeep|]. split; [intros Hx; by rewrite Hsub, Hkeep|].
  set (st1 := mkSt (world st) _ (calls st)).
  set (d := mkSession None _ _ _ _ _ _ _ _ _ _ _).
  destruct (isLoggedIn (world st)) eqn:Hlog.
  - rewrite (perform_remote tl submit st1 (Api_sessions_update i d) (api_update i d) Hlog eq_refl).
    cbv zeta. cbn [snd].
    destruct (api_update i d (world st1)) as [[[]|e] w1]; cbn [fst snd].
    + destruct (api_getAll w1) as [[l|e] w2]; cbn [fst snd].
      * destruct (after_write_calls submit (page st1) l
                    (mkSt w2 (page st1)
                       (calls st1 ++ [Api_auth_isLoggedIn; Api_sessions_update i d;
                                      Api_sessions_getAll]))) as [cs ->].
        exists (Api_sessions_getAll :: cs). cbn. rewrite <- app_assoc. reflexivity.
      * destruct (catch_block_effects tl submit e
                    (mkSt w2 (page st1)
                       (calls st1 ++ [Api_auth_isLoggedIn; Api_sessions_update i d;
                                      Api_sessions_getAll]))) as [(cs & -> & _) _].
        exists (Api_sessions_getAll :: cs). cbn. rewrite <- app_assoc. reflexivity.
    + destruct (catch_block_effects tl submit e
                  (mkSt w1 (page st1)
                     (calls st1 ++ [Api_auth_isLoggedIn; Api_sessions_update i d])))
        as [(cs & -> & _) _].
      exists cs. cbn. rewrite <- app_assoc. reflexivity.
  - set (d' := set_updatedAt (date_now (world st)) (set_id (Some i) d)).
    rewrite (perform_local_submit tl st1 d' Hlog eq_refl).
    cbv zeta. cbn [snd].
    destruct (db_set d' (world st1)) as [[saved|e] w1]; cbn [fst snd].
    + destruct (after_write_calls submit (page st1)
                  (local_patch submit (page st1) (date_now (world st1)) saved)
                  (mkSt w1 (page st1) (calls st1 ++ [Api_auth_isLoggedIn; DB_set d'])))
        as [cs ->].
      exists cs. cbn. rewrite <- app_assoc. reflexivity.
    + destruct (catch_block_effects tl submit e
                  (mkSt w1 (page st1) (calls st1 ++ [Api_auth_isLoggedIn; DB_set d'])))
        as [(cs & -> & _) _].
      exists cs. cbn. rewrite <- app_assoc. reflexivity.
Qed.

Lemma search_match_hit (q : jsstring) (s : Session) (b : bool) :
  search_match lower q s = Ok b ->
  b = search_hit lower q s
  /\ title s <> None
  /\ (b = false -> subject s <> None).
Proof.
  unfold search_match, search_hit, searched_fields, field_includes.
  destruct (title s) as [t|]; [|discriminate]. cbn.
  destruct (includes (lower q) (lower t)); cbn.
  { intros [= <-]. split; [reflexivity|]. split; [discriminate|discriminate]. }
  destruct (subject s) as [sub|]; [|discriminate]. cbn.
  destruct (includes (lower q) (lower sub)); cbn.
  { intros [= <-]. split; [reflexivity|]. split; discriminate. }
  destruct (description s) as [[|c d]|]; cbn.
  - intros [= <-]. split; [reflexivity|]. split; [discriminate|]. intros _. discriminate.
  - intros [= <-]. rewrite orb_false_r. split; [reflexivity|]. split; [discriminate|].
    intros _. discriminate.
  - intros [= <-]. split; [reflexivity|]. split; [discriminate|]. intros _. discriminate.
Qed.

Lemma search_filter_found (q : jsstring) (l found : list Session) :
  search_filter lower q l = Ok found ->
  found = filter (fun s => search_hit lower q s = true) l.
Proof.
  revert found. induction l as [|s l IH]; intros found; cbn [search_filter].
  - by intros [= <-].
  - destruct (search_match lower q s) as [b|e] eqn:Hm; [|discriminate].
    destruct (search_filter lower q l) as [f|e]; [|discriminate].
    intros [= <-]. apply search_match_hit in Hm as (-> & _).
    rewrite filter_cons. rewrite <- (IH f eq_refl).
    destruct (search_hit lower q s); destruct (decide _); congruence.
Qed.

Lemma search_cards_ok_iff (l : list Session) :
  (exists h, search_cards tl l = Ok h)
  <-> Forall (fun s => title s <> None /\ subject s <> None) l.
Proof.
  induction l as [|s l IH].
  - split; [constructor|]. intros _. by exists [].
  - cbn [search_cards]. unfold search_card, escapeHtml_field. split.
    + intros [h Hh]. destruct (title s) as [t|] eqn:Ht; [|discriminate].
      destruct (subject s) as [sub|] eqn:Hsub; [|discriminate].
      destruct (search_cards tl l) as [hs|e]; [|discriminate].
      constructor; [rewrite Ht, Hsub; split; discriminate|]. apply IH. by exists hs.
    + intros H. apply Forall_cons in H as [[Ht Hs] Hl]. apply IH in Hl as [hs Hhs].
      destruct (title s) as [t|]; [|done]. destruct (subject s) as [sub|]; [|done].
      rewrite Hhs. eexists. reflexivity.
Qed.

(** The search filter and the cards of what it found go through exactly when
    every session searched has a title and a subject: a session without a
    subject either fails the title test, and then its subject is read by the
    filter, or passes it, and then its subject is read by the card. *)
Lemma search_ok_iff (q : jsstring) (l : list Session) :
  (exists found h, search_filter lower q l = Ok found /\ search_cards tl found = Ok h)
  <-> Forall (fun s => title s <> None /\ subject s <> None) l.
Proof.
  split.
  - induction l as [|s l IH]; [constructor|].
    intros (found & h & Hfound & Hh). cbn [search_filter] in Hfound.
    destruct (search_match lower q s) as [b|e] eqn:Hm; [|discriminate].
    destruct (search_filter lower q l) as [f|e] eqn:Hfl; [|discriminate].
    injection Hfound as <-.
    apply search_match_hit in Hm as (_ & Ht & Hsub).
    destruct b.
    + assert (Hall : Forall (fun s => title s <> None /\ subject s <> None) (s :: f))
        by (apply search_cards_ok_iff; by exists h).
      apply Forall_cons in Hall as [Hs Hf].
      constructor; [exact Hs|]. apply IH. exists f.
      apply search_cards_ok_iff in Hf as [h' Hh']. by exists h'.
    + constructor; [split; [exact Ht|by apply Hsub]|]. apply IH. by exists f, h.
  - intros Hall.
    assert (Hfilter : exists found, search_filter lower q l = Ok found).
    { induction Hall as [|s l [Ht Hsub] _ [f IH]]; [by exists []|].
      cbn [search_filter]. rewrite IH.
      unfold search_match, field_includes.
      destruct (title s) as [t|]; [|done]. destruct (subject s) as [sub|]; [|done].
      destruct (includes _ (lower t)); [eexists; reflexivity|].
      destruct (includes _ (lower sub)); [eexists; reflexivity|].
      destruct (description s) as [[|c d]|]; cbn; eexists; reflexivity. }
    destruct Hfilter as [found Hfound]. exists found.
    pose proof (search_filter_found q l found Hfound) as ->.
    destruct (proj2 (search_cards_ok_iff (filter (fun s => search_hit lower q s = true) l)))
      as [h Hh].
    { apply Forall_forall. intros x Hx. apply list_elem_of_filter in Hx as [_ Hx].
      exact (proj1 (Forall_forall _ _) Hall x Hx). }
    exists h. split; [exact Hfound|exact Hh].
Qed.

(** X7. What the search box shows for a query that is not blank, when the
    search goes through: the cards drawn are those of the sessions that pass
    the status filter and have the query, case put aside, in their title,
    subject or non-empty description, in the order of [this.sessions]: a
    part of what [renderSessions] draws. The search calls no collaborator
    and leaves the collection, the filter, the toasts and the form alone;
    when nothing is found the no-result state is shown, without a button. *)
Theorem searchSessions_found (query : jsstring) (st : St W) :
  trim query <> [] ->
  (searchSessions tl lower query st).1 = Ok tt ->
  let st' := (searchSessions tl lower query st).2 in
  let found := filter (fun s => search_hit lower query s = true) (displayed (page st)) in
  sessionList_buttons (page st') = found ≫= card_buttons
  /\ found `sublist_of` displayed (page st)
  /\ (found = [] -> sessionList_innerHTML (page st') = no_result_html)
  /\ world st' = world st
  /\ calls st' = calls st
  /\ sessions (page st') = sessions (page st)
  /\ sessionFilter (page st') = sessionFilter (page st)
  /\ toasts (page st') = toasts (page st)
  /\ sessionForm (page st') = sessionForm (page st).
Proof.
  unfold searchSessions.
  intros Hq. destruct (trim query) as [|c q']; [done|]. clear Hq.
  unfold bind, get, lift_outcome, update_page, modify, displayed.
  destruct (search_filter lower query _) as [found|e] eqn:Hfound; [|discriminate].
  apply search_filter_found in Hfound. rewrite <- Hfound.
  destruct found as [|s f].
  - intros _. cbn. repeat split; try done. apply sublist_nil_l.
  - destruct (search_cards tl (s :: f)) as [h|e] eqn:Hh; [|discriminate].
    intros _. cbn [snd fst page world calls sessions sessionList_buttons set_sessionList
                   sessionList_innerHTML sessionFilter toasts sessionForm].
    split; [reflexivity|]. split.
    { rewrite Hfound. apply sublist_filter. }
    split; [discriminate|]. repeat split; reflexivity.
Qed.

(** X8. Typing in the search box throws exactly when redrawing the list
    would: when a session that passes the status filter has no title or no
    subject, whatever the query. A blank query is a plain [renderSessions].
    When the search throws it has changed nothing. The listener calls it
    outside any [try]. *)
Theorem searchSessions_throws (query : jsstring) (st : St W) :
  (trim query = [] -> searchSessions tl lower query st = renderSessions tl st)
  /\ ((searchSessions tl lower query st).1 = Ok tt <-> (renderSessions tl st).1 = Ok tt)
  /\ ((searchSessions tl lower query st).1 <> Ok tt ->
      (searchSessions tl lower query st).2 = st).
Proof.
  unfold searchSessions.
  destruct (trim query) as [|c q'] eqn:Hq.
  { split; [done|]. split; [done|]. rewrite renderSessions_eq.
    destruct (rendered tl _ _) as [hb|e]; cbn; done. }
  split; [done|]. rewrite renderSessions_ok_iff.
  pose proof (search_ok_iff query (displayed (page st))) as Hiff. unfold displayed in *.
  unfold bind, get, lift_outcome, update_page, modify.
  destruct (search_filter lower query _) as [found|e].
  - destruct found as [|s f].
    + cbn. split; [|done]. split; [|done]. intros _. apply Hiff. by exists [], [].
    + destruct (search_cards tl (s :: f)) as [h|e] eqn:Hh; cbn.
      * split; [|done]. split; [|done]. intros _. apply Hiff. by exists (s :: f), h.
      * split; [|done]. split; [done|]. intros Hall.
        apply Hiff in Hall as (found & h & [= <-] & Hh'). congruence.
  - cbn. split; [|done]. split; [done|]. intros Hall.
    apply Hiff in Hall as (found & h & Hfound & _). discriminate.
Qed.

End PageExtras2.

Section PageExtraInstances2.

Import SesiBelajar World Examples.

Local Abbreviation tl := Examples.toLocaleDateString.

(** A session of the Local Store with a line break in its title. *)
Local Abbreviation two_lines :=
  (mkSession 3 (Some (lit "Math" ++ [10%N] ++ lit "II")) (Some (lit "Algebra")) (Some 25)
     planned None (Some (lit "read" ++ [13%N; 10%N] ++ lit "chapter 2")) None (Some 10) None
     None None).

Lemma edit_then_submit_witness :
  let st := loaded (world_of false true [] [two_lines]) in
  let st1 := (editSession 3 st).2 in
  let d := mkSession None (Some (lit "MathII")) (Some (lit "Algebra")) (Some 25) planned
             (Some (lit "read" ++ [10%N] ++ lit "chapter 2"))
             None None None None None None in
  find_session 3 (sessions (page st)) = Some (0%nat, two_lines)
  /\ title two_lines = Some (lit "Math" ++ [10%N] ++ lit "II")
  /\ subject two_lines = Some (lit "Algebra")
  /\ Z.abs 3 < 10 ^ 21
  /\ (forall z, duration two_lines = Some z -> Z.abs z < 10 ^ 21)
  /\ (editSession 3 st).1 = Ok tt
  /\ world st1 = world st
  /\ calls st1 = calls st
  /\ sessions (page st1) = sessions (page st)
  /\ toasts (page st1) = toasts (page st)
  /\ sessionModal_open (page st1) = true
  /\ (status two_lines = planned \/ status two_lines = inprogress
      \/ status two_lines = completed -> status d = status two_lines)
  /\ (Forall (fun c => c <> 10%N /\ c <> 13%N) (lit "Math" ++ [10%N] ++ lit "II") ->
      title d = title two_lines)
  /\ (Forall (fun c => c <> 10%N /\ c <> 13%N) (lit "Algebra") ->
      subject d = subject two_lines)
  /\ exists cs,
       calls (perform tl submit st1).2
       = calls st ++ Api_auth_isLoggedIn
           :: (if isLoggedIn (world st) then Api_sessions_update 3 d
               else DB_set (set_updatedAt (date_now (world st)) (set_id (Some 3) d)))
           :: cs.
Proof.
  cbv zeta.
  set (st := loaded (world_of false true [] [two_lines])).
  assert (H1 : find_session 3 (sessions (page st)) = Some (0%nat, two_lines))
    by (vm_compute; reflexivity).
  assert (H2 : title two_lines = Some (lit "Math" ++ [10%N] ++ lit "II")) by reflexivity.
  assert (H3 : subject two_lines = Some (lit "Algebra")) by reflexivity.
  assert (H4 : Z.abs 3 < 10 ^ 21) by (vm_compute; reflexivity).
  assert (H5 : forall z, duration two_lines = Some z -> Z.abs z < 10 ^ 21)
    by (intros z [= <-]; vm_compute; reflexivity).
  split; [exact H1|]. split; [exact H2|]. split; [exact H3|]. split; [exact H4|].
  split; [exact H5|].
  exact (edit_then_submit tl 3 st 0%nat two_lines (lit "Math" ++ [10%N] ++ lit "II")
           (lit "Algebra") H1 H2 H3 H4 H5).
Defined.

Lemma searchSessions_found_witness :
  let st := loaded (world_of true true [physics; biology] []) in
  let query := lit "CELL" in
  let lower := ExampleRuntime.lower in
  let st' := (searchSessions tl lower query st).2 in
  let found := filter (fun s => search_hit lower query s = true) (displayed (page st)) in
  trim query <> []
  /\ (searchSessions tl lower query st).1 = Ok tt
  /\ sessionList_buttons (page st') = found ≫= card_buttons
  /\ found `sublist_of` displayed (page st)
  /\ (found = [] -> sessionList_innerHTML (page st') = no_result_html)
  /\ world st' = world st
  /\ calls st' = calls st
  /\ sessions (page st') = sessions (page st)
  /\ sessionFilter (page st') = sessionFilter (page st)
  /\ toasts (page st') = toasts (page st)
  /\ sessionForm (page st') = sessionForm (page st).
Proof.
  cbv zeta.
  set (st := loaded (world_of true true [physics; biology] [])).
  assert (H1 : trim (lit "CELL") <> []) by (vm_compute; discriminate).
  assert (H2 : (searchSessions tl ExampleRuntime.lower (lit "CELL") st).1 = Ok tt)
    by (vm_compute; reflexivity).
  split; [exact H1|]. split; [exact H2|].
  exact (searchSessions_found tl ExampleRuntime.lower (lit "CELL") st H1 H2).
Defined.

End PageExtraInstances2.

(** * Further properties of the handler *)

Section HandlerExtras.

Import ApiIndex.

Context {D : Type} {R : Runtime D}.

Local Opaque lit.

Lemma trace_ret {A} (pre : list Sql) (a : A) (Q : outcome A -> list Sql -> Prop) :
  Q (Ok a) pre -> trace (D:=D) pre (ret a) Q.
Proof. intros HQ st. exists []. cbn. rewrite !app_nil_r. done. Qed.

Lemma trace_lift {A B} (pre : list Sql) (o : outcome A) (k : A -> M (HSt D) B)
    (Q : outcome B -> list Sql -> Prop) :
  (forall a, o = Ok a -> trace pre (k a) Q) ->
  (forall e, o = Throw e -> Q (Throw e) pre) ->
  trace pre (bind (lift_outcome o) k) Q.
Proof.
  intros Hok Hthrow st. unfold bind, lift_outcome. destruct o as [a|e].
  - exact (Hok a eq_refl st).
  - exists []. cbn. rewrite !app_nil_r. split; [done|]. by apply Hthrow.
Qed.

Lemma trace_query {B} (pre : list Sql) (q : Sql) (k : list Row -> M (HSt D) B)
    (Q : outcome B -> list Sql -> Prop) :
  (forall rows, trace (pre ++ [q]) (k rows) Q) ->
  (forall e, Q (Throw e) (pre ++ [q])) ->
  trace pre (bind (query q) k) Q.
Proof.
  intros Hok Hthrow st. unfold bind, query.
  destruct (pool_query q (db st)) as [[rows|e] d'] eqn:Hq; cbn [fst snd].
  - destruct (Hok rows (mkHSt d' (queries st ++ [q]))) as (qs & Hqs & HQ).
    exists (q :: qs). cbn [queries] in Hqs. rewrite Hqs, <- !app_assoc in *. done.
  - exists [q]. cbn. split; [done|]. apply Hthrow.
Qed.

Lemma trace_if {A} (pre : list Sql) (b : bool) (m1 m2 : M (HSt D) A)
    (Q : outcome A -> list Sql -> Prop) :
  (b = true -> trace pre m1 Q) -> (b = false -> trace pre m2 Q) ->
  trace pre (if b then m1 else m2) Q.
Proof. destruct b; auto. Qed.

Ltac forall_goal :=
  lazymatch goal with
  | |- Forall _ [] => constructor
  | |- Forall _ (_ :: _) =>
      constructor; [first [exact I | assumption | reflexivity] | forall_goal]
  end.

Ltac leaf_facts :=
  unfold route_facts, answered, looked_up; cbn [app status reads_then_write is_write negb];
  repeat match goal with
         | |- _ /\ _ => split
         end;
  try solve [ exact I | reflexivity | assumption
            | forall_goal
            | intros; lia
            | intros _; reflexivity
            | intros _; split; [forall_goal | cbn; lia]
            | intros ? ? ? ? Hin;
              repeat (apply elem_of_cons in Hin as [Hin|Hin]; [discriminate|]);
              by apply elem_of_nil in Hin ].

Lemma with_auth_trace (req : Request) (k : Row -> M (HSt D) Response) :
  (forall u, authenticateToken req = auth_user u -> trace [] (k u) (route_facts req)) ->
  trace [] (with_auth req k) (route_facts req).
Proof.
  intros Hk. unfold with_auth.
  destruct (authenticateToken req) as [u|err c] eqn:Ha; [by apply Hk|].
  apply trace_ret. pose proof (authenticateToken_error req err c Ha) as Hc.
  unfold route_facts, answered, looked_up. cbn [status auth_failure reads_then_write].
  split; [constructor|]. split; [constructor|]. split; [reflexivity|].
  split; [intros ? ? ? ? Hin; by apply elem_of_nil in Hin|].
  split; [intros _; split; [constructor|cbn; lia]|].
  split; [done|]. split.
  { intros ->. left. split; [done|]. exists err. done. }
  split; [destruct Hc; intros; lia|destruct Hc; intros; lia].
Qed.

(** The facts hold along every path of the route table. *)
Lemma route_trace (req : Request) : trace [] (route req) (route_facts req).
Proof.
  unfold route. cbv zeta.
  repeat (apply trace_if; intros _).
  - (* health *)
    unfold health. apply trace_query; [intros rows; apply trace_ret|intros e]; leaf_facts.
  - (* register *)
    unfold register.
    apply trace_lift; [intros name Hname|intros; leaf_facts].
    apply trace_lift; [intros email0 Hemail0|intros; leaf_facts].
    apply trace_lift; [intros password Hpassword|intros; leaf_facts].
    apply trace_if; intros Hreq; [apply trace_ret; leaf_facts|].
    apply orb_false_elim in Hreq as [Hreq Hpw]. apply orb_false_elim in Hreq as [Hn He].
    apply negb_false_iff in Hn, He, Hpw.
    apply trace_lift; [intros email Hemail|intros; leaf_facts].
    apply trace_if; intros Hvalid; [apply trace_ret; leaf_facts|].
    apply negb_false_iff in Hvalid.
    apply trace_if; intros Hlen; [apply trace_ret; leaf_facts|].
    apply trace_query; [intros existing|intros e; leaf_facts].
    destruct existing as [|row rows].
    2:{ apply trace_ret. leaf_facts. intros _. by eexists. }
    apply trace_lift; [intros h Hh|intros; leaf_facts].
    apply trace_lift; [intros avatar Havatar|intros; leaf_facts].
    assert (Hchecked : checked req (insert_user (sanitizeInput name) email (JStr h) avatar)).
    { cbn. split; [by exists name|]. split.
      - destruct email as [| | | |s| |]; try discriminate. by exists s.
      - exists (sanitizeInput password), h. split; [by exists password|]. done. }
    assert (Hlooked : looked_up [select_user_by_email email;
                                 insert_user (sanitizeInput name) email (JStr h) avatar]).
    { intros n e p a Hin.
      apply elem_of_cons in Hin as [Hin|Hin]; [discriminate|].
      apply elem_of_cons in Hin as [Hin|Hin]; [by injection Hin as -> -> -> ->|].
      by apply elem_of_nil in Hin. }
    apply trace_query; [intros result|intros e; leaf_facts].
    apply trace_lift; [intros userId HuserId|intros e _; leaf_facts].
    apply trace_ret. leaf_facts.
    intros _. by exists [select_user_by_email email],
                        (insert_user (sanitizeInput name) email (JStr h) avatar).
  - (* login *)
    unfold login.
    apply trace_lift; [intros email0 Hemail0|intros; leaf_facts].
    apply trace_lift; [intros password Hpassword|intros; leaf_facts].
    apply trace_if; intros Hreq; [apply trace_ret; leaf_facts|].
    apply trace_lift; [intros email Hemail|intros; leaf_facts].
    apply trace_query; [intros result|intros e; leaf_facts].
    destruct result as [|user rows].
    { apply trace_ret. leaf_facts. intros _. right. split; [by eexists|reflexivity]. }
    apply trace_lift; [intros valid Hvalid|intros; leaf_facts].
    apply trace_if; intros Hbad.
    { apply trace_ret. leaf_facts. intros _. right. split; [by eexists|reflexivity]. }
    apply trace_query; [intros ?; apply trace_ret|intros e]; leaf_facts.
  - (* GET /sessions *)
    unfold get_sessions. apply with_auth_trace. intros u Hu.
    assert (Hscoped : scoped req (select_sessions (get_field "id" u))) by (by exists u).
    apply trace_query; [intros rows; apply trace_ret|intros e]; leaf_facts; exact Hscoped.
  - (* POST /sessions *)
    unfold post_sessions. apply with_auth_trace. intros u Hu.
    apply trace_lift; [intros title Htitle|intros; leaf_facts].
    apply trace_lift; [intros description Hdescription|intros; leaf_facts].
    apply trace_lift; [intros subject Hsubject|intros; leaf_facts].
    apply trace_lift; [intros duration Hduration|intros; leaf_facts].
    apply trace_lift; [intros status Hstatus|intros; leaf_facts].
    apply trace_if; intros Hreq; [apply trace_ret; leaf_facts|].
    apply negb_false_iff in Hreq.
    match goal with
    | |- trace _ (bind (query ?q) _) _ =>
        assert (Hscoped : scoped req q) by (by exists u);
        assert (Hchecked : checked req q)
    end.
    { cbn. split; [by exists title|].
      destruct (parseInt duration) as [[|z|z]|]; eexists; (split; [reflexivity|]); lia. }
    apply trace_query; [intros result|intros e].
    2:{ leaf_facts; assumption. }
    apply trace_lift; [intros newId HnewId|intros e _].
    2:{ leaf_facts; assumption. }
    apply trace_ret. leaf_facts; try assumption.
    intros _. eexists [], _. split; reflexivity.
  - (* GET /notes *)
    unfold get_notes. apply with_auth_trace. intros u Hu.
    assert (Hscoped : scoped req (select_notes (get_field "id" u))) by (by exists u).
    apply trace_query; [intros rows; apply trace_ret|intros e]; leaf_facts; exact Hscoped.
  - (* POST /notes *)
    unfold post_notes. apply with_auth_trace. intros u Hu.
    apply trace_lift; [intros title Htitle|intros; leaf_facts].
    apply trace_lift; [intros content Hcontent|intros; leaf_facts].
    apply trace_lift; [intros category Hcategory|intros; leaf_facts].
    apply trace_if; intros Hreq; [apply trace_ret; leaf_facts|].
    apply orb_false_elim in Hreq as [Ht Hc]. apply negb_false_iff in Ht, Hc.
    match goal with
    | |- trace _ (bind (query ?q) _) _ =>
        assert (Hscoped : scoped req q) by (by exists u);
        assert (Hchecked : checked req q)
    end.
    { cbn. split; [by exists title|by exists content]. }
    apply trace_query; [intros result|intros e].
    2:{ leaf_facts; assumption. }
    apply trace_lift; [intros newId HnewId|intros e _].
    2:{ leaf_facts; assumption. }
    apply trace_ret. leaf_facts; try assumption.
    intros _. eexists [], _. split; reflexivity.
  - (* GET /stats/today *)
    unfold get_stats_today. apply with_auth_trace. intros u Hu.
    assert (Hscoped : scoped req (select_stats_today (get_field "id" u))) by (by exists u).
    apply trace_query; [intros rows; apply trace_ret|intros e]; leaf_facts; exact Hscoped.
  - (* 404 *)
    apply trace_ret. leaf_facts.
Qed.

(** The handler answers every request, and the facts of the route table
    hold for its response: an exception of the route becomes the 500
    response, with the statements sent until then. *)
Lemma handler_trace (req : Request) (st : HSt D) :
  exists r st' qs,
    handler req st = (Ok r, st')
    /\ queries st' = queries st ++ qs
    /\ route_facts req (Ok r) qs.
Proof.
  unfold handler. destruct (bool_decide (method req = lit "OPTIONS")).
  - exists (mkResponse 200 None), st, []. split; [reflexivity|]. split; [by rewrite app_nil_r|].
    leaf_facts.
  - destruct (route_trace req st) as (qs & Hqs & Hfacts). cbn [app] in Hfacts.
    unfold try_catch. destruct (route req st) as [[r|e] st']; cbn [fst snd] in *.
    + by exists r, st', qs.
    + eexists _, st', qs. split; [reflexivity|]. split; [exact Hqs|].
      destruct Hfacts as (H1 & H2 & H3 & H4 & _).
      unfold route_facts, answered. cbn [status].
      do 4 (split; [assumption|]). repeat split; intros; lia.
Qed.

(** X9. A response with a status from 400 to 499 was computed without
    writing anything: no [INSERT] and no [UPDATE] precedes it. The 400, 403
    and 404 responses are sent before any statement; a 409 response follows
    the one look-up of the e-mail. *)
Theorem client_errors_write_nothing (req : Request) (st : HSt D) :
  exists r st' qs,
    handler req st = (Ok r, st')
    /\ queries st' = queries st ++ qs
    /\ (400 <= status r < 500 ->
        Forall (fun q => is_write q = false) qs /\ (length qs <= 1)%nat)
    /\ (status r = 400 \/ status r = 403 \/ status r = 404 -> qs = [])
    /\ (status r = 409 -> exists e, qs = [select_user_by_email e]).
Proof.
  destruct (handler_trace req st) as (r & st' & qs & Hh & Hqs & _ & _ & _ & _ & Ha).
  destruct Ha as (H1 & H2 & _ & H4 & _).
  exists r, st', qs. done.
Qed.

(** X10. One invocation sends at most two statements and at most one write,
    and a write is the last statement sent, whether the handler answers 2xx,
    4xx or 500. A 201 response is sent only after a write. *)
Theorem one_write_per_request (req : Request) (st : HSt D) :
  exists r st' qs,
    handler req st = (Ok r, st')
    /\ queries st' = queries st ++ qs
    /\ (length qs <= 2)%nat
    /\ (exists rs, Forall (fun q => is_write q = false) rs
                   /\ (qs = rs \/ exists w, qs = rs ++ [w]))
    /\ (status r = 201 -> exists rs w, qs = rs ++ [w] /\ is_write w = true).
Proof.
  destruct (handler_trace req st) as (r & st' & qs & Hh & Hqs & _ & _ & Hrw & _ & Ha).
  destruct Ha as (_ & _ & _ & _ & H5).
  exists r, st', qs. do 2 (split; [assumption|]).
  split; [|split; [|exact H5]].
  - destruct qs as [|q1 [|q2 [|q3 qs]]]; cbn in *; first [lia | discriminate].
  - destruct qs as [|q1 [|q2 [|q3 qs]]]; cbn in Hrw; try discriminate.
    + exists []. split; [constructor|by left].
    + exists []. split; [constructor|]. right. by exists q1.
    + exists [q1]. split; [|right; by exists q2].
      constructor; [|constructor]. by apply negb_true_iff.
Qed.

(** X11. Every statement on the sessions, the notes and the statistics runs
    for the id carried by the verified token of the request: the handler
    never takes the user from the body or the URL. *)
Theorem statements_scoped (req : Request) (st : HSt D) :
  exists r st' qs,
    handler req st = (Ok r, st')
    /\ queries st' = queries st ++ qs
    /\ Forall (fun q =>
         match q with
         | select_sessions u | insert_session u _ _ _ _ _ | select_notes u
         | insert_note u _ _ _ | select_stats_today u =>
             exists user, authenticateToken req = auth_user user /\ u = get_field "id" user
         | _ => True
         end) qs.
Proof.
  destruct (handler_trace req st) as (r & st' & qs & Hh & Hqs & Hs & _).
  exists r, st', qs. done.
Qed.

(** X12. What has been checked before an [INSERT] is sent. A user is
    inserted right after the look-up of the same e-mail, with a name that
    was given, an e-mail that [validateEmail] accepts (after it was put in
    lower case) and the hash of a password that was given and, once
    sanitised, is not shorter than 6. A session is inserted with a title
    that was given and a duration that is a number other than 0. A note is
    inserted with a title and a content that were given. Given means truthy
    before [sanitizeInput]: a text of white space passes and is stored
    empty. *)
Theorem inserts_checked (req : Request) (st : HSt D) :
  let given k v :=
    exists v0, body_field k (body req) = Ok v0 /\ truthy v0 = true /\ v = sanitizeInput v0 in
  exists r st' qs,
    handler req st = (Ok r, st')
    /\ queries st' = queries st ++ qs
    /\ Forall (fun q =>
         match q with
         | insert_user n e p _ =>
             given "name"%string n
             /\ (exists s, e = JStr s /\ validateEmail s = true)
             /\ (exists pw h, given "password"%string pw /\ length_lt_6 pw = false
                              /\ bcrypt_hash pw = Ok h /\ p = JStr h)
             /\ qs = [select_user_by_email e; q]
         | insert_session _ t _ _ du _ =>
             given "title"%string t /\ (exists z, du = JNum z /\ z <> 0)
         | insert_note _ t c _ => given "title"%string t /\ given "content"%string c
         | _ => True
         end) qs.
Proof.
  cbv zeta.
  destruct (handler_trace req st) as (r & st' & qs & Hh & Hqs & _ & Hc & _ & Hl & _).
  exists r, st', qs. do 2 (split; [assumption|]).
  apply Forall_forall. intros q Hq.
  pose proof (proj1 (Forall_forall _ _) Hc q Hq) as Hcq.
  destruct q; try exact I; try exact Hcq.
  destruct Hcq as (Hn & He & Hp). do 3 (split; [assumption|]).
  by apply Hl.
Qed.

(** X13. There are two 401 responses and no other. One is the refusal of
    [authenticateToken], sent before any statement. The other is the failure
    of a login, and it is the same response, after the same single look-up,
    whether the e-mail is unknown or the password is wrong. *)
Theorem unauthorized_alike (req : Request) (st : HSt D) :
  exists r st' qs,
    handler req st = (Ok r, st')
    /\ queries st' = queries st ++ qs
    /\ (status r = 401 ->
        (qs = []
         /\ authenticateToken req = auth_error (lit "Access token required") 401
         /\ json r = Some (JObj [("error"%string, JStr (lit "Access token required"))]))
        \/ ((exists e, qs = [select_user_by_email e])
            /\ json r = Some (JObj [("error"%string, JStr (lit "Authentication failed"));
                                    ("message"%string, JStr (lit "Invalid email or password"))]))).
Proof.
  destruct (handler_trace req st) as (r & st' & qs & Hh & Hqs & _ & _ & _ & _ & Ha).
  destruct Ha as (_ & _ & H3 & _).
  exists r, st', qs. do 2 (split; [assumption|]).
  intros Hs. destruct (H3 Hs) as [(-> & err & Herr & ->)|(He & ->)].
  - left. split; [reflexivity|].
    assert (err = lit "Access token required") as ->.
    { revert Herr. unfold authenticateToken.
      destruct (match authorization req with
                | Some authHeader => nth_error (split_on 32 authHeader) 1
                | None => None
                end) as [[|x t]|].
      - by intros [= <-].
      - destruct (jwt_verify (x :: t)); [discriminate|]. intros [= _ H].
      - by intros [= <-]. }
    done.
  - right. done.
Qed.

End HandlerExtras.

(** * Texts: the separator, the e-mail pattern, the token and the entities *)

Section TextExtras.

Import ApiIndex SesiBelajar.

Local Open Scope N_scope.

Lemma split_on_not_nil (sep : N) (s : jsstring) : split_on sep s <> [].
Proof.
  induction s as [|c s IH]; cbn; [done|].
  destruct (c =? sep); [done|]. by destruct (split_on sep s).
Qed.

Lemma split_on_absent (sep : N) (s : jsstring) :
  Forall (fun c => c <> sep) s -> split_on sep s = [s].
Proof.
  induction 1 as [|c s Hc _ IH]; cbn; [done|].
  apply N.eqb_neq in Hc. by rewrite Hc, IH.
Qed.

Lemma split_on_app (sep : N) (a b : jsstring) :
  Forall (fun c => c <> sep) a -> split_on sep (a ++ sep :: b) = a :: split_on sep b.
Proof.
  induction 1 as [|c a Hc _ IH]; cbn.
  - by rewrite N.eqb_refl.
  - apply N.eqb_neq in Hc. by rewrite Hc, IH.
Qed.

(** The pieces of [split], joined by the separator, give the text back, and
    no piece holds the separator. *)
Lemma split_on_head (sep : N) (s w : jsstring) (ws : list jsstring) :
  split_on sep s = w :: ws ->
  Forall (fun c => c <> sep) w
  /\ match ws with
     | [] => s = w
     | _ :: _ => exists s', s = w ++ sep :: s' /\ split_on sep s' = ws
     end.
Proof.
  revert w ws. induction s as [|c s IH]; intros w ws; cbn.
  - intros [= <- <-]. done.
  - destruct (c =? sep) eqn:Hc.
    + apply N.eqb_eq in Hc as ->. intros [= <- <-]. split; [constructor|].
      pose proof (split_on_not_nil sep s). destruct (split_on sep s) eqn:Hs; [done|].
      exists s. done.
    + apply N.eqb_neq in Hc.
      destruct (split_on sep s) as [|w' ws'] eqn:Hs; [by destruct (split_on_not_nil sep s)|].
      intros [= <- <-]. destruct (IH w' ws' eq_refl) as [Hw Hrest].
      split; [by constructor|].
      destruct ws' as [|w2 ws2].
      * by rewrite Hrest.
      * destruct Hrest as (s' & -> & Hs'). exists s'. done.
Qed.

Lemma split_on_two (sep : N) (s a b : jsstring) :
  split_on sep s = [a; b]
  <-> s = a ++ sep :: b /\ Forall (fun c => c <> sep) a /\ Forall (fun c => c <> sep) b.
Proof.
  split.
  - intros Hs. apply split_on_head in Hs as [Ha (s' & -> & Hs')].
    apply split_on_head in Hs' as [Hb ->]. done.
  - intros (-> & Ha & Hb). rewrite split_on_app by done. by rewrite split_on_absent.
Qed.

Lemma dot_inside_spec (l : jsstring) :
  dot_inside l = true <-> exists pre post, l = pre ++ 46 :: post /\ post <> [].
Proof.
  induction l as [|c l IH]; cbn.
  - split; [done|]. intros (pre & post & H & _). by destruct pre.
  - destruct l as [|c' l'].
    + split; [done|]. intros (pre & post & H & Hpost).
      destruct pre as [|x [|y pre]]; cbn in H; injection H; intros; subst; done.
    + rewrite orb_true_iff, IH. split.
      * intros [Hc|(pre & post & -> & Hpost)].
        -- apply N.eqb_eq in Hc as ->. exists [], (c' :: l'). done.
        -- exists (c :: pre), post. done.
      * intros (pre & post & H & Hpost). destruct pre as [|x pre]; cbn in H.
        -- injection H as -> _. by left.
        -- injection H as -> H. right. exists pre, post. done.
Qed.

(** X14. [validateEmail] accepts exactly the texts that the pattern
    [^[^\s@]+@[^\s@]+\.[^\s@]+$] describes: three non-empty runs of
    characters that are neither white space nor [@], the first two joined by
    an [@] and the last two by a dot. *)
Theorem validateEmail_pattern (email : jsstring) :
  validateEmail email = true
  <-> exists a b c,
        email = a ++ [64] ++ b ++ [46] ++ c
        /\ a <> [] /\ b <> [] /\ c <> []
        /\ Forall (fun x => is_whitespace x = false /\ x <> 64) (a ++ b ++ c).
Proof.
  assert (Hclass : forall l, forallb not_space_at l = true
                             <-> Forall (fun x => is_whitespace x = false /\ x <> 64) l).
  { intros l. induction l as [|x l IH]; cbn; [split; [constructor|done]|].
    rewrite andb_true_iff, IH, Forall_cons. unfold not_space_at.
    rewrite andb_true_iff, !negb_true_iff, N.eqb_neq. done. }
  assert (Hat : forall l, Forall (fun x => is_whitespace x = false /\ x <> 64) l ->
                          Forall (fun c => c <> 64) l).
  { intros l H. eapply Forall_impl; [exact H|]. by intros x [_ Hx]. }
  unfold validateEmail. split.
  - destruct (split_on 64 email) as [|loc [|dom [|x ws]]] eqn:Hs; try discriminate.
    apply split_on_two in Hs as (-> & _ & _).
    rewrite !andb_true_iff, !Hclass. intros [[[Hne Hloc] Hdom] Hdot].
    destruct dom as [|c0 l]; [discriminate|].
    apply dot_inside_spec in Hdot as (pre & post & -> & Hpost).
    exists loc, (c0 :: pre), post. split; [reflexivity|].
    split; [by destruct loc|]. split; [done|]. split; [done|].
    apply Forall_app. split; [done|].
    change (c0 :: pre ++ 46 :: post) with ((c0 :: pre) ++ [46] ++ post) in Hdom.
    apply Forall_app in Hdom as [Hb Hc]. apply Forall_app in Hc as [_ Hc].
    apply Forall_app. done.
  - intros (a & b & c & -> & Ha & Hb & Hc & Hall).
    apply Forall_app in Hall as [Hfa Hall]. apply Forall_app in Hall as [Hfb Hfc].
    assert (Hdom : Forall (fun x => is_whitespace x = false /\ x <> 64) (b ++ [46] ++ c)).
    { apply Forall_app. split; [done|]. apply Forall_app. split; [|done].
      constructor; [|constructor]. split; [vm_compute; reflexivity|done]. }
    assert (Hs : split_on 64 (a ++ [64] ++ b ++ [46] ++ c) = [a; b ++ [46] ++ c]).
    { apply split_on_two. split; [done|]. split; by apply Hat. }
    rewrite Hs, !andb_true_iff, !Hclass. split; [split; [split|]|]; try done.
    + by destruct a.
    + destruct b as [|c0 pre]; [done|]. apply dot_inside_spec. exists pre, c. done.
Qed.

Section Token.

Context {D : Type} {R : Runtime D}.

Local Opaque lit.

(** X15. [authenticateToken] takes the second word of the header,
    whatever the first: the scheme is not compared with [Bearer]. The token
    is the text between the first space and the next one. An empty token, a
    header without a space and a missing header are answered 401; a token
    that [jwt.verify] rejects is answered 403; any other token gives the
    user it carries. *)
Theorem authenticateToken_second_word (m u : jsstring) (b : jsval)
    (scheme token rest : jsstring) :
  Forall (fun c => c <> 32) scheme ->
  Forall (fun c => c <> 32) token ->
  rest = [] \/ (exists rest', rest = 32 :: rest') ->
  authenticateToken (mkRequest m u (Some (scheme ++ [32] ++ token ++ rest)) b)
  = match token with
    | [] => auth_error (lit "Access token required") 401
    | _ :: _ =>
        match jwt_verify token with
        | Some user => auth_user user
        | None => auth_error (lit "Invalid token") 403
        end
    end
  /\ authenticateToken (mkRequest m u (Some scheme) b)
     = auth_error (lit "Access token required") 401
  /\ authenticateToken (mkRequest m u None b)
     = auth_error (lit "Access token required") 401.
Proof.
  intros Hscheme Htoken Hrest. unfold authenticateToken. cbn [authorization].
  split; [|split; [|reflexivity]].
  - change (scheme ++ [32] ++ token ++ rest) with (scheme ++ 32 :: (token ++ rest)).
    rewrite split_on_app by exact Hscheme.
    assert (Hsecond : exists ws, split_on 32 (token ++ rest) = token :: ws).
    { destruct Hrest as [-> | [rest' ->]].
      - rewrite app_nil_r, split_on_absent by exact Htoken. by eexists.
      - rewrite split_on_app by exact Htoken. by eexists. }
    destruct Hsecond as [ws ->]. cbn [nth_error]. by destruct token.
  - rewrite split_on_absent by exact Hscheme. reflexivity.
Qed.

End Token.

Lemma entity_cases (c : N) :
  ((c ∉ [38; 60; 62; 34; 39]) /\ entity c = [c])
  \/ (c = 38 /\ entity c = [38; 97; 109; 112; 59])
  \/ (c = 60 /\ entity c = [38; 108; 116; 59])
  \/ (c = 62 /\ entity c = [38; 103; 116; 59])
  \/ (c = 34 /\ entity c = [38; 113; 117; 111; 116; 59])
  \/ (c = 39 /\ entity c = [38; 35; 48; 51; 57; 59]).
Proof.
  unfold entity.
  destruct (N.eqb_spec c 38) as [->|H1]; [right; left; done|].
  destruct (N.eqb_spec c 60) as [->|H2]; [right; right; left; done|].
  destruct (N.eqb_spec c 62) as [->|H3]; [right; right; right; left; done|].
  destruct (N.eqb_spec c 34) as [->|H4]; [right; right; right; right; left; done|].
  destruct (N.eqb_spec c 39) as [->|H5]; [right; right; right; right; right; done|].
  left. split; [|reflexivity].
  rewrite !not_elem_of_cons. repeat split; try done. apply not_elem_of_nil.
Qed.

Lemma entity_inj (c1 c2 : N) (r1 r2 : jsstring) :
  entity c1 ++ r1 = entity c2 ++ r2 -> c1 = c2 /\ r1 = r2.
Proof.
  intros H.
  destruct (entity_cases c1) as [[H1 E1]|[[-> E1]|[[-> E1]|[[-> E1]|[[-> E1]|[-> E1]]]]]];
    destruct (entity_cases c2) as [[H2 E2]|[[-> E2]|[[-> E2]|[[-> E2]|[[-> E2]|[-> E2]]]]]];
    rewrite ?E1, ?E2 in H; cbn in H;
    try (injection H; intros; subst; try done;
         rewrite ?not_elem_of_cons in *; tauto).
Qed.

Lemma entity_length (c : N) :
  (1 <= length (entity c))%nat /\ (length (entity c) = 1%nat -> c ∉ [38; 60; 62; 34; 39]).
Proof.
  destruct (entity_cases c) as [[H1 E1]|[[-> E1]|[[-> E1]|[[-> E1]|[[-> E1]|[-> E1]]]]]];
    rewrite E1; cbn; split; try lia; try done.
Qed.

(** X16. [escapeHtml] loses nothing: two different texts have different
    escapes. It leaves a text as it is exactly when the text has none of the
    five characters; so escaping an escaped text changes it again, unless
    there was nothing to escape. *)
Theorem escapeHtml_injective (s1 s2 : jsstring) :
  (escapeHtml s1 = escapeHtml s2 -> s1 = s2)
  /\ (escapeHtml s1 = s1 <-> Forall (fun c => c ∉ [38; 60; 62; 34; 39]) s1)
  /\ (escapeHtml (escapeHtml s1) = escapeHtml s1 <-> escapeHtml s1 = s1).
Proof.
  assert (Hinj : forall a b, escapeHtml a = escapeHtml b -> a = b).
  { intros a. rewrite escapeHtml_entity.
    induction a as [|c1 a IH]; intros b; rewrite escapeHtml_entity; cbn [flat_map].
    - destruct b as [|c2 b]; [done|]. cbn [flat_map]. intros H.
      pose proof (proj1 (entity_length c2)) as Hlen.
      apply (f_equal length) in H. rewrite length_app in H. cbn in H. lia.
    - destruct b as [|c2 b]; cbn [flat_map].
      + intros H. pose proof (proj1 (entity_length c1)) as Hlen.
        apply (f_equal length) in H. rewrite length_app in H. cbn in H. lia.
      + intros H. apply entity_inj in H as [-> H]. f_equal. apply IH.
        by rewrite escapeHtml_entity. }
  assert (Hlen : forall a, (length a <= length (flat_map entity a))%nat).
  { induction a as [|c a IH]; cbn [flat_map]; [done|].
    rewrite length_app. pose proof (proj1 (entity_length c)). cbn. lia. }
  split; [apply Hinj|]. split.
  - rewrite escapeHtml_entity. split.
    + induction s1 as [|c s IH]; [constructor|]. cbn [flat_map]. intros H.
      pose proof (entity_length c) as [Hc1 Hc]. pose proof (Hlen s) as Hs.
      assert (Hl : length (entity c ++ flat_map entity s) = length (c :: s)) by by rewrite H.
      rewrite length_app in Hl. cbn in Hl.
      assert (Hone : length (entity c) = 1%nat) by lia.
      constructor; [by apply Hc|]. apply IH.
      destruct (entity_cases c) as [[_ E]|Hsp].
      * rewrite E in H. by injection H.
      * exfalso. destruct Hsp as [[_ E]|[[_ E]|[[_ E]|[[_ E]|[_ E]]]]];
          rewrite E in Hone; discriminate.
    + intros Hall. induction Hall as [|c s Hc Hs IH]; [done|]. cbn [flat_map]. rewrite IH.
      destruct (entity_cases c) as [[_ ->]|Hsp]; [done|]. exfalso. apply Hc.
      destruct Hsp as [[-> _]|[[-> _]|[[-> _]|[[-> _]|[-> _]]]]];
        rewrite !elem_of_cons; tauto.
  - split; [apply Hinj|]. intros H. congruence.
Qed.

End TextExtras.

(** * The session statements of class [Database] *)

Section DatabaseExtras.

Import SesiBelajar Database.

Lemma update_where_rows (i : Z) (u : Z) (f : Session -> Session) (pg : Pg) (P : SessionRow -> Prop)
    `{!forall r, Decision (P r)} :
  u <> 0 ->
  (forall r, P r -> user_id r <> u) ->
  (forall r g, P (mkRow (user_id r) g) <-> P r) ->
  filter P (study_sessions (update_where i (Some u) f pg)) = filter P (study_sessions pg).
Proof.
  intros Hu HP Hrow. unfold update_where. cbn [study_sessions].
  induction (study_sessions pg) as [|r l IH]; [reflexivity|].
  cbn [fmap list_fmap]. rewrite !filter_cons.
  destruct (decide (targets i (Some u) r)) as [Ht|Ht].
  - assert (Hno : ~ P r).
    { intros HPr. apply (HP r HPr). destruct Ht as [_ Ht]. cbn in Ht.
      apply Z.eqb_neq in Hu. by rewrite Hu in Ht. }
    destruct (decide (P (mkRow (user_id r) (f (row r))))) as [Hp|_];
      [by apply Hrow in Hp|].
    destruct (decide (P r)); [done|]. exact IH.
  - destruct (decide (P r)); [f_equal|]; exact IH.
Qed.

(** X17. A statement run for a user leaves the rows of every other user as
    they are, whatever id it names: [updateSession], [deleteSession],
    [startSession] and [completeSession] called with a [userId] other than 0
    carry [AND user_id = $n], and [createSession] adds a row of the user
    itself. What [getSessionsByUserId] returns to another user is unchanged. *)
Theorem other_users_untouched (u v : Z) (s : Statement) (pg : Pg) :
  u <> 0 ->
  v <> u ->
  filter (fun r => user_id r = v) (study_sessions (run u s pg))
  = filter (fun r => user_id r = v) (study_sessions pg)
  /\ getSessionsByUserId v (run u s pg) = getSessionsByUserId v pg.
Proof.
  intros Hu Hv.
  assert (Hrows : filter (fun r => user_id r = v) (study_sessions (run u s pg))
                  = filter (fun r => user_id r = v) (study_sessions pg)).
  { destruct s as [d|i d|i|i|i]; cbn [run].
    - cbn. rewrite filter_app, filter_cons, filter_nil. cbn.
      destruct (decide (u = v)); [congruence|]. by rewrite app_nil_r.
    - apply update_where_rows; [done|intros r ->; done|done].
    - unfold deleteSession. cbn [study_sessions].
      induction (study_sessions pg) as [|r l IH]; [reflexivity|].
      rewrite !filter_cons.
      destruct (decide (~ targets i (Some u) r)) as [Hn|Hn].
      + rewrite filter_cons. destruct (decide (user_id r = v)); [f_equal|]; exact IH.
      + destruct (decide (user_id r = v)) as [Hr|Hr]; [|exact IH].
        exfalso. apply Hn. intros [_ Ht]. cbn in Ht.
        apply Z.eqb_neq in Hu. rewrite Hu in Ht. congruence.
    - apply update_where_rows; [done|intros r ->; done|done].
    - apply update_where_rows; [done|intros r ->; done|done]. }
  split; [exact Hrows|]. unfold getSessionsByUserId. by rewrite Hrows.
Qed.

Lemma update_where_ids (i : Z) (userId : option Z) (f : Session -> Session) (pg : Pg) :
  (forall s, id (f s) = id s) ->
  (fun r => id (row r)) <$> study_sessions (update_where i userId f pg)
  = (fun r => id (row r)) <$> study_sessions pg.
Proof.
  intros Hf. unfold update_where. cbn [study_sessions]. rewrite <- list_fmap_compose.
  apply list_fmap_ext. intros _ r _. cbn. destruct (decide _); [apply Hf|reflexivity].
Qed.

Lemma update_where_keyed (i : Z) (userId : option Z) (f : Session -> Session) (pg : Pg) :
  (forall s, id (f s) = id s) -> keyed pg -> keyed (update_where i userId f pg).
Proof.
  intros Hf [Hnd Hlt]. split.
  - by rewrite update_where_ids.
  - unfold update_where. cbn [study_sessions study_sessions_id_seq]. apply Forall_fmap.
    eapply Forall_impl; [exact Hlt|]. intros r Hr. cbn.
    destruct (decide _); cbn; [rewrite Hf|]; exact Hr.
Qed.

Lemma elem_of_getSessionsByUserId (u : Z) (pg : Pg) (s : Session) :
  s ∈ getSessionsByUserId u pg <-> mkRow u s ∈ study_sessions pg.
Proof.
  unfold getSessionsByUserId, order_by_desc. rewrite list_elem_of_fmap. split.
  - intros (r & -> & Hr). rewrite merge_sort_Permutation in Hr.
    apply list_elem_of_filter in Hr as [<- Hr]. by destruct r.
  - intros Hr. exists (mkRow u s). split; [reflexivity|].
    rewrite merge_sort_Permutation. by apply list_elem_of_filter.
Qed.

(** X18. For statements that the table accepts: the ids of [study_sessions]
    stay distinct and below the sequence under every statement of the class;
    the id [createSession] returns is the one of no earlier row, and the
    session it names is then listed for its user with the title, the
    subject, the duration, the status and the description that were given
    and [created_at = NOW()]. *)
Theorem keys_stay_unique (users : list Z) (u : Z) (s : Statement) (d : SessionData) (pg : Pg) :
  keyed pg ->
  admitted users u s pg = true ->
  admitted users u (create d) pg = true ->
  keyed (run u s pg)
  /\ Forall (fun r => id (row r) <> (createSession u d pg).1) (study_sessions pg)
  /\ mkSession (createSession u d pg).1 (title d) (subject d) (duration d) (status d)
       (description d) None (Some (pg_now pg)) None None None None
     ∈ getSessionsByUserId u (createSession u d pg).2.
Proof.
  intros Hk _ _. pose proof Hk as [Hnd Hlt]. split; [|split].
  - destruct s as [d'|i d'|i|i|i]; cbn [run].
    + unfold createSession, keyed. cbn [snd study_sessions study_sessions_id_seq].
      rewrite fmap_app. cbn [fmap list_fmap row id]. split.
      * apply NoDup_app. split; [exact Hnd|]. split; [|apply NoDup_singleton].
        intros x Hx Hin. apply elem_of_cons in Hin as [->|Hin]; [|by apply elem_of_nil in Hin].
        apply list_elem_of_fmap in Hx as (r & Hr & Hin).
        pose proof (proj1 (Forall_forall _ _) Hlt r Hin) as Hlt'. cbn in Hlt'. lia.
      * apply Forall_app. split.
        -- eapply Forall_impl; [exact Hlt|]. cbn. intros; lia.
        -- constructor; [cbn; lia|constructor].
    + by apply update_where_keyed.
    + unfold deleteSession, keyed. cbn [study_sessions study_sessions_id_seq].
      pose proof (sublist_filter (fun r => ~ targets i (Some u) r) (study_sessions pg)) as Hsub.
      split.
      * eapply sublist_NoDup; [exact Hnd|]. by apply fmap_sublist.
      * apply Forall_forall. intros r Hr. apply list_elem_of_filter in Hr as [_ Hr].
        exact (proj1 (Forall_forall _ _) Hlt r Hr).
    + by apply update_where_keyed.
    + by apply update_where_keyed.
  - eapply Forall_impl; [exact Hlt|]. cbn. intros; lia.
  - apply elem_of_getSessionsByUserId. cbn. apply elem_of_app. right. by left.
Qed.

(** X19. After [deleteSession] for a user, the user's list is the one
    before without the sessions of that id: nothing else has left it and
    nothing has come in. *)
Theorem delete_then_list (u i : Z) (pg : Pg) (s : Session) :
  u <> 0 ->
  s ∈ getSessionsByUserId u (deleteSession i (Some u) pg)
  <-> s ∈ getSessionsByUserId u pg /\ id s <> i.
Proof.
  intros Hu. rewrite !elem_of_getSessionsByUserId.
  unfold deleteSession. cbn [study_sessions]. rewrite list_elem_of_filter.
  unfold targets. cbn [row user_id]. apply Z.eqb_neq in Hu. rewrite Hu.
  split.
  - intros [Hn Hin]. split; [exact Hin|]. intros Hi. apply Hn. done.
  - intros [Hin Hi]. split; [|exact Hin]. intros [Hi' _]. done.
Qed.

(** X20. [startSession] and [completeSession] have no condition on the
    status a session has: after them the user's sessions of that id are in
    progress, or completed, with the instant of the statement, whatever
    they were before, a completed session included; the sessions of another
    id are listed as they were, and no session appears or disappears. *)
Theorem transition_then_list (u i : Z) (pg : Pg) (s' : Session) :
  u <> 0 ->
  (s' ∈ getSessionsByUserId u (startSession i (Some u) pg)
   <-> exists s, s ∈ getSessionsByUserId u pg
                 /\ s' = if decide (id s = i)
                         then set_started_at (pg_now pg) (set_status inprogress s) else s)
  /\ (s' ∈ getSessionsByUserId u (completeSession i (Some u) pg)
      <-> exists s, s ∈ getSessionsByUserId u pg
                    /\ s' = if decide (id s = i)
                            then set_completed_at (pg_now pg) (set_status completed s) else s).
Proof.
  intros Hu.
  assert (Hgen : forall f,
    s' ∈ getSessionsByUserId u (update_where i (Some u) f pg)
    <-> exists s, s ∈ getSessionsByUserId u pg /\ s' = if decide (id s = i) then f s else s).
  { intros f. rewrite elem_of_getSessionsByUserId. unfold update_where. cbn [study_sessions].
    rewrite list_elem_of_fmap. apply Z.eqb_neq in Hu. split.
    - intros ([ur sr] & Hr & Hin). exists sr.
      destruct (decide (targets i (Some u) (mkRow ur sr))) as [[Hi _]|Hn];
        cbn [row user_id] in *; injection Hr as <- ->.
      + split; [by apply elem_of_getSessionsByUserId|]. by rewrite decide_True.
      + split; [by apply elem_of_getSessionsByUserId|].
        rewrite decide_False; [done|].
        intros Hi. apply Hn. split; [exact Hi|]. cbn. by rewrite Hu.
    - intros (s & Hs & ->). apply elem_of_getSessionsByUserId in Hs.
      exists (mkRow u s). split; [|exact Hs]. cbn [row user_id].
      destruct (decide (id s = i)) as [Hi|Hi].
      + rewrite decide_True; [done|]. split; [exact Hi|]. cbn. by rewrite Hu.
      + rewrite decide_False; [done|]. by intros [? _]. }
  split; apply Hgen.
Qed.

End DatabaseExtras.

(** * The transactions of class [Database] *)

Section TransactionExtras.

Import Transaction.

Context {K : Type} {P : Pool K} {A : Type}.

(** X21. The protocol of [transaction], step by step; [c], [b], [k] and [m]
    are what [pool.connect], BEGIN, the callback and COMMIT do, each in the
    state the one before has left. When [pool.connect] throws, the call
    rejects with that error and nothing else is done. Otherwise the first of
    BEGIN, the callback and COMMIT that throws ends the attempt: no later
    step is run, ROLLBACK is sent in the state that step has left, the
    client is released, and the call rejects with the error of ROLLBACK when
    that throws too and with the error caught otherwise. When none throws
    the client is released and the call resolves with the result of the
    callback. In every case after a connection the release is the last event
    and the only release. *)
Theorem transaction_protocol (cb : K -> outcome A * K) (st : TSt K) :
  let c := pool_connect (pool st) in
  let b := client_query BEGIN c.2 in
  let k := cb b.2 in
  let m := client_query COMMIT k.2 in
  let rolled_back (e : jsstring) (x : K) (done : list Event) : outcome A * TSt K :=
    let r := client_query ROLLBACK x in
    (Throw match r.1 with Ok _ => e | Throw e' => e' end,
     mkTSt r.2 (events st ++ done ++ [query ROLLBACK; release])) in
  (forall e, c.1 = Throw e ->
     transaction cb st = (Throw e, mkTSt c.2 (events st ++ [connect])))
  /\ (forall e, c.1 = Ok tt -> b.1 = Throw e ->
      transaction cb st = rolled_back e b.2 [connect; query BEGIN])
  /\ (forall e, c.1 = Ok tt -> b.1 = Ok tt -> k.1 = Throw e ->
      transaction cb st = rolled_back e k.2 [connect; query BEGIN; callback])
  /\ (forall a e, c.1 = Ok tt -> b.1 = Ok tt -> k.1 = Ok a -> m.1 = Throw e ->
      transaction cb st
      = rolled_back e m.2 [connect; query BEGIN; callback; query COMMIT])
  /\ (forall a, c.1 = Ok tt -> b.1 = Ok tt -> k.1 = Ok a -> m.1 = Ok tt ->
      transaction cb st
      = (Ok a, mkTSt m.2 (events st ++ [connect; query BEGIN; callback; query COMMIT;
                                        release])))
  /\ (forall a, (transaction cb st).1 = Ok a <->
                c.1 = Ok tt /\ b.1 = Ok tt /\ k.1 = Ok a /\ m.1 = Ok tt)
  /\ (c.1 = Ok tt ->
      exists evs, events (transaction cb st).2 = events st ++ evs
                  /\ last evs = Some release
                  /\ filter (fun ev => ev = release) evs = [release]
                  /\ (callback ∈ evs <-> b.1 = Ok tt)
                  /\ (query COMMIT ∈ evs <-> b.1 = Ok tt /\ exists a, k.1 = Ok a)
                  /\ (query ROLLBACK ∈ evs <-> forall a, (transaction cb st).1 <> Ok a)).
Proof.
  cbv zeta. unfold transaction, try_finally, try_catch, bind, step, ret, throw.
  cbn [pool events fst snd].
  destruct (pool_connect (pool st)) as [[[]|e0] k0]; cbn [fst snd pool events];
    [destruct (client_query BEGIN k0) as [[[]|e1] k1]; cbn [fst snd pool events];
       [destruct (cb k1) as [[a|e2] k2]; cbn [fst snd pool events];
          [destruct (client_query COMMIT k2) as [[[]|e3] k3]; cbn [fst snd pool events];
             [|destruct (client_query ROLLBACK k3) as [[[]|e4] k4];
               cbn [fst snd pool events]]
          |destruct (client_query ROLLBACK k2) as [[[]|e3] k3]; cbn [fst snd pool events]]
       |destruct (client_query ROLLBACK k1) as [[[]|e2] k2]; cbn [fst snd pool events]]
    |];
    rewrite <- ?app_assoc; cbn [app];
    (do 5 (split; [intros; simplify_eq; reflexivity|]));
    (split; [intros ?; split; [intros ?|intros (? & ? & ? & ?)]; simplify_eq; done|]);
    intros ?; simplify_eq; eexists; (split; [reflexivity|]);
    (split; [reflexivity|]); (split; [vm_compute; reflexivity|]);
    (split; [|split]); (split; intros H);
    first [ apply (bool_decide_unpack _); vm_compute; exact I
          | exfalso; repeat (apply elem_of_cons in H as [H|H]; [discriminate H|]);
            by apply elem_of_nil in H
          | discriminate H
          | lazymatch type of H with
            | _ /\ _ => destruct H as [Hb [a' Hk]]; first [discriminate Hb | discriminate Hk]
            end
          | split; [reflexivity|by eexists]
          | reflexivity
          | intros ?; discriminate
          | exfalso; by eapply H ].
Qed.

End TransactionExtras.

(** * The daily statistics of class [Database] *)

Section StatsExtras.

Import StudyStats.

Local Abbreviation key := (fun r : Stats => (user_id r, date r)).
Local Abbreviation totals :=
  (fun r : Stats => (total_sessions r, total_minutes r, completed_sessions r)).

Lemma add_session_key m c : keeps_key (add_session m c).
Proof. by intros r. Qed.

Lemma set_streak_days_key v : keeps_key (set_streak_days v).
Proof. by intros r. Qed.

Lemma updated_keys (u d : Z) (f : Stats -> Stats) (l : list Stats) :
  keeps_key f -> key <$> updated u d f l = key <$> l.
Proof.
  intros Hf. unfold updated. rewrite <- list_fmap_compose.
  apply list_fmap_ext. intros _ r _. cbn.
  destruct (decide (on u d r)); [|reflexivity]. destruct (Hf r) as [-> ->]. reflexivity.
Qed.

Lemma rows_on_updated_same (u d : Z) (f : Stats -> Stats) (l : list Stats) :
  keeps_key f -> rows_on u d (updated u d f l) = f <$> rows_on u d l.
Proof.
  intros Hf. unfold rows_on, updated.
  induction l as [|r l IH]; [reflexivity|]. cbn [fmap list_fmap]. rewrite !filter_cons.
  destruct (decide (on u d r)) as [Hr|Hr].
  - rewrite decide_True; [cbn; f_equal; exact IH|].
    destruct Hr as [Hu Hd]. destruct (Hf r) as [Hu' Hd']. split; congruence.
  - rewrite decide_False by done. exact IH.
Qed.

Lemma rows_on_updated_other (u d v e : Z) (f : Stats -> Stats) (l : list Stats) :
  keeps_key f -> v <> u \/ e <> d ->
  rows_on v e (updated u d f l) = rows_on v e l.
Proof.
  intros Hf Hne. unfold rows_on, updated.
  induction l as [|r l IH]; [reflexivity|]. cbn [fmap list_fmap]. rewrite !filter_cons.
  destruct (decide (on u d r)) as [[Hu Hd]|Hr].
  - destruct (Hf r) as [Hu' Hd'].
    rewrite !decide_False; [exact IH| |]; intros [? ?]; destruct Hne; congruence.
  - destruct (decide (on v e r)); [f_equal|]; exact IH.
Qed.

Lemma rows_on_unique (u d : Z) (l : list Stats) :
  one_row_a_day l -> rows_on u d l = [] \/ exists r, rows_on u d l = [r].
Proof.
  unfold one_row_a_day, rows_on. induction l as [|r l IH]; [by left|].
  cbn [fmap list_fmap]. intros Hnd. apply NoDup_cons in Hnd as [Hr Hnd].
  rewrite filter_cons. destruct (decide (on u d r)) as [[Hu Hd]|Hn]; [|by apply IH].
  right. exists r. f_equal.
  destruct (filter (on u d) l) as [|r' l'] eqn:Hf; [reflexivity|]. exfalso. apply Hr.
  assert (Hin : r' ∈ filter (on u d) l) by (rewrite Hf; by left).
  apply list_elem_of_filter in Hin as [[Hu' Hd'] Hin].
  apply list_elem_of_fmap. exists r'. split; [congruence|exact Hin].
Qed.

Lemma rows_on_nil (u d : Z) (l : list Stats) :
  rows_on u d l = [] -> (u, d) ∉ key <$> l.
Proof.
  intros Hs Hin. apply list_elem_of_fmap in Hin as (r & [= Hu Hd] & Hr).
  assert (Hsel : r ∈ rows_on u d l) by (by apply list_elem_of_filter).
  rewrite Hs in Hsel. by apply elem_of_nil in Hsel.
Qed.

Lemma rows_on_user (u d : Z) (l : list Stats) (r : Stats) :
  r ∈ rows_on u d l -> r ∈ l /\ user_id r = u /\ date r = d.
Proof. intros Hr. apply list_elem_of_filter in Hr as [[Hu Hd] Hr]. done. Qed.

Lemma streaked_keys (ds : Dates) (u : Z) (l : list Stats) :
  key <$> streaked ds u l = key <$> l.
Proof.
  unfold streaked. destruct (rows_on u (yesterday ds) l) as [|r l']; [reflexivity|].
  destruct (0 <? streak_days r); [|reflexivity].
  apply updated_keys, set_streak_days_key.
Qed.



Lemma streaked_started (ds : Dates) (u : Z) (l : list Stats) :
  streaks_started l -> streaks_started (streaked ds u l).
Proof.
  intros Hs. unfold streaked.
  destruct (rows_on u (yesterday ds) l) as [|r l']; [exact Hs|].
  destruct (0 <? streak_days r) eqn:Hpos; [|exact Hs].
  apply Z.ltb_lt in Hpos. unfold updated, streaks_started. apply Forall_fmap.
  eapply Forall_impl; [exact Hs|]. intros r' Hr'. cbn in *.
  destruct (decide _); unfold set_streak_days; cbn; lia.
Qed.

Lemma counted_keys (ds : Dates) (u minutes : Z) (c : bool) (l : list Stats) :
  key <$> counted ds u minutes c l
  = (key <$> l) ++ match rows_on u (today ds) l with
                   | [] => [(u, today ds)]
                   | _ :: _ => []
                   end.
Proof.
  unfold counted. destruct (rows_on u (today ds) l) as [|r l'].
  - by rewrite fmap_app.
  - rewrite app_nil_r. apply updated_keys, add_session_key.
Qed.

Lemma counted_unique (ds : Dates) (u minutes : Z) (c : bool) (l : list Stats) :
  one_row_a_day l -> one_row_a_day (counted ds u minutes c l).
Proof.
  intros Hnd. unfold one_row_a_day. rewrite counted_keys.
  destruct (rows_on u (today ds) l) as [|r l'] eqn:Hsel.
  - apply NoDup_app. split; [exact Hnd|]. split; [|apply NoDup_singleton].
    intros x Hx Hin. apply elem_of_cons in Hin as [->|Hin]; [|by apply elem_of_nil in Hin].
    by apply (rows_on_nil _ _ _ Hsel).
  - by rewrite app_nil_r.
Qed.

Lemma counted_started (ds : Dates) (u minutes : Z) (c : bool) (l : list Stats) :
  streaks_started l -> streaks_started (counted ds u minutes c l).
Proof.
  intros Hs. unfold counted. destruct (rows_on u (today ds) l) as [|r l'].
  - apply Forall_app. split; [exact Hs|]. constructor; [cbn; lia|constructor].
  - unfold updated, streaks_started. apply Forall_fmap.
    eapply Forall_impl; [exact Hs|]. intros r' Hr'. cbn. by destruct (decide _).
Qed.

Lemma counted_other (ds : Dates) (u minutes v d : Z) (c : bool) (l : list Stats) :
  v <> u \/ d <> today ds ->
  rows_on v d (counted ds u minutes c l) = rows_on v d l.
Proof.
  intros Hne. unfold counted. destruct (rows_on u (today ds) l) as [|r l'].
  - unfold rows_on. rewrite filter_app, filter_cons, decide_False, filter_nil, app_nil_r;
      [reflexivity|]. intros [? ?]. cbn in *. destruct Hne; congruence.
  - by rewrite rows_on_updated_other by (apply add_session_key || exact Hne).
Qed.

(** The row of the user for today after the first statement that
    [updateStudyStats] writes with. *)
Lemma today_row (ds : Dates) (u minutes : Z) (c : bool) (l : list Stats) :
  one_row_a_day l ->
  rows_on u (today ds) (counted ds u minutes c l)
  = [match rows_on u (today ds) l with
     | r :: _ => add_session minutes (if c then 1 else 0) r
     | [] => mkStats u (today ds) 1 minutes (if c then 1 else 0) 1
     end].
Proof.
  intros Hnd. unfold counted.
  destruct (rows_on_unique u (today ds) l Hnd) as [Hs|[r Hs]]; rewrite Hs.
  - unfold rows_on in *. rewrite filter_app, Hs, filter_cons, decide_True by done.
    reflexivity.
  - rewrite rows_on_updated_same by apply add_session_key. by rewrite Hs.
Qed.

(** The streak of today's row once both statements have run, when the
    database and the JavaScript clock agree on today. *)
Lemma streak_after (ds : Dates) (u minutes : Z) (c : bool) (l : list Stats) :
  CURRENT_DATE ds = today ds ->
  yesterday ds <> today ds ->
  one_row_a_day l ->
  rows_on u (yesterday ds) (streaked ds u (counted ds u minutes c l))
  = rows_on u (yesterday ds) l
  /\ streak_days <$> rows_on u (today ds) (streaked ds u (counted ds u minutes c l))
     = [let before := match rows_on u (today ds) l with
                      | r :: _ => streak_days r
                      | [] => 1
                      end in
        match rows_on u (yesterday ds) l with
        | r :: _ => if 0 <? streak_days r then streak_days r + 1 else before
        | [] => before
        end].
Proof.
  intros Hcd Hy Hnd.
  set (l1 := counted ds u minutes c l).
  assert (Hyes : rows_on u (yesterday ds) l1 = rows_on u (yesterday ds) l)
    by (apply counted_other; by right).
  assert (Htoday : streak_days <$> rows_on u (today ds) l1
                   = [match rows_on u (today ds) l with
                      | r :: _ => streak_days r
                      | [] => 1
                      end]).
  { unfold l1. rewrite today_row by exact Hnd. by destruct (rows_on u (today ds) l). }
  unfold streaked. rewrite Hyes, Hcd. cbv zeta.
  destruct (rows_on u (yesterday ds) l) as [|r l']; [done|].
  destruct (0 <? streak_days r); [|done]. split.
  - rewrite rows_on_updated_other; [exact Hyes|apply set_streak_days_key|by right].
  - rewrite rows_on_updated_same by apply set_streak_days_key.
    rewrite <- list_fmap_compose.
    destruct (rows_on u (today ds) l1) as [|r1 [|r2 l2]]; try discriminate. reflexivity.
Qed.

Lemma max_date_in (l : list Stats) :
  l <> [] -> exists d r, max_date l = Some d /\ r ∈ l /\ date r = d.
Proof.
  induction l as [|r l IH]; [done|]. intros _. cbn [max_date foldr].
  destruct l as [|r' l'].
  - cbn. exists (date r), r. split; [done|]. split; [by left|done].
  - destruct IH as (d & r0 & Hmax & Hin & Hd); [done|].
    unfold max_date in Hmax. rewrite Hmax.
    destruct (Z.max_spec (date r) d) as [[_ ->]|[_ ->]].
    + exists d, r0. split; [done|]. split; [by right|done].
    + exists (date r), r. split; [done|]. split; [by left|done].
Qed.

Lemma forallb_no_check (l : list Stats) : forallb (fun _ => true) l = true.
Proof. by induction l. Qed.

Lemma accepted_inv (u minutes : Z) (t : Tables) :
  accepted u minutes t = true ->
  int32 u = true /\ int32 minutes = true /\ u ∈ users t
  /\ int32 (study_stats_id_seq t) = true
  /\ Forall (fun r => user_id r = u ->
               room_for minutes 0 r = true /\ room_for minutes 1 r = true
               /\ int32 (streak_days r + 1) = true) (study_stats t).
Proof.
  unfold accepted. rewrite !andb_true_iff, bool_decide_eq_true, forallb_forall.
  intros [[[[Hu Hm] Hin] Hseq] Hall]. repeat (split; [done|]).
  apply Forall_forall. intros r Hr Hur. apply list_elem_of_In, Hall in Hr.
  rewrite orb_true_iff, negb_true_iff, bool_decide_eq_false, !andb_true_iff in Hr.
  destruct Hr as [Hne|[[H0 H1] Hs]]; done.
Qed.

(** What one run of [updateStreak] can leave, and when it goes through. *)
Lemma updateStreak_cases (ds : Dates) (u : Z) (t : Tables) :
  let r := updateStreak ds u t in
  users r.2 = users t
  /\ (study_stats r.2 = study_stats t \/ study_stats r.2 = streaked ds u (study_stats t))
  /\ (r.1 = Ok tt -> study_stats r.2 = streaked ds u (study_stats t))
  /\ (int32 u = true ->
      Forall (fun r => user_id r = u -> int32 (streak_days r + 1) = true) (study_stats t) ->
      r.1 = Ok tt).
Proof.
  cbv zeta. unfold updateStreak, streaked, select_on, update_on, parameter, bind, get, ret.
  destruct (int32 u) eqn:Hu; cbn; [|repeat split; auto; discriminate].
  destruct (rows_on u (yesterday ds) (study_stats t)) as [|r l] eqn:Hsel; cbn;
    [repeat split; auto|].
  destruct (0 <? streak_days r) eqn:Hpos; cbn; [|repeat split; auto].
  destruct (int32 (streak_days r + 1)) eqn:Hn; cbn; rewrite ?Hu; cbn.
  - rewrite forallb_no_check. cbn. repeat split; auto.
  - split; [done|]. split; [by left|]. split; [discriminate|]. intros _ Hall.
    assert (Hr : r ∈ rows_on u (yesterday ds) (study_stats t)) by (rewrite Hsel; by left).
    apply rows_on_user in Hr as (Hr & Hur & _).
    pose proof (proj1 (Forall_forall _ _) Hall r Hr Hur) as Hok. congruence.
Qed.

(** What one run of [updateStudyStats] can leave: the rows as they were,
    the rows after its first writing statement, or the rows after both; the
    last when it returns, and it returns on what [accepted] admits. *)
Lemma updateStudyStats_cases (ds : Dates) (u minutes : Z) (c : bool) (t : Tables) :
  let r := updateStudyStats ds u minutes c t in
  let l := study_stats t in
  users r.2 = users t
  /\ (study_stats r.2 = l
      \/ study_stats r.2 = counted ds u minutes c l
      \/ study_stats r.2 = streaked ds u (counted ds u minutes c l))
  /\ (r.1 = Ok tt ->
      int32 u = true /\ int32 minutes = true
      /\ forallb (room_for minutes (if c then 1 else 0)) (rows_on u (today ds) l) = true
      /\ study_stats r.2 = streaked ds u (counted ds u minutes c l))
  /\ (accepted u minutes t = true -> r.1 = Ok tt).
Proof.
  cbv zeta.
  assert (Hacc : accepted u minutes t = true ->
                 int32 u = true /\ int32 minutes = true /\ u ∈ users t
                 /\ int32 (study_stats_id_seq t) = true
                 /\ forallb (room_for minutes (if c then 1 else 0))
                      (rows_on u (today ds) (study_stats t)) = true
                 /\ Forall (fun r => user_id r = u -> int32 (streak_days r + 1) = true)
                      (counted ds u minutes c (study_stats t))).
  { intros Ha. apply accepted_inv in Ha as (Hu & Hm & Hin & Hseq & Hall).
    repeat (split; [done|]). split.
    - apply forallb_forall. intros r Hr. apply list_elem_of_In, rows_on_user in Hr as (Hr & Hur & _).
      destruct (proj1 (Forall_forall _ _) Hall r Hr Hur) as (H0 & H1 & _). by destruct c.
    - unfold counted. destruct (rows_on u (today ds) (study_stats t)) as [|r0 l0].
      + apply Forall_app. split.
        * eapply Forall_impl; [exact Hall|]. intros r Hr Hur. by destruct (Hr Hur) as (_ & _ & ?).
        * constructor; [|constructor]. intros _. reflexivity.
      + unfold updated. apply Forall_fmap. eapply Forall_impl; [exact Hall|].
        intros r Hr. cbn. destruct (decide (on u (today ds) r)) as [[Hur _]|_].
        * intros _. cbn. by destruct (Hr Hur) as (_ & _ & ?).
        * intros Hur. by destruct (Hr Hur) as (_ & _ & ?). }
  pose (P := fun r : outcome unit * Tables =>
          users r.2 = users t
          /\ (study_stats r.2 = study_stats t
              \/ study_stats r.2 = counted ds u minutes c (study_stats t)
              \/ study_stats r.2 = streaked ds u (counted ds u minutes c (study_stats t)))
          /\ (r.1 = Ok tt ->
              int32 u = true /\ int32 minutes = true
              /\ forallb (room_for minutes (if c then 1 else 0))
                   (rows_on u (today ds) (study_stats t)) = true
              /\ study_stats r.2
                 = streaked ds u (counted ds u minutes c (study_stats t)))).
  assert (Hstop : forall (e : jsstring) (t0 : Tables),
            users t0 = users t -> study_stats t0 = study_stats t -> P (Throw e, t0))
    by (intros e t0 H1 H2; split; [exact H1|]; split; [by left|]; discriminate).
  assert (Hnext : forall t1 : Tables,
            int32 u = true -> int32 minutes = true ->
            forallb (room_for minutes (if c then 1 else 0))
              (rows_on u (today ds) (study_stats t)) = true ->
            users t1 = users t ->
            study_stats t1 = counted ds u minutes c (study_stats t) ->
            P (updateStreak ds u t1)
            /\ (accepted u minutes t = true -> (updateStreak ds u t1).1 = Ok tt)).
  { intros t1 Hu Hm Hroom Hus Hrows.
    destruct (updateStreak_cases ds u t1) as (H1 & H2 & H3 & H4). cbv zeta in *.
    rewrite Hrows in *. split; [split; [congruence|]; split; [destruct H2; auto|]; auto|].
    intros Ha. apply H4; [exact Hu|].
    by apply Hacc in Ha as (_ & _ & _ & _ & _ & ?). }
  enough (Hgoal : P (updateStudyStats ds u minutes c t)
                  /\ (accepted u minutes t = true
                      -> (updateStudyStats ds u minutes c t).1 = Ok tt)).
  { destruct Hgoal as [(H1 & H2 & H3) H4]. done. }
  remember (updateStudyStats ds u minutes c t) as r eqn:Hr.
  unfold updateStudyStats, select_on, update_on, insert_stats, parameter, bind, get, ret in Hr.
  unfold counted in Hnext |- *.
  destruct (int32 u) eqn:Hu; cbn -[updateStreak streaked accepted] in Hr.
  2: { subst r. split; [by apply Hstop|].
       intros Ha. apply Hacc in Ha as (? & _). congruence. }
  destruct (rows_on u (today ds) (study_stats t)) as [|r0 l0] eqn:Hsel;
    cbn -[updateStreak streaked accepted] in Hr.
  - destruct (int32 minutes) eqn:Hm; cbn -[updateStreak streaked accepted] in Hr.
    2: { subst r. split; [by apply Hstop|].
         intros Ha. apply Hacc in Ha as (_ & ? & _). congruence. }
    destruct (int32 (study_stats_id_seq t)) eqn:Hseq;
      cbn -[updateStreak streaked accepted] in Hr.
    2: { subst r. split; [by apply Hstop|].
         intros Ha. apply Hacc in Ha as (_ & _ & _ & ? & _). congruence. }
    rewrite bool_decide_eq_false_2 in Hr.
    2: { intros Hex. apply Exists_exists in Hex as (r' & Hr' & Hon).
         assert (Hin : r' ∈ rows_on u (today ds) (study_stats t))
           by (by apply list_elem_of_filter).
         rewrite Hsel in Hin. by apply elem_of_nil in Hin. }
    destruct (bool_decide (u ∈ users t)) eqn:Hin;
      cbn -[updateStreak streaked accepted] in Hr; subst r.
    + by apply Hnext.
    + split; [by apply Hstop|].
      intros Ha. apply Hacc in Ha as (_ & _ & Hu' & _).
      apply bool_decide_eq_false in Hin. done.
  - destruct (int32 minutes) eqn:Hm; cbn -[updateStreak streaked accepted] in Hr.
    2: { subst r. split; [by apply Hstop|].
         intros Ha. apply Hacc in Ha as (_ & ? & _). congruence. }
    rewrite ?Hu, ?Hsel in Hr. cbn -[updateStreak streaked accepted forallb] in Hr.
    destruct (forallb _ (r0 :: l0)) eqn:Hroom;
      cbn -[updateStreak streaked accepted] in Hr; subst r.
    + by apply Hnext.
    + split; [by apply Hstop|]. intros Ha.
      apply Hacc in Ha as (_ & _ & _ & _ & Ha & _). congruence.
Qed.

(** X22. [updateStudyStats] keeps [UNIQUE(user_id, date)], whatever the
    database answers. The [INSERT] is sent only when the user has no row for
    today, so the table gains that one row or none, no two rows are of the
    same user and day, and [users] is as it was; this holds also when a
    statement is refused and the call throws. When the call returns, the
    key of today's row is in the table: the old keys followed by the new
    one if the user had no row. Every streak stays at least 1 when it was so
    before. The call returns when the user exists and the numbers fit
    [INTEGER] ([accepted]). *)
Theorem stats_rows_unique (ds : Dates) (u minutes : Z) (c : bool) (t : Tables) :
  one_row_a_day (study_stats t) ->
  let r := updateStudyStats ds u minutes c t in
  let keys := (fun r => (user_id r, date r)) <$> study_stats t in
  let gained := match rows_on u (today ds) (study_stats t) with
                | [] => [(u, today ds)]
                | _ :: _ => []
                end in
  users r.2 = users t
  /\ one_row_a_day (study_stats r.2)
  /\ ((fun r => (user_id r, date r)) <$> study_stats r.2 = keys
      \/ (fun r => (user_id r, date r)) <$> study_stats r.2 = keys ++ gained)
  /\ (r.1 = Ok tt ->
      (fun r => (user_id r, date r)) <$> study_stats r.2 = keys ++ gained
      /\ (u, today ds) ∈ (fun r => (user_id r, date r)) <$> study_stats r.2)
  /\ (streaks_started (study_stats t) -> streaks_started (study_stats r.2))
  /\ (accepted u minutes t = true -> r.1 = Ok tt).
Proof.
  intros Hnd. cbv zeta.
  destruct (updateStudyStats_cases ds u minutes c t) as (Hus & Hrows & Hok & Hacc).
  cbv zeta in *.
  pose proof (counted_keys ds u minutes c (study_stats t)) as Hkeys.
  pose proof (counted_unique ds u minutes c (study_stats t) Hnd) as Hnd1.
  split; [exact Hus|]. split; [|split; [|split; [|split; [|exact Hacc]]]].
  - destruct Hrows as [->|[->| ->]]; [exact Hnd|exact Hnd1|].
    unfold one_row_a_day. by rewrite streaked_keys.
  - destruct Hrows as [->|[->| ->]]; [by left|by right|]. right. by rewrite streaked_keys.
  - intros Hr. destruct (Hok Hr) as (_ & _ & _ & ->). rewrite streaked_keys, Hkeys. split; [done|].
    destruct (rows_on u (today ds) (study_stats t)) as [|r0 l0] eqn:Hsel.
    + apply elem_of_app. right. by left.
    + rewrite app_nil_r.
      assert (Hr0 : r0 ∈ rows_on u (today ds) (study_stats t)) by (rewrite Hsel; by left).
      apply rows_on_user in Hr0 as (Hr0 & Hu0 & Hd0).
      apply list_elem_of_fmap. exists r0. split; [congruence|exact Hr0].
  - intros Hs. destruct Hrows as [->|[->| ->]]; [exact Hs|by apply counted_started|].
    by apply streaked_started, counted_started.
Qed.


(** X24. The streak of a day. When the database and the JavaScript clock
    agree on today and [updateStudyStats] returns, the streak of today's
    row is yesterday's streak plus one when the user has a row for
    yesterday with a positive streak; otherwise it is what today's row had,
    or 1 for a new row. It does not depend on the minutes, and recording
    further sessions on the same day does not change it, whether that
    further call returns or throws. The call returns when the user exists
    and the numbers fit [INTEGER] ([accepted]); a streak at the top of the
    range makes it throw instead. *)
Theorem streak_of_the_day (ds : Dates) (u minutes minutes' : Z) (c c' : bool) (t : Tables) :
  CURRENT_DATE ds = today ds ->
  yesterday ds <> today ds ->
  one_row_a_day (study_stats t) ->
  let r := updateStudyStats ds u minutes c t in
  let r' := updateStudyStats ds u minutes' c' r.2 in
  let before := match rows_on u (today ds) (study_stats t) with
                | r :: _ => streak_days r
                | [] => 1
                end in
  (accepted u minutes t = true -> r.1 = Ok tt)
  /\ (r.1 = Ok tt ->
      streak_days <$> rows_on u (today ds) (study_stats r.2)
      = [match rows_on u (yesterday ds) (study_stats t) with
         | r :: _ => if 0 <? streak_days r then streak_days r + 1 else before
         | [] => before
         end]
      /\ streak_days <$> rows_on u (today ds) (study_stats r'.2)
         = streak_days <$> rows_on u (today ds) (study_stats r.2)).
Proof.
  intros Hcd Hy Hnd. cbv zeta.
  destruct (updateStudyStats_cases ds u minutes c t) as (_ & _ & Hok & Hacc).
  cbv zeta in *. split; [exact Hacc|]. intros Hr. destruct (Hok Hr) as (_ & _ & _ & Hl').
  destruct (streak_after ds u minutes c (study_stats t) Hcd Hy Hnd) as [Hyes Hstreak].
  cbv zeta in Hstreak. rewrite <- Hl' in Hyes, Hstreak. split; [exact Hstreak|].
  assert (Hnd' : one_row_a_day (study_stats (updateStudyStats ds u minutes c t).2)).
  { rewrite Hl'. unfold one_row_a_day. rewrite streaked_keys. by apply counted_unique. }
  set (t' := (updateStudyStats ds u minutes c t).2) in *.
  destruct (updateStudyStats_cases ds u minutes' c' t') as (_ & Hrows' & _).
  cbv zeta in Hrows'.
  destruct (rows_on u (today ds) (study_stats t')) as [|r1 [|r2 l2]] eqn:Hsel;
    try discriminate.
  destruct Hrows' as [->|[->| ->]].
  - by rewrite Hsel.
  - rewrite today_row by exact Hnd'. by rewrite Hsel.
  - destruct (streak_after ds u minutes' c' (study_stats t') Hcd Hy Hnd') as [_ Hagain].
    cbv zeta in Hagain. rewrite Hagain, Hyes, Hsel. cbn. cbn in Hstreak.
    injection Hstreak as Hstreak. f_equal. rewrite Hstreak.
    destruct (rows_on u (yesterday ds) (study_stats t)) as [|r l]; [reflexivity|].
    by destruct (0 <? streak_days r).
Qed.

(** X25. Once [updateStudyStats] has returned for a user, [getCurrentStreak]
    returns at least 1 for that user, on a table whose streaks are all at
    least 1, and leaves the table as it is: the user has a row, the latest
    of the user's rows is found, and its streak is a started one.
    [updateStudyStats] returns when the user exists and the numbers fit
    [INTEGER] ([accepted]). *)
Theorem current_streak_positive (ds : Dates) (u minutes : Z) (c : bool) (t : Tables) :
  streaks_started (study_stats t) ->
  let r := updateStudyStats ds u minutes c t in
  (accepted u minutes t = true -> r.1 = Ok tt)
  /\ (r.1 = Ok tt ->
      exists z, getCurrentStreak u r.2 = (Ok z, r.2) /\ 1 <= z).
Proof.
  intros Hs. cbv zeta.
  destruct (updateStudyStats_cases ds u minutes c t) as (_ & _ & Hok & Hacc).
  cbv zeta in *. split; [exact Hacc|]. intros Hr. destruct (Hok Hr) as (Hu & _ & _ & Hl').
  set (t' := (updateStudyStats ds u minutes c t).2) in *.
  assert (Hs' : streaks_started (study_stats t'))
    by (rewrite Hl'; by apply streaked_started, counted_started).
  assert (Hrow : exists r, r ∈ study_stats t' /\ user_id r = u).
  { assert (Hkey : (u, today ds) ∈ key <$> study_stats t').
    { rewrite Hl', streaked_keys, counted_keys.
      destruct (rows_on u (today ds) (study_stats t)) as [|r l] eqn:Hsel.
      - apply elem_of_app. right. by left.
      - rewrite app_nil_r.
        assert (Hr0 : r ∈ rows_on u (today ds) (study_stats t)) by (rewrite Hsel; by left).
        apply rows_on_user in Hr0 as (Hr0 & Hu0 & Hd0).
        apply list_elem_of_fmap. exists r. split; [congruence|exact Hr0]. }
    apply list_elem_of_fmap in Hkey as (r & [= Hur _] & Hr0). by exists r. }
  unfold getCurrentStreak, parameter, bind, get, ret. rewrite Hu. cbv zeta.
  eexists. split; [reflexivity|].
  destruct Hrow as (r & Hr0 & Hur).
  assert (Hmine : filter (fun r => user_id r = u) (study_stats t') <> []).
  { intros Hnil. assert (Hin : r ∈ filter (fun r => user_id r = u) (study_stats t'))
      by (by apply list_elem_of_filter).
    rewrite Hnil in Hin. by apply elem_of_nil in Hin. }
  destruct (max_date_in _ Hmine) as (d & r0 & -> & Hin & Hd).
  destruct (filter (fun r => date r = d) (filter (fun r => user_id r = u) (study_stats t')))
    as [|r1 l1] eqn:Hf.
  - assert (Hr1 : r0 ∈ filter (fun r => date r = d)
                         (filter (fun r => user_id r = u) (study_stats t')))
      by (by apply list_elem_of_filter).
    rewrite Hf in Hr1. by apply elem_of_nil in Hr1.
  - assert (Hr1 : r1 ∈ filter (fun r => date r = d)
                         (filter (fun r => user_id r = u) (study_stats t')))
      by (rewrite Hf; by left).
    apply list_elem_of_filter in Hr1 as [_ Hr1]. apply list_elem_of_filter in Hr1 as [_ Hr1].
    exact (proj1 (Forall_forall _ _) Hs' r1 Hr1).
Qed.

End StatsExtras.

(** * The further properties on examples *)

Section ExtraInstances.

Import ApiIndex.

Lemma authenticateToken_second_word_witness :
  let scheme := lit "Basic" in
  let token := lit "abc" in
  let rest := lit " trailing" in
  let m := lit "GET" in
  let u := lit "/api/sessions" in
  Forall (fun c => c <> 32%N) scheme
  /\ Forall (fun c => c <> 32%N) token
  /\ (rest = [] \/ (exists rest', rest = 32%N :: rest'))
  /\ authenticateToken (R := ExampleRuntime.runtime)
       (mkRequest m u (Some (scheme ++ [32%N] ++ token ++ rest)) JNull)
     = match token with
       | [] => auth_error (lit "Access token required") 401
       | _ :: _ =>
           match jwt_verify (Runtime := ExampleRuntime.runtime) token with
           | Some user => auth_user user
           | None => auth_error (lit "Invalid token") 403
           end
       end
  /\ authenticateToken (R := ExampleRuntime.runtime) (mkRequest m u (Some scheme) JNull)
     = auth_error (lit "Access token required") 401
  /\ authenticateToken (R := ExampleRuntime.runtime) (mkRequest m u None JNull)
     = auth_error (lit "Access token required") 401.
Proof.
  cbv zeta.
  assert (H1 : Forall (fun c => c <> 32%N) (lit "Basic"))
    by (apply (bool_decide_unpack _); vm_compute; exact I).
  assert (H2 : Forall (fun c => c <> 32%N) (lit "abc"))
    by (apply (bool_decide_unpack _); vm_compute; exact I).
  assert (H3 : lit " trailing" = [] \/ (exists rest', lit " trailing" = 32%N :: rest'))
    by (right; eexists; vm_compute; reflexivity).
  split; [exact H1|]. split; [exact H2|]. split; [exact H3|].
  exact (authenticateToken_second_word (R := ExampleRuntime.runtime)
           (lit "GET") (lit "/api/sessions") JNull (lit "Basic") (lit "abc") (lit " trailing")
           H1 H2 H3).
Defined.

End ExtraInstances.

Section DatabaseInstances.

Import SesiBelajar Database.

(** Two users: user 1 owns session 7, user 2 owns session 8. *)
Local Abbreviation two_users :=
  (mkPg [mkRow 1 Examples.physics; mkRow 2 Examples.biology] 9 20).

Lemma other_users_untouched_witness :
  1 <> 0
  /\ 2 <> 1
  /\ filter (fun r => user_id r = 2) (study_sessions (run 1 (complete 8) two_users))
     = filter (fun r => user_id r = 2) (study_sessions two_users)
  /\ getSessionsByUserId 2 (run 1 (complete 8) two_users) = getSessionsByUserId 2 two_users.
Proof.
  assert (H1 : 1 <> 0) by lia.
  assert (H2 : 2 <> 1) by lia.
  split; [exact H1|]. split; [exact H2|].
  exact (other_users_untouched 1 2 (complete 8) two_users H1 H2).
Defined.

Lemma keys_stay_unique_witness :
  let d := as_data (Examples.math planned) in
  keyed two_users
  /\ admitted [1; 2] 1 (remove 7) two_users = true
  /\ admitted [1; 2] 1 (create d) two_users = true
  /\ keyed (run 1 (remove 7) two_users)
  /\ Forall (fun r => id (row r) <> (createSession 1 d two_users).1) (study_sessions two_users)
  /\ mkSession (createSession 1 d two_users).1 (title d) (subject d) (duration d) (status d)
       (description d) None (Some (pg_now two_users)) None None None None
     ∈ getSessionsByUserId 1 (createSession 1 d two_users).2.
Proof.
  cbv zeta.
  assert (H1 : keyed two_users).
  { split; [apply (bool_decide_unpack _); vm_compute; exact I|].
    apply (bool_decide_unpack _). vm_compute. exact I. }
  assert (H2 : admitted [1; 2] 1 (remove 7) two_users = true) by (vm_compute; reflexivity).
  assert (H3 : admitted [1; 2] 1 (create (as_data (Examples.math planned))) two_users = true)
    by (vm_compute; reflexivity).
  split; [exact H1|]. split; [exact H2|]. split; [exact H3|].
  exact (keys_stay_unique [1; 2] 1 (remove 7) (as_data (Examples.math planned)) two_users
           H1 H2 H3).
Defined.

Lemma delete_then_list_witness :
  1 <> 0
  /\ (Examples.physics ∈ getSessionsByUserId 1 (deleteSession 8 (Some 1) two_users)
      <-> Examples.physics ∈ getSessionsByUserId 1 two_users /\ id Examples.physics <> 8).
Proof.
  assert (H1 : 1 <> 0) by lia.
  split; [exact H1|].
  exact (delete_then_list 1 8 two_users Examples.physics H1).
Defined.

Lemma transition_then_list_witness :
  let s' := set_started_at 20 (set_status inprogress Examples.physics) in
  1 <> 0
  /\ (s' ∈ getSessionsByUserId 1 (startSession 7 (Some 1) two_users)
      <-> exists s, s ∈ getSessionsByUserId 1 two_users
                    /\ s' = if decide (id s = 7)
                            then set_started_at (pg_now two_users) (set_status inprogress s)
                            else s)
  /\ (s' ∈ getSessionsByUserId 1 (completeSession 7 (Some 1) two_users)
      <-> exists s, s ∈ getSessionsByUserId 1 two_users
                    /\ s' = if decide (id s = 7)
                            then set_completed_at (pg_now two_users) (set_status completed s)
                            else s).
Proof.
  cbv zeta.
  assert (H1 : 1 <> 0) by lia.
  split; [exact H1|].
  exact (transition_then_list 1 7 two_users
           (set_started_at 20 (set_status inprogress Examples.physics)) H1).
Defined.

End DatabaseInstances.

Section StatsInstances.

Import StudyStats.

(** Users 1 and 2. User 1 studied yesterday (day 99, a streak of 3) and
    once today (day 100); user 2 studied today. *)
Local Abbreviation tables :=
  (mkTables [1; 2]
     [mkStats 1 99 2 50 2 3; mkStats 1 100 1 25 1 4; mkStats 2 100 1 30 0 1] 4).
Local Abbreviation dates := (mkDates 100 99 100).

Lemma stats_rows_unique_witness :
  let r := updateStudyStats dates 2 45 true tables in
  let keys := (fun r => (user_id r, date r)) <$> study_stats tables in
  let gained := match rows_on 2 (today dates) (study_stats tables) with
                | [] => [(2, today dates)]
                | _ :: _ => []
                end in
  one_row_a_day (study_stats tables)
  /\ accepted 2 45 tables = true
  /\ users r.2 = users tables
  /\ one_row_a_day (study_stats r.2)
  /\ ((fun r => (user_id r, date r)) <$> study_stats r.2 = keys
      \/ (fun r => (user_id r, date r)) <$> study_stats r.2 = keys ++ gained)
  /\ (r.1 = Ok tt ->
      (fun r => (user_id r, date r)) <$> study_stats r.2 = keys ++ gained
      /\ (2, today dates) ∈ (fun r => (user_id r, date r)) <$> study_stats r.2)
  /\ (streaks_started (study_stats tables) -> streaks_started (study_stats r.2))
  /\ (accepted 2 45 tables = true -> r.1 = Ok tt).
Proof.
  cbv zeta.
  assert (H1 : one_row_a_day (study_stats tables))
    by (apply (bool_decide_unpack _); vm_compute; exact I).
  split; [exact H1|]. split; [vm_compute; reflexivity|].
  exact (stats_rows_unique dates 2 45 true tables H1).
Defined.


Lemma streak_of_the_day_witness :
  let r := updateStudyStats dates 1 45 true tables in
  let r' := updateStudyStats dates 1 10 false r.2 in
  let before := match rows_on 1 (today dates) (study_stats tables) with
                | r :: _ => streak_days r
                | [] => 1
                end in
  CURRENT_DATE dates = today dates
  /\ yesterday dates <> today dates
  /\ one_row_a_day (study_stats tables)
  /\ accepted 1 45 tables = true
  /\ (accepted 1 45 tables = true -> r.1 = Ok tt)
  /\ (r.1 = Ok tt ->
      streak_days <$> rows_on 1 (today dates) (study_stats r.2)
      = [match rows_on 1 (yesterday dates) (study_stats tables) with
         | r :: _ => if 0 <? streak_days r then streak_days r + 1 else before
         | [] => before
         end]
      /\ streak_days <$> rows_on 1 (today dates) (study_stats r'.2)
         = streak_days <$> rows_on 1 (today dates) (study_stats r.2)).
Proof.
  cbv zeta.
  assert (H1 : CURRENT_DATE dates = today dates) by reflexivity.
  assert (H2 : yesterday dates <> today dates) by (cbn; lia).
  assert (H3 : one_row_a_day (study_stats tables))
    by (apply (bool_decide_unpack _); vm_compute; exact I).
  split; [exact H1|]. split; [exact H2|]. split; [exact H3|].
  split; [vm_compute; reflexivity|].
  exact (streak_of_the_day dates 1 45 10 true false tables H1 H2 H3).
Defined.

Lemma current_streak_positive_witness :
  let r := updateStudyStats dates 2 45 true tables in
  streaks_started (study_stats tables)
  /\ accepted 2 45 tables = true
  /\ (accepted 2 45 tables = true -> r.1 = Ok tt)
  /\ (r.1 = Ok tt -> exists z, getCurrentStreak 2 r.2 = (Ok z, r.2) /\ 1 <= z).
Proof.
  cbv zeta.
  assert (H1 : streaks_started (study_stats tables))
    by (apply (bool_decide_unpack _); vm_compute; exact I).
  split; [exact H1|]. split; [vm_compute; reflexivity|].
  exact (current_streak_positive dates 2 45 true tables H1).
Defined.

(** Minutes outside [INTEGER] for a user with no row: the [INSERT] does not
    run, the call throws, nothing is written and [getCurrentStreak] still
    finds no row. *)
Example minutes_out_of_range :
  let t := mkTables [1; 2] [] 1 in
  let r := updateStudyStats dates 2 2147483648 true t in
  r.1 = Throw (lit "value is out of range for type integer")
  /\ r.2 = t
  /\ getCurrentStreak 2 r.2 = (Ok 0, t).
Proof. vm_compute. done. Qed.

(** A sum that leaves [INTEGER]: the [UPDATE] is refused and the row keeps
    its counters. *)
Example minutes_overflow :
  let t := mkTables [1] [mkStats 1 100 7 2147483600 7 1] 2 in
  let r := updateStudyStats dates 1 100 true t in
  r.1 = Throw (lit "integer out of range") /\ r.2 = t.
Proof. vm_compute. done. Qed.

(** A user that [users] does not hold: the [INSERT] is refused. *)
Example unknown_user :
  let t := mkTables [1] [] 1 in
  let r := updateStudyStats dates 5 30 true t in
  r.1 = Throw (lit "violates foreign key constraint")
  /\ study_stats r.2 = [].
Proof. vm_compute. done. Qed.

End StatsInstances.
